(** * networks/unet_ae.py: a U-Net autoencoder with a domain classifier

    A shallow embedding of [src/networks/unet_ae.py].

    - Dense tensors are records of a shape and of the row-major list of their
      entries.  Floating-point entries are idealised as exact rationals [Q];
      integer ([long]) entries are [Z].
    - Losses are floats: exact rationals when finite, with the infinities
      and NaN of IEEE 754 besides.
    - The modules imported from [networks.blocks], [networks.cnn] and from
      the tensor library (convolution blocks, pooling, the CNN classifier,
      the loss functions, automatic differentiation, the optimiser, the
      scheduler) are not part of the file.  They are the fields of the class
      [Backend]; everything is proved for every backend.
    - Python exceptions raised by the file's own control flow (list indexing,
      division and modulo by zero, attribute access on [None]) are values of
      [exn]; effects (standard output, the summary writer, saved files) are
      events appended to the world's output. *)

From Stdlib Require Import DecimalString DecimalNat.
From Stdlib Require Import String Ascii Bool Arith ZArith QArith Lia List.
Import ListNotations.

Set Implicit Arguments.

(** ** Tensors *)

Record Tensor (A : Type) : Type := mkTensor {
  shape : list nat;
  data : list A
}.

Arguments mkTensor {A} _ _.

(** A float tensor and a [long] tensor. *)
Definition FT : Type := Tensor Q.
Definition LT : Type := Tensor Z.

(** [t.size(0)]. *)
Definition size0 {A} (t : Tensor A) : nat := hd 0%nat (shape t).

(** [x.view_as(other)]: the entries of [x] under the shape of [other]. *)
Definition view_as {A} (x other : Tensor A) : Tensor A :=
  mkTensor (shape other) (data x).

(** [t.neg()]. *)
Definition neg (t : FT) : FT := mkTensor (shape t) (map Qopp (data t)).

(** [torch.zeros((n))] and [torch.ones((n))]. *)
Definition zeros (n : nat) : FT := mkTensor [n] (repeat 0%Q n).
Definition ones (n : nat) : FT := mkTensor [n] (repeat 1%Q n).

(** [t.long()]: conversion to integers, truncating towards zero. *)
Definition long (t : FT) : LT :=
  mkTensor (shape t) (map (fun q => Z.quot (Qnum q) (Zpos (Qden q))) (data t)).

(** [t.cuda()] moves a tensor to another device; its value is unchanged. *)
Definition cuda {A} (t : Tensor A) : Tensor A := t.

(** [torch.cat((a, b), dim=0)] on operands whose trailing dimensions agree:
    the leading dimensions add up and, the layout being row-major, the
    entries of [b] follow those of [a]. *)
Definition cat {A} (a b : Tensor A) : Tensor A :=
  mkTensor ((size0 a + size0 b)%nat :: tl (shape a)) (data a ++ data b).

(** ** Gradient reversal *)

Module ReverseLayerF.

(** The context object [ctx] of an autograd [Function]; nothing is saved
    in it here. *)
Definition ctx : Type := unit.

Definition forward (_ : ctx) (x : FT) : FT := view_as x x.

(** [return output, None] *)
Definition backward (_ : ctx) (grad_output : FT) : FT * option FT :=
  let output := neg grad_output in
  (output, None).

(** [ReverseLayerF.apply(x)] runs [forward] with a fresh context. *)
Definition apply (x : FT) : FT := forward tt x.

End ReverseLayerF.

(** ** Floats *)

(** The value of a loss.  A finite float is idealised as an exact rational
    (no rounding, no overflow); the infinities and NaN are those of
    IEEE 754, with its rules for sums, products and comparisons. *)
Inductive pyfloat : Type :=
| finite (q : Q)
| pos_inf
| neg_inf
| nan.

Coercion finite : Q >-> pyfloat.

Declare Scope float_scope.
Delimit Scope float_scope with float.
Bind Scope float_scope with pyfloat.

(** [np.inf] *)
Definition np_inf : pyfloat := pos_inf.

Definition Qlt_bool (a b : Q) : bool := negb (Qle_bool b a).

Definition is_nan (a : pyfloat) : bool :=
  match a with
  | nan => true
  | _ => false
  end.

(** [a + b] *)
Definition fadd (a b : pyfloat) : pyfloat :=
  match a, b with
  | nan, _ | _, nan => nan
  | finite p, finite q => finite (p + q)
  | pos_inf, neg_inf | neg_inf, pos_inf => nan
  | pos_inf, _ | _, pos_inf => pos_inf
  | neg_inf, _ | _, neg_inf => neg_inf
  end.

(** The product of an infinity [inf] by the finite [q]: NaN for zero,
    [inf] or its opposite [opp] by the sign of [q]. *)
Definition scaled (q : Q) (inf opp : pyfloat) : pyfloat :=
  match (q ?= 0)%Q with
  | Eq => nan
  | Gt => inf
  | Lt => opp
  end.

(** [a * b] *)
Definition fmul (a b : pyfloat) : pyfloat :=
  match a, b with
  | nan, _ | _, nan => nan
  | finite p, finite q => finite (p * q)
  | finite p, pos_inf | pos_inf, finite p => scaled p pos_inf neg_inf
  | finite p, neg_inf | neg_inf, finite p => scaled p neg_inf pos_inf
  | pos_inf, pos_inf | neg_inf, neg_inf => pos_inf
  | pos_inf, neg_inf | neg_inf, pos_inf => neg_inf
  end.

(** [a / n] for a counter [n] that is not zero. *)
Definition fdiv_count (a : pyfloat) (n : nat) : pyfloat :=
  match a with
  | finite q => finite (q / inject_Z (Z.of_nat n))
  | _ => a
  end.

(** [a < b]: false as soon as one side is NaN. *)
Definition flt (a b : pyfloat) : bool :=
  match a, b with
  | nan, _ | _, nan => false
  | finite p, finite q => Qlt_bool p q
  | _, neg_inf => false
  | neg_inf, _ => true
  | pos_inf, _ => false
  | finite _, pos_inf => true
  end.

(** Two floats are the same number: equal rationals, or the same
    infinity, or both NaN. *)
Definition feq (a b : pyfloat) : Prop :=
  match a, b with
  | finite p, finite q => (p == q)%Q
  | pos_inf, pos_inf | neg_inf, neg_inf | nan, nan => True
  | _, _ => False
  end.

Infix "+" := fadd : float_scope.
Infix "*" := fmul : float_scope.
Infix "==" := feq (at level 70, no associativity) : float_scope.
Infix "<?" := flt (at level 70, no associativity) : float_scope.

Open Scope float_scope.

(** ** Exceptions of the file's own control flow *)

Inductive exn : Type :=
| IndexError          (* a list index out of range *)
| ZeroDivisionError   (* [/] or [%] by zero *)
| AttributeError      (* a method called on [None] *)
| TypeError           (* [os.path.join(None, ...)] *)
| UnboundLocalError.  (* a local variable read before any assignment *)

(** [a % b] on Python integers: the sign of the result is that of [b]. *)
Definition py_mod (a b : Z) : exn + Z :=
  if (b =? 0)%Z then inl ZeroDivisionError else inr (a mod b)%Z.

(** [total / cnt], a float divided by an integer counter. *)
Definition py_div (total : pyfloat) (cnt : nat) : exn + pyfloat :=
  match cnt with
  | O => inl ZeroDivisionError
  | S _ => inr (fdiv_count total cnt)
  end.

(** [list(enumerate(l))] *)
Definition enumerate {A} (l : list A) : list (nat * A) :=
  combine (seq 0 (List.length l)) l.

(** [os.path.join(a, b)] for a relative [b]. *)
Definition ends_with_slash (a : string) : bool :=
  match String.get (String.length a - 1) a with
  | Some c => Ascii.eqb c "/"%char
  | None => false
  end.

Definition path_join (a b : string) : string :=
  if (String.length a =? 0)%nat then b
  else if ends_with_slash a then (a ++ b)%string
  else (a ++ "/" ++ b)%string.

Definition os_path_join (a : option string) (b : string) : exn + string :=
  match a with
  | None => inl TypeError
  | Some a => inr (path_join a b)
  end.

(** ** The imported modules *)

(** The state of the [nn.Module] (weights, buffers, gradients, mode) is
    [net]; that of the optimiser is [optim]; that of the scheduler is
    [sched].  Sub-modules registered under a numbered name
    (['convblock%d' % (i + 1)]) take that number. *)
Class Backend : Type := {
  net : Type;
  optim : Type;
  sched : Type;
  (* networks.blocks and torch.nn *)
  enc_convblock : net -> nat -> FT -> FT;       (* encoder.features.convblock<k> *)
  enc_pool : nat -> FT -> FT;                   (* encoder.features.pool<k> *)
  enc_center_conv : net -> FT -> FT;            (* encoder.center_conv *)
  dec_upconv : net -> nat -> option FT -> FT -> FT;
    (* decoder.features.upconv<k>, called as [upconv(skip, outputs)] or
       as [upconv(outputs)] *)
  dec_convblock : net -> nat -> FT -> FT;       (* decoder.features.convblock<k> *)
  dec_output : net -> FT -> FT;                 (* decoder.output *)
  (* networks.cnn *)
  CNN_forward : net -> FT -> FT;                (* domain_classifier *)
  (* nn.Module *)
  module_train : bool -> net -> net;            (* train() and eval() *)
  zero_grad : net -> net;
  (* torch.nn.CrossEntropyLoss *)
  CrossEntropyLoss : FT -> LT -> pyfloat;
  (* autograd: the gradients left in the parameters by [loss.backward()],
     from the gradients that reach [loss_rec] and [loss_dom] *)
  autograd : net -> (FT -> FT -> pyfloat) -> FT -> LT -> pyfloat -> pyfloat
             -> net;
  (* torch.optim *)
  Adam : net -> Q -> optim;
  optimizer_step : optim -> net -> optim * net;
  StepLR : optim -> Z -> Q -> sched;
  StepLR_step : sched -> nat -> optim -> sched * optim;
  StepLR_get_lr : sched -> optim -> Q;          (* get_lr()[0] *)
  (* torchvision.utils and torch *)
  make_grid : FT -> FT;
  sigmoid : FT -> FT
}.

(** ** Effects *)

(** What a pass over a [DataLoader] yields, with the two attributes the
    progress line reads. *)
Record DataLoader : Type := mkLoader {
  batches : list FT;
  dataset_len : nat;      (* len(loader.dataset) *)
  batch_size : positive   (* loader.batch_size *)
}.

(** [SummaryWriter(log_dir=log_dir)] *)
Record SummaryWriter : Type := mkWriter { writer_log_dir : string }.

(** The lines printed on standard output, without their time stamp. *)
Inductive message : Type :=
| MsgEpoch (epoch epochs : nat)
| MsgIteration (epoch i : nat) (total : Q) (loss : pyfloat)
| MsgAvgTrain (epoch : nat) (loss_avg : pyfloat)
| MsgAvgTest (epoch : nat) (loss_avg : pyfloat).

Section Effects.
Context {B : Backend}.

Inductive event : Type :=
| print (m : message)
| add_scalar (tag : string) (value : pyfloat) (step : nat)
| add_image (tag : string) (img : FT) (step : nat)
| torch_save (obj : net) (path : string)
| writer_close.

(** The objects the methods mutate and what they have output so far. *)
Record world : Type := mkWorld {
  w_net : net;            (* self *)
  w_optim : optim;        (* optimizer *)
  w_out : list event
}.

(** A computation ends in a world, by a return or by an exception. *)
Definition M (A : Type) : Type := world -> world * (exn + A).

Definition ret {A} (a : A) : M A := fun w => (w, inr a).

Definition bind {A C} (c : M A) (k : A -> M C) : M C :=
  fun w =>
    match c w with
    | (w', inl e) => (w', inl e)
    | (w', inr a) => k a w'
    end.

Definition raise {A} (e : exn) : M A := fun w => (w, inl e).

Definition lift {A} (r : exn + A) : M A := fun w => (w, r).

Definition emit (ev : event) : M unit :=
  fun w => (mkWorld (w_net w) (w_optim w) (w_out w ++ [ev]), inr tt).

Definition get_net : M net := fun w => (w, inr (w_net w)).

Definition set_net (nt : net) : M unit :=
  fun w => (mkWorld nt (w_optim w) (w_out w), inr tt).

Definition get_optim : M optim := fun w => (w, inr (w_optim w)).

Definition set_optim (op : optim) : M unit :=
  fun w => (mkWorld (w_net w) op (w_out w), inr tt).

(** [for a in l: s = body(a, s)] *)
Fixpoint for_each {A S} (body : A -> S -> M S) (l : list A) (s : S) : M S :=
  match l with
  | [] => ret s
  | a :: l' => bind (body a s) (for_each body l')
  end.

(** [l[i]] *)
Definition index {A} (l : list A) (i : nat) : M A :=
  match nth_error l i with
  | Some a => ret a
  | None => raise IndexError
  end.

End Effects.

Declare Scope monad_scope.
Delimit Scope monad_scope with monad.
Notation "x <- c1 ;; c2" := (bind c1 (fun x => c2))
  (at level 61, c1 at next level, right associativity) : monad_scope.
Notation "' pat <- c1 ;; c2" :=
  (bind c1 (fun x => match x with pat => c2 end))
  (at level 61, pat pattern, c1 at next level, right associativity)
  : monad_scope.
Notation "c1 ;; c2" := (bind c1 (fun _ => c2))
  (at level 61, right associativity) : monad_scope.

(** ** The encoder *)

Module UNetEncoder.
Section WithBackend.
Context {B : Backend}.

Record t : Type := init {
  in_channels : nat;
  feature_maps : nat;
  levels : nat;
  group_norm : bool
}.

(** The body of [for i in range(self.levels)], on the local variables
    [outputs] and [encoder_outputs]. *)
Fixpoint loop (nt : net) (range : list nat) (outputs : FT)
  (encoder_outputs : list FT) : FT * list FT :=
  match range with
  | [] => (outputs, encoder_outputs)
  | i :: range' =>
      let outputs := enc_convblock nt (i + 1) outputs in
      let encoder_outputs := encoder_outputs ++ [outputs] in
      let outputs := enc_pool (i + 1) outputs in
      loop nt range' outputs encoder_outputs
  end.

Definition forward (self : t) (nt : net) (inputs : FT)
  : list FT * FT * FT :=
  let encoder_outputs := [] in
  let outputs := inputs in
  let '(outputs, encoder_outputs) :=
    loop nt (seq 0 (levels self)) outputs encoder_outputs in
  let outputs := enc_center_conv nt outputs in
  let reverse_outputs := ReverseLayerF.apply outputs in
  (encoder_outputs, outputs, reverse_outputs).

End WithBackend.
End UNetEncoder.

(** ** The decoder *)

Module UNetDecoder.
Section WithBackend.
Context {B : Backend}.

Record t : Type := init {
  in_channels : nat;
  out_channels : nat;
  feature_maps : nat;
  levels : nat;
  skip_connections : bool;
  group_norm : bool
}.

(** The body of [for i in range(self.levels)].  [encoder_outputs[i]] raises
    [IndexError] past the end of the list. *)
Fixpoint loop (self : t) (nt : net) (encoder_outputs : list FT)
  (range : list nat) (outputs : FT) (decoder_outputs : list FT)
  : exn + (FT * list FT) :=
  match range with
  | [] => inr (outputs, decoder_outputs)
  | i :: range' =>
      let upsampled :=
        if skip_connections self then
          match nth_error encoder_outputs i with
          | Some e => inr (dec_upconv nt (i + 1) (Some e) outputs)
          | None => inl IndexError
          end
        else inr (dec_upconv nt (i + 1) None outputs) in
      match upsampled with
      | inl e => inl e
      | inr outputs =>
          let outputs := dec_convblock nt (i + 1) outputs in
          let decoder_outputs := decoder_outputs ++ [outputs] in
          loop self nt encoder_outputs range' outputs decoder_outputs
      end
  end.

(** [encoder_outputs] is the caller's list object: the first component of
    the result is that object's content when the call ends (by return or
    by exception), the second is what the call returns or raises. *)
Definition forward (self : t) (nt : net) (inputs : FT)
  (encoder_outputs : list FT)
  : list FT * (exn + (list FT * FT)) :=
  let decoder_outputs := [] in
  let encoder_outputs := rev encoder_outputs in   (* encoder_outputs.reverse() *)
  let outputs := inputs in
  match loop self nt encoder_outputs (seq 0 (levels self)) outputs
          decoder_outputs with
  | inl e => (encoder_outputs, inl e)
  | inr (outputs, decoder_outputs) =>
      let outputs := dec_output nt outputs in
      (encoder_outputs, inr (decoder_outputs, outputs))
  end.

End WithBackend.
End UNetDecoder.

(** ** The model *)

Module CNN.

(** The constructor arguments of [networks.cnn.CNN]. *)
Record t : Type := init {
  input_size : nat * nat * nat;
  conv_channels : list nat;
  fc_channels : list nat
}.

End CNN.

Module UNetAE.
Section WithBackend.
Context {B : Backend}.

Record t : Type := mk {
  in_channels : nat;
  out_channels : nat;
  feature_maps : nat;
  levels : nat;
  group_norm : bool;
  lambda_rec : pyfloat;
  encoder : UNetEncoder.t;
  decoder : UNetDecoder.t;
  domain_classifier : CNN.t
}.

(** [UNetAE.__init__] *)
Definition init (in_channels out_channels feature_maps levels : nat)
  (group_norm : bool) (lambda_rec : pyfloat) (s : nat) : t :=
  let encoder :=
    UNetEncoder.init in_channels feature_maps levels group_norm in
  let decoder :=
    UNetDecoder.init in_channels out_channels feature_maps levels
      false group_norm in
  let n := (s / (2 ^ levels))%nat in
  let fm := (feature_maps * (2 ^ levels))%nat in
  let conv_channels := [48; 48; 48]%nat in
  let fc_channels := [48; 24; 2]%nat in
  mk in_channels out_channels feature_maps levels group_norm lambda_rec
     encoder decoder
     (CNN.init (fm, n, n) conv_channels fc_channels).

(** The default arguments of the constructor. *)
Definition default : t := init 1 1 64 4 false 0 128.

(** [UNetAE.forward]; the list [encoder_outputs] is local to the call. *)
Definition forward (self : t) (nt : net) (inputs : FT) : exn + (FT * FT) :=
  let '(encoder_outputs, final_output, reverse_outputs) :=
    UNetEncoder.forward (encoder self) nt inputs in
  let domain := CNN_forward nt reverse_outputs in
  match snd (UNetDecoder.forward (decoder self) nt final_output
               encoder_outputs) with
  | inl e => inl e
  | inr (decoder_outputs, outputs) => inr (outputs, domain)
  end.

(** *** Training for one epoch *)

(** The local variables the loops of [train_epoch] and [test_epoch] keep
    from one iteration to the next; [last] holds [x] and [y_pred]. *)
Record running : Type := mkRunning {
  loss_rec_cum : pyfloat;
  loss_dom_cum : pyfloat;
  loss_cum : pyfloat;
  cnt : nat;
  last : option (FT * FT)
}.

Definition running0 : running := mkRunning 0 0 0 0 None.

(** [loss.backward()] on [loss = loss_rec + lambda_rec * loss_dom]: the
    gradient [g] of [loss] reaches [loss_rec] as it is and [loss_dom]
    scaled by [lambda_rec]. *)
Definition loss_backward (lambda_rec : pyfloat) (g : pyfloat)
  : pyfloat * pyfloat :=
  (g, (lambda_rec * g)%float).

Local Open Scope monad_scope.

(** The body of the loop of [train_epoch]. *)
Definition train_iteration (self : t) (src_loader : DataLoader)
  (tar_data : list (nat * FT)) (loss_fn : FT -> FT -> pyfloat) (epoch : nat)
  (print_stats : Z) (i_data : nat * FT) (r : running) : M running :=
  let '(i, data) := i_data in
  (* get the inputs *)
  let x_src := cuda data in
  tar_i <- index tar_data i ;;
  let x_tar := cuda (snd tar_i) in
  let x := cat x_src x_tar in
  (* prep domain labels *)
  let dom_src := long (cuda (zeros (size0 x_src))) in
  let dom_tar := long (cuda (ones (size0 x_tar))) in
  let dom := cat dom_src dom_tar in
  (* zero the gradient buffers *)
  nt <- get_net ;;
  set_net (zero_grad nt) ;;
  (* forward prop *)
  nt <- get_net ;;
  ' (y_pred, dom_pred) <- lift (forward self nt x) ;;
  (* compute loss *)
  let loss_rec := loss_fn y_pred x in
  let loss_dom := CrossEntropyLoss dom_pred dom in
  let loss := (loss_rec + lambda_rec self * loss_dom)%float in
  let r := mkRunning (loss_rec_cum r + loss_rec) (loss_dom_cum r + loss_dom)
             (loss_cum r + loss) (cnt r + 1)%nat (Some (x, y_pred)) in
  (* backward prop *)
  let '(g_rec, g_dom) := loss_backward (lambda_rec self) 1 in
  set_net (autograd nt loss_fn x dom g_rec g_dom) ;;
  (* apply one step in the optimization *)
  nt <- get_net ;;
  op <- get_optim ;;
  let '(op, nt) := optimizer_step op nt in
  set_optim op ;;
  set_net nt ;;
  (* print statistics if necessary *)
  m <- lift (py_mod (Z.of_nat i) print_stats) ;;
  (if (m =? 0)%Z then
     emit (print (MsgIteration epoch i
                    (Z.of_nat (dataset_len src_loader) # batch_size src_loader)
                    loss))
   else ret tt) ;;
  ret r.

Definition train_epoch (self : t) (src_loader tar_loader : DataLoader)
  (loss_fn : FT -> FT -> pyfloat) (epoch : nat) (print_stats : Z)
  (writer : option SummaryWriter) (write_images : bool) : M pyfloat :=
  (* make sure network is in training mode *)
  nt <- get_net ;;
  set_net (module_train true nt) ;;
  (* start epoch *)
  let tar_data := enumerate (batches tar_loader) in
  r <- for_each
         (train_iteration self src_loader tar_data loss_fn epoch print_stats)
         (enumerate (batches src_loader)) running0 ;;
  (* compute the average and print it *)
  loss_rec_avg <- lift (py_div (loss_rec_cum r) (cnt r)) ;;
  loss_dom_avg <- lift (py_div (loss_dom_cum r) (cnt r)) ;;
  loss_avg <- lift (py_div (loss_cum r) (cnt r)) ;;
  emit (print (MsgAvgTrain epoch loss_avg)) ;;
  (* log everything *)
  match writer with
  | Some _ =>
      emit (add_scalar "train/loss-rec" loss_rec_avg epoch) ;;
      emit (add_scalar "train/loss-dom" loss_dom_avg epoch) ;;
      emit (add_scalar "train/loss" loss_avg epoch) ;;
      if write_images then
        match last r with
        | Some (x, y_pred) =>
            let x := make_grid x in
            let x_rec := make_grid (sigmoid y_pred) in
            emit (add_image "train/x-rec-input" x epoch) ;;
            emit (add_image "train/x-rec-output" x_rec epoch)
        | None => raise UnboundLocalError
        end
      else ret tt
  | None => ret tt
  end ;;
  ret loss_avg.

(** *** Testing over one epoch *)

(** The body of the loop of [test_epoch]. *)
Definition test_iteration (self : t) (tar_data : list (nat * FT))
  (loss_fn : FT -> FT -> pyfloat) (i_data : nat * FT) (r : running) : M running :=
  let '(i, data) := i_data in
  (* get the inputs *)
  let x_src := cuda data in
  tar_i <- index tar_data i ;;
  let x_tar := cuda (snd tar_i) in
  let x := cat x_src x_tar in
  (* prep domain labels *)
  let dom_src := long (cuda (zeros (size0 x_src))) in
  let dom_tar := long (cuda (ones (size0 x_tar))) in
  let dom := cat dom_src dom_tar in
  (* forward prop *)
  nt <- get_net ;;
  ' (y_pred, dom_pred) <- lift (forward self nt x) ;;
  (* compute loss *)
  let loss_rec := loss_fn y_pred x in
  let loss_dom := CrossEntropyLoss dom_pred dom in
  let loss := (loss_rec + lambda_rec self * loss_dom)%float in
  ret (mkRunning (loss_rec_cum r + loss_rec) (loss_dom_cum r + loss_dom)
         (loss_cum r + loss) (cnt r + 1)%nat (Some (x, y_pred))).

Definition test_epoch (self : t) (src_loader tar_loader : DataLoader)
  (loss_fn : FT -> FT -> pyfloat) (epoch : nat)
  (writer : option SummaryWriter) (write_images : bool) : M pyfloat :=
  (* make sure network is in evaluation mode *)
  nt <- get_net ;;
  set_net (module_train false nt) ;;
  (* test loss *)
  let tar_data := enumerate (batches tar_loader) in
  r <- for_each (test_iteration self tar_data loss_fn)
         (enumerate (batches src_loader)) running0 ;;
  (* compute the average and print it *)
  loss_rec_avg <- lift (py_div (loss_rec_cum r) (cnt r)) ;;
  loss_dom_avg <- lift (py_div (loss_dom_cum r) (cnt r)) ;;
  loss_avg <- lift (py_div (loss_cum r) (cnt r)) ;;
  emit (print (MsgAvgTest epoch loss_avg)) ;;
  (* log everything *)
  match writer with
  | Some _ =>
      emit (add_scalar "test/loss-rec" loss_rec_avg epoch) ;;
      emit (add_scalar "test/loss-dom" loss_dom_avg epoch) ;;
      emit (add_scalar "test/loss" loss_avg epoch) ;;
      if write_images then
        match last r with
        | Some (x, y_pred) =>
            let x := make_grid x in
            let x_rec := make_grid (sigmoid y_pred) in
            emit (add_image "test/x-rec-input" x epoch) ;;
            emit (add_image "test/x-rec-output" x_rec epoch)
        | None => raise UnboundLocalError
        end
      else ret tt
  | None => ret tt
  end ;;
  ret loss_avg.

(** *** Training the network *)

(** [writer.add_scalar(...)] and [writer.close()] on a writer that may be
    [None]. *)
Definition writer_add_scalar (writer : option SummaryWriter) (tag : string)
  (value : pyfloat) (step : nat) : M unit :=
  match writer with
  | Some _ => emit (add_scalar tag value step)
  | None => raise AttributeError
  end.

Definition writer_do_close (writer : option SummaryWriter) : M unit :=
  match writer with
  | Some _ => emit writer_close
  | None => raise AttributeError
  end.

(** The body of [for epoch in range(epochs)], on the local variables
    [test_loss_min] and [scheduler]. *)
Definition train_net_epoch (self : t)
  (src_train_loader src_test_loader tar_train_loader tar_test_loader
     : DataLoader)
  (loss_fn : FT -> FT -> pyfloat) (epochs : nat) (test_freq print_stats : Z)
  (log_dir : option string) (write_images_freq : Z)
  (writer : option SummaryWriter) (epoch : nat)
  (st : pyfloat * option sched) : M (pyfloat * option sched) :=
  let '(test_loss_min, scheduler) := st in
  emit (print (MsgEpoch epoch epochs)) ;;
  (* train the model for one epoch *)
  wi <- lift (py_mod (Z.of_nat epoch) write_images_freq) ;;
  train_epoch self src_train_loader tar_train_loader loss_fn epoch
    print_stats writer (wi =? 0)%Z ;;
  (* adjust learning rate if necessary *)
  scheduler <-
    match scheduler with
    | Some sc =>
        op <- get_optim ;;
        let '(sc, op) := StepLR_step sc epoch op in
        set_optim op ;;
        (* and keep track of the learning rate *)
        writer_add_scalar writer "learning_rate" (StepLR_get_lr sc op) epoch ;;
        ret (Some sc)
    | None => ret None
    end ;;
  (* test the model for one epoch if necessary *)
  m <- lift (py_mod (Z.of_nat epoch) test_freq) ;;
  test_loss_min <-
    (if (m =? 0)%Z then
       test_loss <- test_epoch self src_test_loader tar_test_loader loss_fn
                      epoch writer true ;;
       (* and save model if lower test loss is found *)
       if (test_loss <? test_loss_min)%float then
         path <- lift (os_path_join log_dir "best_checkpoint.pytorch") ;;
         nt <- get_net ;;
         emit (torch_save nt path) ;;
         ret test_loss
       else ret test_loss_min
     else ret test_loss_min) ;;
  (* save model every epoch *)
  path <- lift (os_path_join log_dir "checkpoint.pytorch") ;;
  nt <- get_net ;;
  emit (torch_save nt path) ;;
  ret (test_loss_min, scheduler).

Definition train_net (self : t)
  (src_train_loader src_test_loader tar_train_loader tar_test_loader
     : DataLoader)
  (loss_fn : FT -> FT -> pyfloat) (lr : Q) (step_size : Z) (gamma : Q)
  (epochs : nat) (test_freq print_stats : Z) (log_dir : option string)
  (write_images_freq : Z) : M unit :=
  (* log everything if necessary *)
  let writer :=
    match log_dir with
    | Some d => Some (mkWriter d)
    | None => None
    end in
  nt <- get_net ;;
  let optimizer := Adam nt lr in
  set_optim optimizer ;;
  let scheduler := Some (StepLR optimizer step_size gamma) in
  let test_loss_min := np_inf in
  for_each
    (train_net_epoch self src_train_loader src_test_loader tar_train_loader
       tar_test_loader loss_fn epochs test_freq print_stats log_dir
       write_images_freq writer)
    (seq 0 epochs) (test_loss_min, scheduler) ;;
  writer_do_close writer.

End WithBackend.
End UNetAE.

(** ** Definitions used to state the properties *)

Section Statements.
Context {B : Backend}.

(** The latent encoding: what the loop of the encoder leaves in [outputs],
    through the center block. *)
Definition center_output (levels : nat) (nt : net) (inputs : FT) : FT :=
  enc_center_conv nt (fst (UNetEncoder.loop nt (seq 0 levels) inputs [])).

(** A decoder with skip connections: level [k] combines the stored encoder
    output [e] with the feature map [outputs] in its up-sampling block,
    then applies its convolutional block. *)
Fixpoint decoder_with_skips (nt : net) (skips : list FT) (k : nat)
  (outputs : FT) : list FT :=
  match skips with
  | [] => []
  | e :: skips' =>
      let o := dec_convblock nt k (dec_upconv nt k (Some e) outputs) in
      o :: decoder_with_skips nt skips' (S k) o
  end.

(** A decoder without skip connections, [n] levels from level [k] on. *)
Fixpoint decoder_without_skips (nt : net) (n : nat) (k : nat)
  (outputs : FT) : list FT :=
  match n with
  | O => []
  | S n' =>
      let o := dec_convblock nt k (dec_upconv nt k None outputs) in
      o :: decoder_without_skips nt n' (S k) o
  end.

(** The decoder's output, as [UNetAE.forward] obtains it. *)
Definition decoder_output (self : UNetAE.t) (nt : net) (x : FT) : option FT :=
  let '(encoder_outputs, final_output, _) :=
    UNetEncoder.forward (UNetAE.encoder self) nt x in
  match snd (UNetDecoder.forward (UNetAE.decoder self) nt final_output
               encoder_outputs) with
  | inr (_, outputs) => Some outputs
  | inl _ => None
  end.

(** The two results of the forward pass of a model of [levels] levels
    whose decoder has no skip connections. *)
Definition y_pred_of (levels : nat) (nt : net) (x : FT) : FT :=
  dec_output nt
    (last (decoder_without_skips nt levels 1 (center_output levels nt x))
       (center_output levels nt x)).

Definition dom_pred_of (levels : nat) (nt : net) (x : FT) : FT :=
  CNN_forward nt (center_output levels nt x).

(** Domain labels: 0 for each of the [n] source inputs, then 1 for each of
    the [m] target inputs. *)
Definition domain_labels (n m : nat) : LT :=
  mkTensor [(n + m)%nat] (repeat 0%Z n ++ repeat 1%Z m).

(** The sum and the arithmetic mean of a list of numbers. *)
Definition fsum (l : list pyfloat) : pyfloat := fold_right fadd 0 l.

Definition arith_mean (l : list pyfloat) : pyfloat :=
  fdiv_count (fsum l) (List.length l).

(** The reconstruction loss and the domain loss of the batch made of
    [x_src] and [x_tar], for the network in state [nt]. *)
Definition batch_losses (self : UNetAE.t) (loss_fn : FT -> FT -> pyfloat)
  (nt : net) (x_src x_tar : FT) : option (pyfloat * pyfloat) :=
  let x := cat x_src x_tar in
  match UNetAE.forward self nt x with
  | inr (y_pred, dom_pred) =>
      Some (loss_fn y_pred x,
            CrossEntropyLoss dom_pred
              (domain_labels (size0 x_src) (size0 x_tar)))
  | inl _ => None
  end.

(** The total loss of a batch from its two losses. *)
Definition total_loss (lambda_rec : pyfloat) (p : pyfloat * pyfloat)
  : pyfloat :=
  fst p + lambda_rec * snd p.

(** The losses of the batches of a training epoch, each for the state the
    network is in when the batch is reached: that of world [w] for the
    first batch of [l], after its gradients are zeroed. *)
Fixpoint train_losses (self : UNetAE.t) (src_loader : DataLoader)
  (tar_data : list (nat * FT)) (loss_fn : FT -> FT -> pyfloat) (epoch : nat)
  (print_stats : Z) (l : list (nat * FT)) (w : world)
  : list (pyfloat * pyfloat) :=
  match l with
  | [] => []
  | (i, data) :: l' =>
      match nth_error tar_data i with
      | Some (_, t) =>
          match batch_losses self loss_fn (zero_grad (w_net w)) data t with
          | Some p =>
              p :: train_losses self src_loader tar_data loss_fn epoch
                     print_stats l'
                     (fst (UNetAE.train_iteration self src_loader tar_data
                             loss_fn epoch print_stats (i, data)
                             UNetAE.running0 w))
          | None => []
          end
      | None => []
      end
  end.

(** The losses of the batches of a test epoch; the network stays in state
    [nt]. *)
Fixpoint test_losses (self : UNetAE.t) (tar_data : list (nat * FT))
  (loss_fn : FT -> FT -> pyfloat) (nt : net) (l : list (nat * FT))
  : list (pyfloat * pyfloat) :=
  match l with
  | [] => []
  | (i, data) :: l' =>
      match nth_error tar_data i with
      | Some (_, t) =>
          match batch_losses self loss_fn nt data t with
          | Some p => p :: test_losses self tar_data loss_fn nt l'
          | None => []
          end
      | None => []
      end
  end.

(** The running sums after one more batch [x] with losses [p] and
    reconstruction [y_pred]. *)
Definition add_batch (lambda_rec : pyfloat) (r : UNetAE.running)
  (p : pyfloat * pyfloat) (x y_pred : FT) : UNetAE.running :=
  UNetAE.mkRunning (UNetAE.loss_rec_cum r + fst p)
    (UNetAE.loss_dom_cum r + snd p)
    (UNetAE.loss_cum r + total_loss lambda_rec p)
    (UNetAE.cnt r + 1)%nat (Some (x, y_pred)).

(** The world after the training iteration [i] on the batches [data] and
    [t], for a model of [levels] levels without skip connections: the
    gradients are zeroed, computed anew, and the optimiser steps; a
    progress line is printed when [i % print_stats == 0]. *)
Definition train_world (levels : nat) (lambda_rec : pyfloat)
  (src_loader : DataLoader) (loss_fn : FT -> FT -> pyfloat) (epoch : nat)
  (print_stats : Z) (i : nat) (data t : FT) (w : world) : world :=
  let x := cat data t in
  let dom := domain_labels (size0 data) (size0 t) in
  let nt := zero_grad (w_net w) in
  let loss :=
    total_loss lambda_rec
      (loss_fn (y_pred_of levels nt x) x,
       CrossEntropyLoss (dom_pred_of levels nt x) dom) in
  let st :=
    optimizer_step (w_optim w)
      (autograd nt loss_fn x dom 1 (lambda_rec * 1)) in
  mkWorld (snd st) (fst st)
    (match py_mod (Z.of_nat i) print_stats with
     | inr 0%Z =>
         w_out w ++
         [print (MsgIteration epoch i
                   (Z.of_nat (dataset_len src_loader) # batch_size src_loader)
                   loss)]
     | _ => w_out w
     end).

(** What [train_net] is observed to do: an epoch of training and one of
    testing end with a line giving their average loss, a step of the
    scheduler is followed by the record of the learning rate, a model is
    saved under a path, the writer is closed. *)
Inductive mark : Type :=
| TrainEpoch (epoch : nat)
| SchedulerStep (epoch : nat)
| TestEpoch (epoch : nat) (test_loss : pyfloat)
| Saved (path : string)
| Closed.

Definition mark_of (ev : event) : list mark :=
  match ev with
  | print (MsgAvgTrain epoch _) => [TrainEpoch epoch]
  | print (MsgAvgTest epoch v) => [TestEpoch epoch v]
  | add_scalar tag _ epoch =>
      if String.eqb tag "learning_rate" then [SchedulerStep epoch] else []
  | torch_save _ path => [Saved path]
  | writer_close => [Closed]
  | _ => []
  end.

Definition marks (out : list event) : list mark := flat_map mark_of out.

(** [v] is strictly below [np.inf] and every loss of [previous] that is
    a number (nothing is below NaN, and NaN is below nothing). *)
Definition below_all (v : pyfloat) (previous : list pyfloat) : bool :=
  (v <? np_inf) && forallb (fun u => is_nan u || (v <? u)) previous.

(** What epoch [epoch] of [train_net] is to be observed doing, when the
    test losses of the epochs before it are [previous] and its own test
    loss, if it tests, is [v]. *)
Definition tested (test_freq : Z) (epoch : nat) : bool :=
  (Z.of_nat epoch mod test_freq =? 0)%Z.

Definition epoch_marks (log_dir : string) (test_freq : Z) (epoch : nat)
  (previous : list pyfloat) (v : pyfloat) : list mark :=
  [TrainEpoch epoch; SchedulerStep epoch]
  ++ (if tested test_freq epoch then
        TestEpoch epoch v
        :: (if below_all v previous
            then [Saved (path_join log_dir "best_checkpoint.pytorch")]
            else [])
      else [])
  ++ [Saved (path_join log_dir "checkpoint.pytorch")].

(** [epochs_run log_dir test_freq epoch n previous ms]: the marks [ms] are
    those of the [n] epochs from [epoch] on, one after the other. *)
Inductive epochs_run (log_dir : string) (test_freq : Z)
  : nat -> nat -> list pyfloat -> list mark -> Prop :=
| run_done (epoch : nat) (previous : list pyfloat) :
    epochs_run log_dir test_freq epoch 0 previous []
| run_epoch (epoch n : nat) (previous : list pyfloat) (v : pyfloat)
    (ms : list mark) :
    epochs_run log_dir test_freq (S epoch) n
      (if tested test_freq epoch then previous ++ [v] else previous) ms ->
    epochs_run log_dir test_freq epoch (S n) previous
      (epoch_marks log_dir test_freq epoch previous v ++ ms).

(** The events of an output that save a model, with their paths. *)
Definition saved_paths (out : list event) : list string :=
  flat_map (fun ev => match ev with
                      | torch_save _ path => [path]
                      | _ => []
                      end) out.

End Statements.

(** ** A small backend, to run the definitions *)

Module Toy.

(** Multiplication of every entry by [c]. *)
Definition scale (c : Q) (t : FT) : FT :=
  mkTensor (shape t) (map (Qmult c) (data t)).

Definition total (t : FT) : Q := fold_right Qplus 0 (data t).

(** The network is one weight, the optimiser its learning rate; the
    up-sampling block concatenates a skip input when it is given one. *)
#[export] Instance backend : Backend := {|
  net := Q;
  optim := Q;
  sched := Z * Q;
  enc_convblock := fun nt _ x => scale nt x;
  enc_pool := fun _ x => x;
  enc_center_conv := fun nt x => scale nt x;
  dec_upconv := fun _ _ skip x =>
    match skip with
    | Some e => cat e x
    | None => x
    end;
  dec_convblock := fun nt _ x => scale nt x;
  dec_output := fun _ x => x;
  CNN_forward := fun _ x => mkTensor [size0 x; 2%nat] (repeat 0%Q (2 * size0 x));
  module_train := fun _ nt => nt;
  zero_grad := fun nt => nt;
  CrossEntropyLoss := fun _ d => inject_Z (fold_right Z.add 0%Z (data d));
  autograd := fun nt _ _ _ _ _ => nt;
  Adam := fun _ lr => lr;
  optimizer_step := fun op nt => (op, (nt - op)%Q);
  StepLR := fun _ step_size gamma => (step_size, gamma);
  StepLR_step := fun sc _ op => (sc, (op * snd sc)%Q);
  StepLR_get_lr := fun _ op => op;
  make_grid := fun x => x;
  sigmoid := fun x => x
|}.

(** The sum of the entries of the difference. *)
Definition loss_fn (y x : FT) : pyfloat := finite (total y - total x)%Q.

Definition batch1 : FT := mkTensor [1; 2]%nat [1; 2]%Q.
Definition batch2 : FT := mkTensor [2; 2]%nat [3; 4; 5; 6]%Q.

Definition loader (l : list FT) : DataLoader := mkLoader l 3 1.

Definition world0 : world := mkWorld (1 : Q) (1 # 10 : Q) [].

End Toy.

(** ** The modules the constructors register *)

(** A Python number: [2**e] is an [int] when [e >= 0], a [float]
    otherwise; the product with an [int] keeps the kind. *)
Inductive pynum : Type :=
| PyInt (z : Z)
| PyFloat (q : Q).

Definition py_pow2 (e : Z) : pynum :=
  if (e <? 0)%Z then PyFloat (Qpower 2 e) else PyInt (2 ^ e)%Z.

Definition py_mul (a : pynum) (b : Z) : pynum :=
  match a with
  | PyInt z => PyInt (z * b)%Z
  | PyFloat q => PyFloat (q * inject_Z b)%Q
  end.

(** The constructor calls of the sub-modules, with their arguments. *)
Inductive module_spec : Type :=
| UNetConvBlock2D (in_channels out_channels : pynum) (group_norm : bool)
| MaxPool2d (kernel_size stride : nat)
| UNetUpSamplingBlock2D (in_channels out_channels : pynum) (deconv : bool)
| Conv2d (in_channels out_channels : pynum) (kernel_size : nat).

(** ['convblock%d' % n], for a prefix such as ["convblock"]. *)
Definition numbered (prefix : string) (n : nat) : string :=
  (prefix ++ NilEmpty.string_of_uint (Nat.to_uint n))%string.

(** [nn.Sequential()]: the registered modules, by name, in the order of
    their first registration. *)
Definition Sequential : Type := list (string * module_spec).

(** [features.add_module(name, module)]: a name already registered keeps
    its place and takes the new module. *)
Fixpoint add_module (name : string) (m : module_spec) (features : Sequential)
  : Sequential :=
  match features with
  | [] => [(name, m)]
  | (name', m') :: features' =>
      if String.eqb name' name then (name, m) :: features'
      else (name', m') :: add_module name m features'
  end.

(** [getattr(features, name)] *)
Fixpoint getattr (features : Sequential) (name : string) : exn + module_spec :=
  match features with
  | [] => inl AttributeError
  | (name', m) :: features' =>
      if String.eqb name' name then inr m else getattr features' name
  end.

Module UNetEncoder_init.

(** The body of [for i in range(levels)] of [UNetEncoder.__init__], on
    [self.features] and the local variable [in_features]. *)
Fixpoint loop (feature_maps : nat) (group_norm : bool) (range : list nat)
  (features : Sequential) (in_features : pynum) : Sequential * pynum :=
  match range with
  | [] => (features, in_features)
  | i :: range' =>
      let out_features :=
        py_mul (py_pow2 (Z.of_nat i)) (Z.of_nat feature_maps) in
      (* convolutional block *)
      let conv_block := UNetConvBlock2D in_features out_features group_norm in
      let features :=
        add_module (numbered "convblock" (i + 1)) conv_block features in
      (* pooling *)
      let pool := MaxPool2d 2 2 in
      let features := add_module (numbered "pool" (i + 1)) pool features in
      (* input features for next block *)
      loop feature_maps group_norm range' features out_features
  end.

(** [self.features] after the constructor. *)
Definition features (self : UNetEncoder.t) : Sequential :=
  fst (loop (UNetEncoder.feature_maps self) (UNetEncoder.group_norm self)
         (seq 0 (UNetEncoder.levels self)) []
         (PyInt (Z.of_nat (UNetEncoder.in_channels self)))).

(** [self.center_conv] *)
Definition center_conv (self : UNetEncoder.t) : module_spec :=
  let levels := Z.of_nat (UNetEncoder.levels self) in
  let feature_maps := Z.of_nat (UNetEncoder.feature_maps self) in
  UNetConvBlock2D (py_mul (py_pow2 (levels - 1)) feature_maps)
    (py_mul (py_pow2 levels) feature_maps) (UNetEncoder.group_norm self).

End UNetEncoder_init.

Module UNetDecoder_init.

(** The body of [for i in range(levels)] of [UNetDecoder.__init__]. *)
Fixpoint loop (levels feature_maps : Z) (skip_connections group_norm : bool)
  (range : list nat) (features : Sequential) : Sequential :=
  match range with
  | [] => features
  | i :: range' =>
      let i' := Z.of_nat i in
      (* upsampling block *)
      let upconv :=
        UNetUpSamplingBlock2D (py_mul (py_pow2 (levels - i')) feature_maps)
          (py_mul (py_pow2 (levels - i' - 1)) feature_maps) true in
      let features := add_module (numbered "upconv" (i + 1)) upconv features in
      (* convolutional block *)
      let conv_block :=
        if skip_connections then
          UNetConvBlock2D (py_mul (py_pow2 (levels - i')) feature_maps)
            (py_mul (py_pow2 (levels - i' - 1)) feature_maps) group_norm
        else
          UNetConvBlock2D (py_mul (py_pow2 (levels - i' - 1)) feature_maps)
            (py_mul (py_pow2 (levels - i' - 1)) feature_maps) group_norm in
      let features :=
        add_module (numbered "convblock" (i + 1)) conv_block features in
      loop levels feature_maps skip_connections group_norm range' features
  end.

(** [self.features] after the constructor. *)
Definition features (self : UNetDecoder.t) : Sequential :=
  loop (Z.of_nat (UNetDecoder.levels self))
    (Z.of_nat (UNetDecoder.feature_maps self))
    (UNetDecoder.skip_connections self) (UNetDecoder.group_norm self)
    (seq 0 (UNetDecoder.levels self)) [].

(** [self.output], the output layer. *)
Definition output (self : UNetDecoder.t) : module_spec :=
  Conv2d (PyInt (Z.of_nat (UNetDecoder.feature_maps self)))
    (PyInt (Z.of_nat (UNetDecoder.out_channels self))) 1.

End UNetDecoder_init.

(** ** More definitions used to state properties *)

Section MoreStatements.
Context {B : Backend}.

(** What enters level [i] (from 0) of the encoder: the input, through the
    convolutional block and the pooling of each level before it. *)
Fixpoint encoder_input (nt : net) (i : nat) (x : FT) : FT :=
  match i with
  | O => x
  | S j => enc_pool (S j) (enc_convblock nt (S j) (encoder_input nt j x))
  end.

(** The state of the network and of the optimiser after the training
    iterations on the batches [l], paired with their target batches. *)
Fixpoint trained (lambda_rec : pyfloat) (loss_fn : FT -> FT -> pyfloat)
  (l : list (FT * FT)) (st : net * optim) : net * optim :=
  match l with
  | [] => st
  | (x_src, x_tar) :: l' =>
      let x := cat x_src x_tar in
      let dom := domain_labels (size0 x_src) (size0 x_tar) in
      let nt := autograd (zero_grad (fst st)) loss_fn x dom 1 (lambda_rec * 1) in
      let st' := optimizer_step (snd st) nt in
      trained lambda_rec loss_fn l' (snd st', fst st')
  end.

End MoreStatements.

(** ** Finite losses, seeded steps, progress lines *)

Definition is_finite (a : pyfloat) : bool :=
  match a with
  | finite _ => true
  | _ => false
  end.

(** [torch.cat((a, b), dim=0)] accepts [a] and [b] when they have a first
    dimension and their dimensions after it agree; [cat] is its result on
    such operands. *)
Definition cat_accepts {A} (a b : Tensor A) : Prop :=
  shape a <> [] /\ shape b <> [] /\ tl (shape a) = tl (shape b).

Section EpochStatements.
Context {B : Backend}.

(** The state of the network and of the optimiser after the training
    iterations on the batches [l], when every backward pass starts with
    the gradient [g_rec] at the reconstruction loss and [g_dom] at the
    domain loss. *)
Fixpoint stepped (g_rec g_dom : pyfloat) (loss_fn : FT -> FT -> pyfloat)
  (l : list (FT * FT)) (st : net * optim) : net * optim :=
  match l with
  | [] => st
  | (x_src, x_tar) :: l' =>
      let x := cat x_src x_tar in
      let dom := domain_labels (size0 x_src) (size0 x_tar) in
      let nt := autograd (zero_grad (fst st)) loss_fn x dom g_rec g_dom in
      let st' := optimizer_step (snd st) nt in
      stepped g_rec g_dom loss_fn l' (snd st', fst st')
  end.

(** The progress lines of a training epoch whose batches, numbered from
    [k], have the losses [L]: one line for each batch whose number [i] has
    [i % print_stats == 0], with its total loss. *)
Definition progress_lines (lambda_rec : pyfloat) (src_loader : DataLoader)
  (epoch : nat) (print_stats : Z) (k : nat) (L : list (pyfloat * pyfloat))
  : list event :=
  flat_map
    (fun ip : nat * (pyfloat * pyfloat) =>
       if (Z.of_nat (fst ip) mod print_stats =? 0)%Z then
         [print (MsgIteration epoch (fst ip)
                   (Z.of_nat (dataset_len src_loader) # batch_size src_loader)
                   (total_loss lambda_rec (snd ip)))]
       else [])
    (combine (seq k (List.length L)) L).

End EpochStatements.

(** ** A backend whose domain loss diverges *)

Module ToyDiverged.

(** The backend [Toy.backend], but for a cross-entropy that is always
    infinite. *)
Definition backend : Backend := {|
  net := Q;
  optim := Q;
  sched := Z * Q;
  enc_convblock := fun nt _ x => Toy.scale nt x;
  enc_pool := fun _ x => x;
  enc_center_conv := fun nt x => Toy.scale nt x;
  dec_upconv := fun _ _ skip x =>
    match skip with
    | Some e => cat e x
    | None => x
    end;
  dec_convblock := fun nt _ x => Toy.scale nt x;
  dec_output := fun _ x => x;
  CNN_forward := fun _ x => mkTensor [size0 x; 2%nat] (repeat 0%Q (2 * size0 x));
  module_train := fun _ nt => nt;
  zero_grad := fun nt => nt;
  CrossEntropyLoss := fun _ _ => pos_inf;
  autograd := fun nt _ _ _ _ _ => nt;
  Adam := fun _ lr => lr;
  optimizer_step := fun op nt => (op, (nt - op)%Q);
  StepLR := fun _ step_size gamma => (step_size, gamma);
  StepLR_step := fun sc _ op => (sc, (op * snd sc)%Q);
  StepLR_get_lr := fun _ op => op;
  make_grid := fun x => x;
  sigmoid := fun x => x
|}.

Definition world0 : world (B := backend) :=
  mkWorld (B := backend) 1%Q (1 # 10)%Q [].

End ToyDiverged.

(** ** The domain classifier *)

(** Modelled from the spec: [networks.cnn.CNN] is not among the sources.
    The domain classifier is the auxiliary network predicting which domain
    an input came from: built with the channels [fc_channels], it gives
    for every input of a batch one score per class, the classes being the
    channels of its last fully-connected layer. *)
Definition CNN_implements (cfg : CNN.t) (classifier : FT -> FT) : Prop :=
  forall x : FT,
    shape (classifier x) = [size0 x; last (CNN.fc_channels cfg) 0%nat].

(** ** The graph that autograd records

    The forward pass builds a computation graph: every tensor carries the
    node of the call that made it, and the backward pass of the tensor
    library follows these nodes.  [ReverseLayerF.apply] returns the value
    of its input under a node of its own, whose backward pass is
    [ReverseLayerF.backward]. *)

Module Autograd.
Section WithBackend.
Context {B : Backend}.

(** The node recorded with a tensor, its [grad_fn]: the call that made
    the tensor, with the nodes of the tensors it was made from. *)
Unset Elimination Schemes.
Inductive grad_fn : Type :=
| leaf                                        (* an input of the model *)
| module_call (name : string) (inputs : list grad_fn)
| ReverseLayerFBackward (input : grad_fn).    (* [ReverseLayerF.apply] *)
Set Elimination Schemes.

(** A tensor with its node. *)
Record var : Type := mkVar { value : FT; fn : grad_fn }.

(** A sub-module called on one tensor, on two. *)
Definition call1 (name : string) (f : FT -> FT) (a : var) : var :=
  mkVar (f (value a)) (module_call name [fn a]).

Definition call2 (name : string) (f : FT -> FT -> FT) (a b : var) : var :=
  mkVar (f (value a) (value b)) (module_call name [fn a; fn b]).

(** [ReverseLayerF.apply(x)]: the value is that of [forward]; the node
    is the one whose backward pass is [ReverseLayerF.backward]. *)
Definition ReverseLayerF_apply (x : var) : var :=
  mkVar (ReverseLayerF.forward tt (value x)) (ReverseLayerFBackward (fn x)).

(** The gradient a node passes on to its input, for the node the file
    defines the backward pass of. *)
Definition backward_of (node : grad_fn) (grad_output : FT) : option FT :=
  match node with
  | ReverseLayerFBackward _ =>
      Some (fst (ReverseLayerF.backward tt grad_output))
  | _ => None
  end.

(** [UNetEncoder.forward], on tensors with their nodes. *)
Fixpoint encoder_loop (nt : net) (range : list nat) (outputs : var)
  (encoder_outputs : list var) : var * list var :=
  match range with
  | [] => (outputs, encoder_outputs)
  | i :: range' =>
      let outputs :=
        call1 (numbered "convblock" (i + 1)) (enc_convblock nt (i + 1))
          outputs in
      let encoder_outputs := encoder_outputs ++ [outputs] in
      let outputs :=
        call1 (numbered "pool" (i + 1)) (enc_pool (i + 1)) outputs in
      encoder_loop nt range' outputs encoder_outputs
  end.

Definition encoder_forward (self : UNetEncoder.t) (nt : net) (inputs : var)
  : list var * var * var :=
  let encoder_outputs := [] in
  let outputs := inputs in
  let '(outputs, encoder_outputs) :=
    encoder_loop nt (seq 0 (UNetEncoder.levels self)) outputs
      encoder_outputs in
  let outputs := call1 "center_conv" (enc_center_conv nt) outputs in
  let reverse_outputs := ReverseLayerF_apply outputs in
  (encoder_outputs, outputs, reverse_outputs).

(** [UNetDecoder.forward], on tensors with their nodes. *)
Fixpoint decoder_loop (self : UNetDecoder.t) (nt : net)
  (encoder_outputs : list var) (range : list nat) (outputs : var)
  (decoder_outputs : list var) : exn + (var * list var) :=
  match range with
  | [] => inr (outputs, decoder_outputs)
  | i :: range' =>
      let upsampled :=
        if UNetDecoder.skip_connections self then
          match nth_error encoder_outputs i with
          | Some e =>
              inr (call2 (numbered "upconv" (i + 1))
                     (fun e x => dec_upconv nt (i + 1) (Some e) x) e outputs)
          | None => inl IndexError
          end
        else
          inr (call1 (numbered "upconv" (i + 1))
                 (dec_upconv nt (i + 1) None) outputs) in
      match upsampled with
      | inl e => inl e
      | inr outputs =>
          let outputs :=
            call1 (numbered "convblock" (i + 1)) (dec_convblock nt (i + 1))
              outputs in
          let decoder_outputs := decoder_outputs ++ [outputs] in
          decoder_loop self nt encoder_outputs range' outputs decoder_outputs
      end
  end.

Definition decoder_forward (self : UNetDecoder.t) (nt : net) (inputs : var)
  (encoder_outputs : list var) : list var * (exn + (list var * var)) :=
  let decoder_outputs := [] in
  let encoder_outputs := rev encoder_outputs in
  let outputs := inputs in
  match decoder_loop self nt encoder_outputs (seq 0 (UNetDecoder.levels self))
          outputs decoder_outputs with
  | inl e => (encoder_outputs, inl e)
  | inr (outputs, decoder_outputs) =>
      let outputs := call1 "output" (dec_output nt) outputs in
      (encoder_outputs, inr (decoder_outputs, outputs))
  end.

(** [UNetAE.forward], on tensors with their nodes. *)
Definition forward (self : UNetAE.t) (nt : net) (inputs : var)
  : exn + (var * var) :=
  let '(encoder_outputs, final_output, reverse_outputs) :=
    encoder_forward (UNetAE.encoder self) nt inputs in
  let domain := call1 "domain_classifier" (CNN_forward nt) reverse_outputs in
  match snd (decoder_forward (UNetAE.decoder self) nt final_output
               encoder_outputs) with
  | inl e => inl e
  | inr (decoder_outputs, outputs) => inr (outputs, domain)
  end.

End WithBackend.
End Autograd.

(** * Properties *)

Unset Implicit Arguments.

(** ** Floats *)

Lemma Qlt_bool_iff (a b : Q) : Qlt_bool a b = true <-> (a < b)%Q.
Proof.
  unfold Qlt_bool. rewrite negb_true_iff. split.
  - intro H. apply Qnot_le_lt. intro Hle.
    apply Qle_bool_iff in Hle. congruence.
  - intro H. destruct (Qle_bool b a) eqn:E; [|reflexivity].
    apply Qle_bool_iff in E. exfalso. exact (Qlt_not_le _ _ H E).
Qed.

Lemma feq_refl (a : pyfloat) : a == a.
Proof. destruct a; cbn; trivial. reflexivity. Qed.

Lemma feq_sym (a b : pyfloat) : a == b -> b == a.
Proof. destruct a, b; cbn; trivial. intro H. now symmetry. Qed.

Lemma feq_trans (a b c : pyfloat) : a == b -> b == c -> a == c.
Proof.
  destruct a, b, c; cbn; trivial; try contradiction.
  intros H1 H2. now rewrite H1.
Qed.

#[global] Instance feq_equivalence : Equivalence feq.
Proof.
  split; [exact feq_refl | exact feq_sym | exact feq_trans].
Qed.

#[global] Instance fadd_proper : Proper (feq ==> feq ==> feq) fadd.
Proof.
  intros a a' Ha b b' Hb.
  destruct a, a'; cbn in Ha; try contradiction;
    destruct b, b'; cbn in Hb; try contradiction; cbn; trivial.
  now rewrite Ha, Hb.
Qed.

#[global] Instance fdiv_count_proper : Proper (feq ==> eq ==> feq) fdiv_count.
Proof.
  intros a a' Ha n n' <-.
  destruct a, a'; cbn in Ha; try contradiction; cbn; trivial.
  now rewrite Ha.
Qed.

Lemma fadd_assoc (a b c : pyfloat) : (a + b) + c == a + (b + c).
Proof. destruct a, b, c; cbn; trivial. ring. Qed.

Lemma fadd_0_l (a : pyfloat) : 0 + a == a.
Proof. destruct a; cbn; trivial. ring. Qed.

Lemma fadd_0_r (a : pyfloat) : a + 0 == a.
Proof. destruct a; cbn; trivial. ring. Qed.

(** Zero times a number is zero; zero times an infinity or NaN is NaN. *)
Lemma fmul_0_l (a : pyfloat) :
  0 * a == match a with
           | finite _ => 0
           | _ => nan
           end.
Proof. destruct a; cbn; trivial. ring. Qed.

Lemma flt_nan_r (a : pyfloat) : (a <? nan) = false.
Proof. now destruct a. Qed.

Lemma flt_irrefl (a : pyfloat) : (a <? a) = false.
Proof.
  destruct a; cbn; trivial.
  destruct (Qlt_bool q q) eqn:E; [|reflexivity].
  apply Qlt_bool_iff in E. exfalso. exact (Qlt_irrefl _ E).
Qed.

Lemma flt_trans (a b c : pyfloat) :
  (a <? b) = true -> (b <? c) = true -> (a <? c) = true.
Proof.
  destruct a, b, c; cbn; trivial; try discriminate.
  rewrite !Qlt_bool_iff. apply Qlt_trans.
Qed.

(** Among numbers, what is not below is above or equal. *)
Lemma flt_le_trans (a b c : pyfloat) :
  (a <? b) = true -> (c <? b) = false -> is_nan c = false ->
  (a <? c) = true.
Proof.
  destruct a, b, c; cbn; trivial; try discriminate.
  rewrite Qlt_bool_iff. intros Hab Hcb _. apply Qlt_bool_iff.
  apply Qlt_le_trans with q0; [exact Hab|].
  apply Qnot_lt_le. intro H. apply Qlt_bool_iff in H. congruence.
Qed.


(** ** Tensors and lists *)

Lemma view_as_self {A} (x : Tensor A) : view_as x x = x.
Proof. destruct x; reflexivity. Qed.

Lemma last_cons {A} (l : list A) :
  forall a d : A, last (a :: l) d = last l a.
Proof.
  induction l as [|b l IH]; intros a d; [reflexivity|].
  change (last (a :: b :: l) d) with (last (b :: l) d).
  now rewrite (IH b d), (IH b a).
Qed.

Lemma skipn_cons_inv {A} (l : list A) :
  forall k a r, skipn k l = a :: r ->
                nth_error l k = Some a /\ skipn (S k) l = r.
Proof.
  induction l as [|b l IH]; intros [|k] a r H; simpl in *; try discriminate.
  - injection H as -> ->. split; reflexivity.
  - apply IH in H. exact H.
Qed.

Lemma long_zeros n : long (cuda (zeros n)) = mkTensor [n] (repeat 0%Z n).
Proof.
  unfold long, cuda, zeros; simpl. f_equal.
  induction n; simpl; [reflexivity | now rewrite IHn].
Qed.

Lemma long_ones n : long (cuda (ones n)) = mkTensor [n] (repeat 1%Z n).
Proof.
  unfold long, cuda, ones; simpl. f_equal.
  induction n; simpl; [reflexivity | now rewrite IHn].
Qed.

Lemma cat_labels n m :
  cat (long (cuda (zeros n))) (long (cuda (ones m))) = domain_labels n m.
Proof. rewrite long_zeros, long_ones. reflexivity. Qed.

(** ** The networks *)

Section NetworkFacts.
Context {B : Backend}.

Lemma reverse_apply_id (x : FT) : ReverseLayerF.apply x = x.
Proof. apply view_as_self. Qed.

Lemma encoder_forward_eq (self : UNetEncoder.t) (nt : net) (inputs : FT) :
  UNetEncoder.forward self nt inputs
  = (snd (UNetEncoder.loop nt (seq 0 (UNetEncoder.levels self)) inputs []),
     center_output (UNetEncoder.levels self) nt inputs,
     ReverseLayerF.apply (center_output (UNetEncoder.levels self) nt inputs)).
Proof.
  unfold UNetEncoder.forward, center_output.
  now destruct (UNetEncoder.loop nt _ inputs []).
Qed.

Lemma decoder_loop_without_skips (self : UNetDecoder.t) (nt : net)
  (enc : list FT) :
  UNetDecoder.skip_connections self = false ->
  forall n k outputs acc,
    UNetDecoder.loop self nt enc (seq k n) outputs acc
    = inr (last (decoder_without_skips nt n (S k) outputs) outputs,
           acc ++ decoder_without_skips nt n (S k) outputs).
Proof.
  intros Hs n; induction n as [|n IH]; intros k outputs acc;
    cbn [seq UNetDecoder.loop decoder_without_skips].
  - now rewrite app_nil_r.
  - rewrite Hs, IH, Nat.add_1_r, last_cons, <- app_assoc. reflexivity.
Qed.

Lemma decoder_loop_with_skips (self : UNetDecoder.t) (nt : net)
  (enc : list FT) :
  UNetDecoder.skip_connections self = true ->
  forall rest k outputs acc,
    skipn k enc = rest ->
    UNetDecoder.loop self nt enc (seq k (List.length rest)) outputs acc
    = inr (last (decoder_with_skips nt rest (S k) outputs) outputs,
           acc ++ decoder_with_skips nt rest (S k) outputs).
Proof.
  intros Hs rest; induction rest as [|e rest IH]; intros k outputs acc Hk;
    cbn [List.length seq UNetDecoder.loop decoder_with_skips].
  - now rewrite app_nil_r.
  - destruct (skipn_cons_inv _ _ _ _ Hk) as [Hn Hr].
    rewrite Hs, Hn, (IH _ _ _ Hr), Nat.add_1_r, last_cons, <- app_assoc.
    reflexivity.
Qed.

(** With skip connections, a list shorter than [levels] ends the loop by
    an [IndexError]. *)
Lemma decoder_loop_short (self : UNetDecoder.t) (nt : net) (enc : list FT) :
  UNetDecoder.skip_connections self = true ->
  forall n k outputs acc,
    (List.length enc < k + n)%nat -> (k <= List.length enc)%nat ->
    UNetDecoder.loop self nt enc (seq k n) outputs acc = inl IndexError.
Proof.
  intros Hs n; induction n as [|n IH]; intros k outputs acc Hlt Hle;
    [lia|].
  simpl. rewrite Hs.
  destruct (nth_error enc k) eqn:E.
  - apply IH; [lia|].
    assert (k < List.length enc)%nat; [|lia].
    apply nth_error_Some. congruence.
  - reflexivity.
Qed.

Lemma forward_init (ic oc fm lv : nat) (gn : bool) (lam : pyfloat) (s : nat)
  (nt : net) (inputs : FT) :
  UNetAE.forward (UNetAE.init ic oc fm lv gn lam s) nt inputs
  = inr (y_pred_of lv nt inputs, dom_pred_of lv nt inputs).
Proof.
  unfold UNetAE.forward. rewrite encoder_forward_eq. simpl.
  unfold UNetDecoder.forward.
  rewrite decoder_loop_without_skips by reflexivity.
  simpl. now rewrite reverse_apply_id.
Qed.

End NetworkFacts.

(** C1: [ReverseLayerF.forward] returns its input, so the encoder returns
    the output of its center block twice, and the domain classifier of the
    model receives that output. *)
Theorem reverse_layer_forward_identity :
  (forall (c : ReverseLayerF.ctx) (x : FT), ReverseLayerF.forward c x = x) /\
  (forall (B : Backend) (self : UNetEncoder.t) (nt : net) (inputs : FT),
      snd (UNetEncoder.forward self nt inputs)
      = snd (fst (UNetEncoder.forward self nt inputs))
      /\ snd (fst (UNetEncoder.forward self nt inputs))
         = center_output (UNetEncoder.levels self) nt inputs) /\
  (forall (B : Backend) (ic oc fm lv : nat) (gn : bool) (lam : pyfloat) (s : nat)
          (nt : net) (inputs : FT),
      exists outputs,
        UNetAE.forward (UNetAE.init ic oc fm lv gn lam s) nt inputs
        = inr (outputs, CNN_forward nt (center_output lv nt inputs))).
Proof.
  split; [|split].
  - intros c x. apply view_as_self.
  - intros B self nt inputs. rewrite encoder_forward_eq. simpl.
    split; [apply reverse_apply_id | reflexivity].
  - intros. rewrite forward_init. eexists. reflexivity.
Qed.

(** C2: [ReverseLayerF.backward] returns, for its one tensor input, the
    incoming gradient with every entry negated (and [None] besides). *)
Theorem reverse_layer_backward_negates (c : ReverseLayerF.ctx) (g : FT) :
  ReverseLayerF.backward c g = (neg g, None)
  /\ shape (neg g) = shape g
  /\ List.length (data (neg g)) = List.length (data g)
  /\ forall i, nth_error (data (neg g)) i
               = option_map Qopp (nth_error (data g) i).
Proof.
  repeat split.
  - apply length_map.
  - intro i. unfold neg; simpl. apply nth_error_map.
Qed.

Section GraphFacts.
Context {B : Backend}.

(** Forgetting the nodes of the encoder's loop gives its loop on
    tensors. *)
Lemma traced_encoder_loop (nt : net) :
  forall (range : list nat) (o : Autograd.var) (acc : list Autograd.var),
    Autograd.value (fst (Autograd.encoder_loop nt range o acc))
    = fst (UNetEncoder.loop nt range (Autograd.value o)
             (map Autograd.value acc))
    /\ map Autograd.value (snd (Autograd.encoder_loop nt range o acc))
       = snd (UNetEncoder.loop nt range (Autograd.value o)
                (map Autograd.value acc)).
Proof.
  induction range as [|i range IH]; intros o acc;
    cbn [Autograd.encoder_loop UNetEncoder.loop]; [split; reflexivity|].
  destruct (IH (Autograd.call1 (numbered "pool" (i + 1)) (enc_pool (i + 1))
                  (Autograd.call1 (numbered "convblock" (i + 1))
                     (enc_convblock nt (i + 1)) o))
              (acc ++ [Autograd.call1 (numbered "convblock" (i + 1))
                         (enc_convblock nt (i + 1)) o])) as [H1 H2].
  rewrite map_app in H1, H2. split; assumption.
Qed.

(** Without skip connections the decoder's loop on tensors with nodes
    returns, with the value its loop on tensors gives. *)
Lemma traced_decoder_without_skips (self : UNetDecoder.t) (nt : net)
  (enc : list Autograd.var) :
  UNetDecoder.skip_connections self = false ->
  forall (n k : nat) (o : Autograd.var) (acc : list Autograd.var),
    exists o' acc',
      Autograd.decoder_loop self nt enc (seq k n) o acc = inr (o', acc')
      /\ Autograd.value o'
         = last (decoder_without_skips nt n (S k) (Autograd.value o))
             (Autograd.value o).
Proof.
  intros Hs n; induction n as [|n IH]; intros k o acc;
    cbn [seq Autograd.decoder_loop decoder_without_skips].
  - eexists; eexists. split; reflexivity.
  - rewrite Hs.
    destruct (IH (S k)
                (Autograd.call1 (numbered "convblock" (k + 1))
                   (dec_convblock nt (k + 1))
                   (Autograd.call1 (numbered "upconv" (k + 1))
                      (dec_upconv nt (k + 1) None) o))
                (acc ++ [Autograd.call1 (numbered "convblock" (k + 1))
                           (dec_convblock nt (k + 1))
                           (Autograd.call1 (numbered "upconv" (k + 1))
                              (dec_upconv nt (k + 1) None) o)]))
      as (o' & acc' & Hrun & Hv).
    exists o', acc'. split; [exact Hrun|].
    rewrite Hv, last_cons. cbn [Autograd.call1 Autograd.value].
    rewrite Nat.add_1_r. reflexivity.
Qed.

End GraphFacts.

(** C5: in every forward pass of a model built by [UNetAE.__init__], the
    domain prediction is the classifier applied to one tensor, the one
    [ReverseLayerF.apply] makes of the output of the encoder's center
    block: it has the value of that output and the node whose backward
    pass negates the gradient.  The classifier is configured with a last
    fully-connected layer of 2 channels, so that, the classifier giving
    one score per such channel, the prediction has 2 classes. *)
Theorem domain_classifier_on_reversed_latent
  (B : Backend) (ic oc fm lv : nat) (gn : bool) (lam : pyfloat) (s : nat)
  (nt : net) (inputs : FT)
  (Hcnn : CNN_implements
            (UNetAE.domain_classifier (UNetAE.init ic oc fm lv gn lam s))
            (CNN_forward nt)) :
  let self := UNetAE.init ic oc fm lv gn lam s in
  let latent := center_output lv nt inputs in
  (exists outputs domain pooled,
      Autograd.forward self nt (Autograd.mkVar inputs Autograd.leaf)
      = inr (outputs, domain)
      /\ UNetAE.forward self nt inputs
         = inr (Autograd.value outputs, Autograd.value domain)
      /\ decoder_output self nt inputs = Some (Autograd.value outputs)
      /\ Autograd.value domain = CNN_forward nt (ReverseLayerF.apply latent)
      /\ Autograd.fn domain
         = Autograd.module_call "domain_classifier"
             [Autograd.ReverseLayerFBackward
                (Autograd.module_call "center_conv" [pooled])]
      /\ shape (Autograd.value domain) = [size0 latent; 2%nat])
  /\ (forall node g,
         Autograd.backward_of (Autograd.ReverseLayerFBackward node) g
         = Some (neg g))
  /\ CNN.fc_channels (UNetAE.domain_classifier self) = [48; 24; 2]%nat
  /\ last (CNN.fc_channels (UNetAE.domain_classifier self)) 0%nat = 2%nat
  /\ CNN.input_size (UNetAE.domain_classifier self)
     = ((fm * 2 ^ lv)%nat, (s / 2 ^ lv)%nat, (s / 2 ^ lv)%nat).
Proof.
  intros self latent. split; [|repeat split].
  unfold self, Autograd.forward, Autograd.encoder_forward.
  destruct (traced_encoder_loop nt (seq 0 lv)
              (Autograd.mkVar inputs Autograd.leaf) []) as [Hv _].
  cbn [UNetAE.init UNetAE.encoder UNetAE.decoder UNetEncoder.levels].
  destruct (Autograd.encoder_loop nt (seq 0 lv) _ []) as [o eo].
  cbn [fst snd Autograd.value map] in Hv.
  unfold Autograd.decoder_forward.
  destruct (traced_decoder_without_skips
              (UNetDecoder.init ic oc fm lv false gn) nt (rev eo) eq_refl lv
              0 (Autograd.call1 "center_conv" (enc_center_conv nt) o) [])
    as (o' & acc' & Hrun & Hv').
  cbn [UNetDecoder.levels]. rewrite Hrun. cbn [snd].
  cbn [Autograd.call1 Autograd.value] in Hv'. rewrite Hv in Hv'.
  fold (center_output lv nt inputs) in Hv'.
  assert (Hlatent :
            Autograd.value
              (Autograd.ReverseLayerF_apply
                 (Autograd.call1 "center_conv" (enc_center_conv nt) o))
            = ReverseLayerF.apply latent).
  { cbn [Autograd.ReverseLayerF_apply Autograd.call1 Autograd.value].
    rewrite Hv. reflexivity. }
  eexists; eexists; exists (Autograd.fn o).
  split; [reflexivity|].
  cbn [Autograd.call1 Autograd.value Autograd.fn].
  cbn [Autograd.call1 Autograd.value] in Hlatent.
  rewrite Hlatent, Hv'.
  split; [rewrite forward_init, reverse_apply_id; reflexivity|].
  split.
  { unfold decoder_output. rewrite encoder_forward_eq. cbn.
    unfold UNetDecoder.forward.
    rewrite decoder_loop_without_skips by reflexivity. reflexivity. }
  split; [reflexivity|].
  split; [reflexivity|].
  rewrite Hcnn, reverse_apply_id. reflexivity.
Qed.

Lemma domain_classifier_on_reversed_latent_witness :
  CNN_implements (UNetAE.domain_classifier UNetAE.default)
    (CNN_forward (Backend := Toy.backend) 1%Q)
  /\ exists outputs domain pooled,
      Autograd.forward (B := Toy.backend) UNetAE.default 1%Q
        (Autograd.mkVar Toy.batch1 Autograd.leaf)
      = inr (outputs, domain)
      /\ UNetAE.forward (B := Toy.backend) UNetAE.default 1%Q Toy.batch1
         = inr (Autograd.value outputs, Autograd.value domain)
      /\ decoder_output (B := Toy.backend) UNetAE.default 1%Q Toy.batch1
         = Some (Autograd.value outputs)
      /\ Autograd.value domain
         = CNN_forward (Backend := Toy.backend) 1%Q
             (ReverseLayerF.apply
                (center_output (B := Toy.backend) 4 1%Q Toy.batch1))
      /\ Autograd.fn domain
         = Autograd.module_call "domain_classifier"
             [Autograd.ReverseLayerFBackward
                (Autograd.module_call "center_conv" [pooled])]
      /\ shape (Autograd.value domain)
         = [size0 (center_output (B := Toy.backend) 4 1%Q Toy.batch1);
            2%nat].
Proof.
  assert (H : CNN_implements (UNetAE.domain_classifier UNetAE.default)
                (CNN_forward (Backend := Toy.backend) 1%Q))
    by (intro x; reflexivity).
  split; [exact H|].
  apply (domain_classifier_on_reversed_latent Toy.backend 1 1 64 4 false 0
           128 1%Q Toy.batch1 H).
Defined.

(** C9: [UNetDecoder.forward] leaves the caller's list reversed, whether
    it returns or raises, with the same tensors in it. *)
Theorem decoder_forward_reverses_argument
  (B : Backend) (self : UNetDecoder.t) (nt : net) (inputs : FT)
  (encoder_outputs : list FT) :
  fst (UNetDecoder.forward self nt inputs encoder_outputs)
  = rev encoder_outputs.
Proof.
  unfold UNetDecoder.forward.
  destruct (UNetDecoder.loop self nt (rev encoder_outputs) _ inputs [])
    as [e | [outputs decoder_outputs]]; reflexivity.
Qed.

(** ** Skip connections *)

(** C3, as amended: the decoder of a model built by [UNetAE.__init__] has
    [skip_connections = False]; whatever list of encoder outputs it is
    given, each of its levels applies the up-sampling block to the previous
    feature map alone, then the convolutional block.  A decoder with
    [skip_connections = True], given as many encoder outputs as it has
    levels, combines them, last one first, with the feature maps. *)
Theorem decoder_skips_only_when_enabled
  (B : Backend) (ic oc fm lv : nat) (gn : bool) (lam : pyfloat) (s : nat)
  (self : UNetDecoder.t) (nt : net) (final : FT) (eo : list FT)
  (Hskip : UNetDecoder.skip_connections self = true)
  (Hlen : List.length eo = UNetDecoder.levels self) :
  let model := UNetAE.init ic oc fm lv gn lam s in
  UNetDecoder.skip_connections (UNetAE.decoder model) = false
  /\ (forall eo' : list FT,
         snd (UNetDecoder.forward (UNetAE.decoder model) nt final eo')
         = inr (decoder_without_skips nt lv 1 final,
                dec_output nt
                  (last (decoder_without_skips nt lv 1 final) final)))
  /\ snd (UNetDecoder.forward self nt final eo)
     = inr (decoder_with_skips nt (rev eo) 1 final,
            dec_output nt
              (last (decoder_with_skips nt (rev eo) 1 final) final)).
Proof.
  intro model. split; [reflexivity|]. split.
  - intro eo'. unfold UNetDecoder.forward.
    rewrite decoder_loop_without_skips by reflexivity. reflexivity.
  - unfold UNetDecoder.forward.
    rewrite <- Hlen, <- length_rev.
    rewrite (decoder_loop_with_skips self nt (rev eo) Hskip (rev eo))
      by reflexivity.
    reflexivity.
Qed.

Lemma decoder_skips_only_when_enabled_witness :
  let self := UNetDecoder.init 1 1 64 2 true false in
  let eo := [Toy.batch1; Toy.batch2] in
  UNetDecoder.skip_connections self = true
  /\ List.length eo = UNetDecoder.levels self
  /\ snd (UNetDecoder.forward (B := Toy.backend) self 1%Q Toy.batch1 eo)
     = inr (decoder_with_skips (B := Toy.backend) 1%Q (rev eo) 1 Toy.batch1,
            dec_output (Backend := Toy.backend) 1%Q
              (last (decoder_with_skips (B := Toy.backend) 1%Q (rev eo) 1
                      Toy.batch1)
                 Toy.batch1)).
Proof.
  intros self eo. split; [reflexivity|]. split; [reflexivity|].
  apply (decoder_skips_only_when_enabled Toy.backend 1 1 64 4 false 0 128
           self 1%Q Toy.batch1 eo); reflexivity.
Defined.

(** C3, as stated, fails on the default model: what its decoder computes
    from the stored encoder outputs is not what a decoder with skip
    connections computes from them. *)
Lemma unet_ae_decoder_has_no_skips :
  let self := UNetAE.default in
  let nt : net (Backend := Toy.backend) := 1%Q in
  let eo := fst (fst (UNetEncoder.forward (UNetAE.encoder self) nt
                        Toy.batch1)) in
  let final := snd (fst (UNetEncoder.forward (UNetAE.encoder self) nt
                           Toy.batch1)) in
  List.length eo = UNetAE.levels self
  /\ snd (UNetDecoder.forward (UNetAE.decoder self) nt final eo)
     <> inr (decoder_with_skips nt (rev eo) 1 final,
             dec_output nt
               (last (decoder_with_skips nt (rev eo) 1 final) final)).
Proof.
  split; [reflexivity|].
  intro H. vm_compute in H. discriminate H.
Qed.

(** ** Running the monad *)

Ltac run :=
  unfold bind, ret, lift, raise, emit, get_net, set_net, get_optim,
    set_optim, index; cbn [fst snd w_net w_optim w_out].

Section LoopFacts.
Context {B : Backend}.

Lemma nth_error_enumerate_from {A} (l : list A) :
  forall a i,
    nth_error (combine (seq a (List.length l)) l) i
    = option_map (fun t => ((a + i)%nat, t)) (nth_error l i).
Proof.
  induction l as [|b l IH]; intros a [|i]; cbn; try reflexivity.
  - now rewrite Nat.add_0_r.
  - rewrite IH. rewrite Nat.add_succ_r. reflexivity.
Qed.

Lemma nth_error_enumerate {A} (l : list A) (i : nat) :
  nth_error (enumerate l) i = option_map (fun t => (i, t)) (nth_error l i).
Proof. apply nth_error_enumerate_from. Qed.

Variables (ic oc fm lv : nat) (gn : bool) (lam : pyfloat) (s : nat).
Local Abbreviation self := (UNetAE.init ic oc fm lv gn lam s).

Variable loss_fn : FT -> FT -> pyfloat.

(** The two losses of a batch, for a model built by the constructor. *)
Local Abbreviation losses_of nt data t :=
  (loss_fn (y_pred_of lv nt (cat data t)) (cat data t),
   CrossEntropyLoss (dom_pred_of lv nt (cat data t))
     (domain_labels (size0 data) (size0 t))).

Lemma batch_losses_init (nt : net) (x_src x_tar : FT) :
  batch_losses self loss_fn nt x_src x_tar = Some (losses_of nt x_src x_tar).
Proof. unfold batch_losses. now rewrite forward_init. Qed.

Lemma test_iteration_run (tar : list FT) (i : nat) (data : FT)
  (r : UNetAE.running) (w : world) :
  UNetAE.test_iteration self (enumerate tar) loss_fn (i, data) r w
  = match nth_error tar i with
    | None => (w, inl IndexError)
    | Some t =>
        (w, inr (add_batch lam r (losses_of (w_net w) data t)
                   (cat data t) (y_pred_of lv (w_net w) (cat data t))))
    end.
Proof.
  unfold UNetAE.test_iteration. run.
  rewrite nth_error_enumerate.
  destruct (nth_error tar i) as [t|]; cbn; [|reflexivity].
  rewrite forward_init. cbn. rewrite cat_labels. reflexivity.
Qed.

Lemma train_iteration_run (src_loader : DataLoader) (tar : list FT)
  (epoch : nat) (print_stats : Z) (i : nat) (data : FT)
  (r : UNetAE.running) (w : world) :
  UNetAE.train_iteration self src_loader (enumerate tar) loss_fn epoch
    print_stats (i, data) r w
  = match nth_error tar i with
    | None => (w, inl IndexError)
    | Some t =>
        (train_world lv lam src_loader loss_fn epoch print_stats i data t w,
         match py_mod (Z.of_nat i) print_stats with
         | inl e => inl e
         | inr _ =>
             inr (add_batch lam r (losses_of (zero_grad (w_net w)) data t)
                    (cat data t)
                    (y_pred_of lv (zero_grad (w_net w)) (cat data t)))
         end)
    end.
Proof.
  unfold UNetAE.train_iteration. run.
  rewrite nth_error_enumerate.
  destruct (nth_error tar i) as [t|]; cbn; [|reflexivity].
  rewrite forward_init. cbn. rewrite cat_labels.
  unfold train_world. cbn.
  destruct (optimizer_step _ _) as [op nt]. cbn.
  destruct (py_mod (Z.of_nat i) print_stats) as [e|m]; [reflexivity|].
  destruct m; reflexivity.
Qed.

Lemma for_each_cons {A S} (body : A -> S -> M S) (a : A) (l : list A)
  (st : S) (w : world) :
  for_each body (a :: l) st w
  = match body a st w with
    | (w', inl e) => (w', inl e)
    | (w', inr st') => for_each body l st' w'
    end.
Proof. reflexivity. Qed.

(** *** The loop of [test_epoch] *)

Lemma test_loop_ok (tar : list FT) (w : world) :
  forall (bs : list FT) (k : nat) (r : UNetAE.running),
    (k + List.length bs <= List.length tar)%nat ->
    let l := combine (seq k (List.length bs)) bs in
    let L := test_losses self (enumerate tar) loss_fn (w_net w) l in
    exists r',
      for_each (UNetAE.test_iteration self (enumerate tar) loss_fn) l r w
      = (w, inr r')
      /\ UNetAE.cnt r' = (UNetAE.cnt r + List.length bs)%nat
      /\ List.length L = List.length bs
      /\ UNetAE.loss_cum r'
         == UNetAE.loss_cum r + fsum (map (total_loss lam) L)
      /\ UNetAE.loss_rec_cum r' == UNetAE.loss_rec_cum r + fsum (map fst L)
      /\ UNetAE.loss_dom_cum r' == UNetAE.loss_dom_cum r + fsum (map snd L)
      /\ (bs = [] \/ exists p, UNetAE.last r' = Some p).
Proof.
  induction bs as [|b bs IH]; intros k r Hk; cbn [List.length seq combine].
  - exists r. cbn [combine for_each ret test_losses train_losses map fsum
                    fold_right List.length].
    rewrite Nat.add_0_r.
    split; [reflexivity|]. split; [reflexivity|]. split; [reflexivity|].
    split; [symmetry; apply fadd_0_r|].
    split; [symmetry; apply fadd_0_r|].
    split; [symmetry; apply fadd_0_r|].
    now left.
  - cbn [List.length] in Hk.
    destruct (nth_error tar k) as [t|] eqn:Ht;
      [|apply nth_error_None in Ht; lia].
    cbn zeta. rewrite for_each_cons, test_iteration_run, Ht.
    cbn [test_losses]. rewrite nth_error_enumerate, Ht. cbn [option_map].
    rewrite batch_losses_init.
    set (p := losses_of (w_net w) b t).
    destruct (IH (S k) (add_batch lam r p (cat b t)
                          (y_pred_of lv (w_net w) (cat b t))))
      as (r' & Hrun & Hcnt & Hlen & Hsum & Hrec & Hdom & Hlast); [lia|].
    exists r'. rewrite Hrun. cbn [List.length map fsum fold_right].
    fold (fsum (map (total_loss lam)
                  (test_losses self (enumerate tar) loss_fn (w_net w)
                     (combine (seq (S k) (List.length bs)) bs)))).
    fold (fsum (map fst
                  (test_losses self (enumerate tar) loss_fn (w_net w)
                     (combine (seq (S k) (List.length bs)) bs)))).
    fold (fsum (map snd
                  (test_losses self (enumerate tar) loss_fn (w_net w)
                     (combine (seq (S k) (List.length bs)) bs)))).
    split; [reflexivity|].
    split; [rewrite Hcnt; cbn; lia|].
    split; [now rewrite Hlen|].
    split; [rewrite Hsum; apply fadd_assoc|].
    split; [rewrite Hrec; apply fadd_assoc|].
    split; [rewrite Hdom; apply fadd_assoc|].
    right. destruct Hlast as [-> | Hp]; [|exact Hp].
    cbn in Hrun. injection Hrun as <-. eexists; reflexivity.
Qed.

Lemma test_loop_index_error (tar : list FT) (w : world) :
  forall (bs : list FT) (k : nat) (r : UNetAE.running),
    (List.length tar < k + List.length bs)%nat ->
    (k <= List.length tar)%nat ->
    for_each (UNetAE.test_iteration self (enumerate tar) loss_fn)
      (combine (seq k (List.length bs)) bs) r w
    = (w, inl IndexError).
Proof.
  induction bs as [|b bs IH]; intros k r Hlt Hle; cbn [List.length] in *;
    [lia|].
  cbn [seq combine]. rewrite for_each_cons, test_iteration_run.
  destruct (nth_error tar k) as [t|] eqn:Ht; [|reflexivity].
  apply IH; [lia|].
  assert (k < List.length tar)%nat; [|lia].
  apply nth_error_Some. congruence.
Qed.

Lemma marks_app (a b : list event) : marks (a ++ b) = marks a ++ marks b.
Proof. apply flat_map_app. Qed.

(** *** The loop of [train_epoch] *)

Lemma marks_train_world (src_loader : DataLoader) (epoch : nat)
  (print_stats : Z) (i : nat) (data t : FT) (w : world) :
  marks (w_out (train_world lv lam src_loader loss_fn epoch print_stats i
                  data t w))
  = marks (w_out w).
Proof.
  unfold train_world; cbn [w_out].
  destruct (py_mod (Z.of_nat i) print_stats) as [e|[| |]]; try reflexivity.
  rewrite marks_app. cbn. apply app_nil_r.
Qed.

Lemma py_mod_ok (a b : Z) : b <> 0%Z -> py_mod a b = inr (a mod b)%Z.
Proof.
  intro Hb. unfold py_mod. destruct (Z.eqb_spec b 0); [contradiction|].
  reflexivity.
Qed.

Lemma train_loop_ok (src_loader : DataLoader) (tar : list FT)
  (epoch : nat) (print_stats : Z) :
  print_stats <> 0%Z ->
  forall (bs : list FT) (k : nat) (r : UNetAE.running) (w : world),
    (k + List.length bs <= List.length tar)%nat ->
    let l := combine (seq k (List.length bs)) bs in
    let L := train_losses self src_loader (enumerate tar) loss_fn epoch
               print_stats l w in
    exists w' r',
      for_each (UNetAE.train_iteration self src_loader (enumerate tar)
                  loss_fn epoch print_stats) l r w
      = (w', inr r')
      /\ UNetAE.cnt r' = (UNetAE.cnt r + List.length bs)%nat
      /\ List.length L = List.length bs
      /\ UNetAE.loss_cum r'
         == UNetAE.loss_cum r + fsum (map (total_loss lam) L)
      /\ UNetAE.loss_rec_cum r' == UNetAE.loss_rec_cum r + fsum (map fst L)
      /\ UNetAE.loss_dom_cum r' == UNetAE.loss_dom_cum r + fsum (map snd L)
      /\ (bs = [] \/ exists p, UNetAE.last r' = Some p)
      /\ marks (w_out w') = marks (w_out w).
Proof.
  intros Hp.
  induction bs as [|b bs IH]; intros k r w Hk; cbn [List.length seq combine].
  - exists w, r. cbn [combine for_each ret test_losses train_losses map fsum
                       fold_right List.length].
    rewrite Nat.add_0_r.
    split; [reflexivity|]. split; [reflexivity|]. split; [reflexivity|].
    split; [symmetry; apply fadd_0_r|].
    split; [symmetry; apply fadd_0_r|].
    split; [symmetry; apply fadd_0_r|].
    split; [now left | reflexivity].
  - cbn [List.length] in Hk.
    destruct (nth_error tar k) as [t|] eqn:Ht;
      [|apply nth_error_None in Ht; lia].
    cbn zeta. rewrite for_each_cons, train_iteration_run, Ht.
    cbn [train_losses]. rewrite nth_error_enumerate, Ht. cbn [option_map].
    rewrite batch_losses_init, train_iteration_run, Ht. cbn [fst].
    rewrite (py_mod_ok _ _ Hp).
    set (p := losses_of (zero_grad (w_net w)) b t).
    set (w1 := train_world lv lam src_loader loss_fn epoch print_stats k b t
                 w).
    destruct (IH (S k) (add_batch lam r p (cat b t)
                          (y_pred_of lv (zero_grad (w_net w)) (cat b t))) w1)
      as (w' & r' & Hrun & Hcnt & Hlen & Hsum & Hrec & Hdom & Hlast & Hm);
      [lia|].
    exists w', r'. rewrite Hrun. cbn [List.length map fsum fold_right].
    fold (fsum (map (total_loss lam)
                  (train_losses self src_loader (enumerate tar) loss_fn
                     epoch print_stats
                     (combine (seq (S k) (List.length bs)) bs) w1))).
    fold (fsum (map fst
                  (train_losses self src_loader (enumerate tar) loss_fn
                     epoch print_stats
                     (combine (seq (S k) (List.length bs)) bs) w1))).
    fold (fsum (map snd
                  (train_losses self src_loader (enumerate tar) loss_fn
                     epoch print_stats
                     (combine (seq (S k) (List.length bs)) bs) w1))).
    split; [reflexivity|].
    split; [rewrite Hcnt; cbn; lia|].
    split; [now rewrite Hlen|].
    split; [rewrite Hsum; apply fadd_assoc|].
    split; [rewrite Hrec; apply fadd_assoc|].
    split; [rewrite Hdom; apply fadd_assoc|].
    split.
    + right. destruct Hlast as [-> | Hq]; [|exact Hq].
      cbn in Hrun. injection Hrun as <- <-. eexists; reflexivity.
    + rewrite Hm. apply marks_train_world.
Qed.

Lemma train_loop_index_error (src_loader : DataLoader) (tar : list FT)
  (epoch : nat) (print_stats : Z) :
  print_stats <> 0%Z ->
  forall (bs : list FT) (k : nat) (r : UNetAE.running) (w : world),
    (List.length tar < k + List.length bs)%nat ->
    (k <= List.length tar)%nat ->
    snd (for_each (UNetAE.train_iteration self src_loader (enumerate tar)
                     loss_fn epoch print_stats)
           (combine (seq k (List.length bs)) bs) r w)
    = inl IndexError.
Proof.
  intros Hp.
  induction bs as [|b bs IH]; intros k r w Hlt Hle; cbn [List.length] in *;
    [lia|].
  cbn [seq combine]. rewrite for_each_cons, train_iteration_run.
  destruct (nth_error tar k) as [t|] eqn:Ht; [|reflexivity].
  rewrite (py_mod_ok _ _ Hp).
  apply IH; [lia|].
  assert (k < List.length tar)%nat; [|lia].
  apply nth_error_Some. congruence.
Qed.

(** Within the length of the target list, the loop does not end by an
    [IndexError], whatever [print_stats] is. *)
Lemma train_loop_in_range (src_loader : DataLoader) (tar : list FT)
  (epoch : nat) (print_stats : Z) :
  forall (bs : list FT) (k : nat) (r : UNetAE.running) (w : world),
    (k + List.length bs <= List.length tar)%nat ->
    snd (for_each (UNetAE.train_iteration self src_loader (enumerate tar)
                     loss_fn epoch print_stats)
           (combine (seq k (List.length bs)) bs) r w)
    <> inl IndexError.
Proof.
  induction bs as [|b bs IH]; intros k r w Hk; cbn [List.length seq combine].
  - cbn. discriminate.
  - cbn [List.length] in Hk.
    destruct (nth_error tar k) as [t|] eqn:Ht;
      [|apply nth_error_None in Ht; lia].
    rewrite for_each_cons, train_iteration_run, Ht.
    unfold py_mod. destruct (print_stats =? 0)%Z.
    + cbn. discriminate.
    + apply IH. lia.
Qed.

(** *** The epochs *)

Lemma py_div_ok (total : pyfloat) (cnt : nat) :
  cnt <> 0%nat -> py_div total cnt = inr (fdiv_count total cnt).
Proof. destruct cnt; [contradiction | reflexivity]. Qed.

Lemma mean_of_sum (total : pyfloat) (l : list pyfloat) (cnt : nat) :
  total == 0 + fsum l -> cnt = List.length l ->
  fdiv_count total cnt == arith_mean l.
Proof.
  intros Ht ->. unfold arith_mean. rewrite Ht, fadd_0_l. reflexivity.
Qed.

Lemma test_epoch_ok (src_loader tar_loader : DataLoader) (epoch : nat)
  (writer : option SummaryWriter) (write_images : bool) (w : world) :
  batches src_loader <> [] ->
  (List.length (batches src_loader) <= List.length (batches tar_loader))%nat ->
  let L := test_losses self (enumerate (batches tar_loader)) loss_fn
             (module_train false (w_net w))
             (enumerate (batches src_loader)) in
  exists w' v,
    UNetAE.test_epoch self src_loader tar_loader loss_fn epoch writer
      write_images w = (w', inr v)
    /\ v == arith_mean (map (total_loss lam) L)
    /\ List.length L = List.length (batches src_loader)
    /\ w_net w' = module_train false (w_net w)
    /\ w_optim w' = w_optim w
    /\ marks (w_out w') = marks (w_out w) ++ [TestEpoch epoch v].
Proof.
  intros Hne Hlen L.
  unfold UNetAE.test_epoch. run.
  set (w0 := mkWorld (module_train false (w_net w)) (w_optim w) (w_out w)).
  destruct (test_loop_ok (batches tar_loader) w0 (batches src_loader) 0
              UNetAE.running0 Hlen)
    as (r' & Hrun & Hcnt & HL & Hsum & _ & _ & Hlast).
  fold (enumerate (batches src_loader)) in Hrun, HL, Hsum.
  rewrite Hrun.
  assert (Hc : UNetAE.cnt r' <> 0%nat).
  { rewrite Hcnt. destruct (batches src_loader); [contradiction|cbn; lia]. }
  rewrite !(py_div_ok _ _ Hc). cbn [w_net w_optim w_out w0].
  destruct Hlast as [He | [[x y] Hp]]; [contradiction|].
  set (v := fdiv_count (UNetAE.loss_cum r') (UNetAE.cnt r')).
  assert (Hv : v == arith_mean (map (total_loss lam) L)).
  { apply mean_of_sum; [exact Hsum|]. rewrite length_map.
    cbn in Hcnt. rewrite Hcnt. symmetry. exact HL. }
  destruct writer as [wr|]; [destruct write_images; [rewrite Hp|]|];
    eexists; exists v; cbn [w_net w_optim w_out];
    (split; [reflexivity|]);
    (split; [exact Hv|]);
    (split; [exact HL|]);
    (split; [reflexivity|]);
    (split; [reflexivity|]);
    cbn [w_out]; rewrite ?marks_app; cbn; rewrite ?app_nil_r; reflexivity.
Qed.

Lemma train_epoch_ok (src_loader tar_loader : DataLoader) (epoch : nat)
  (print_stats : Z) (writer : option SummaryWriter) (write_images : bool)
  (w : world) :
  print_stats <> 0%Z ->
  batches src_loader <> [] ->
  (List.length (batches src_loader) <= List.length (batches tar_loader))%nat ->
  let L := train_losses self src_loader (enumerate (batches tar_loader))
             loss_fn epoch print_stats (enumerate (batches src_loader))
             (mkWorld (module_train true (w_net w)) (w_optim w) (w_out w)) in
  exists w' v,
    UNetAE.train_epoch self src_loader tar_loader loss_fn epoch print_stats
      writer write_images w = (w', inr v)
    /\ v == arith_mean (map (total_loss lam) L)
    /\ List.length L = List.length (batches src_loader)
    /\ marks (w_out w') = marks (w_out w) ++ [TrainEpoch epoch].
Proof.
  intros Hp Hne Hlen L.
  unfold UNetAE.train_epoch. run.
  set (w0 := mkWorld (module_train true (w_net w)) (w_optim w) (w_out w)).
  destruct (train_loop_ok src_loader (batches tar_loader) epoch print_stats
              Hp (batches src_loader) 0 UNetAE.running0 w0 Hlen)
    as (w1 & r' & Hrun & Hcnt & HL & Hsum & _ & _ & Hlast & Hm).
  fold (enumerate (batches src_loader)) in Hrun, HL, Hsum.
  rewrite Hrun.
  assert (Hc : UNetAE.cnt r' <> 0%nat).
  { rewrite Hcnt. destruct (batches src_loader); [contradiction|cbn; lia]. }
  rewrite !(py_div_ok _ _ Hc). cbn [w_net w_optim w_out].
  destruct Hlast as [He | [[x y] Hq]]; [contradiction|].
  set (v := fdiv_count (UNetAE.loss_cum r') (UNetAE.cnt r')).
  assert (Hv : v == arith_mean (map (total_loss lam) L)).
  { apply mean_of_sum; [exact Hsum|]. rewrite length_map.
    cbn in Hcnt. rewrite Hcnt. symmetry. exact HL. }
  destruct writer as [wr|]; [destruct write_images; [rewrite Hq|]|];
    eexists; exists v; cbn [w_net w_optim w_out];
    (split; [reflexivity|]);
    (split; [exact Hv|]);
    (split; [exact HL|]);
    cbn [w_out]; rewrite ?marks_app, Hm; cbn; rewrite ?app_nil_r;
    reflexivity.
Qed.

End LoopFacts.

(** ** The losses of an iteration *)

Lemma decoder_output_init (B : Backend) (ic oc fm lv : nat) (gn : bool)
  (lam : pyfloat) (s : nat) (nt : net) (x : FT) :
  decoder_output (UNetAE.init ic oc fm lv gn lam s) nt x
  = Some (y_pred_of lv nt x).
Proof.
  unfold decoder_output. rewrite encoder_forward_eq. cbn.
  unfold UNetDecoder.forward.
  rewrite decoder_loop_without_skips by reflexivity. reflexivity.
Qed.

(** C4: an iteration of [train_epoch] or of [test_epoch] whose target
    batch exists adds to the running reconstruction loss [loss_fn] of the
    decoder's output on [x] and of [x] itself, [x] being the source batch
    followed by the target batch. *)
Theorem reconstruction_loss_against_input
  (B : Backend) (ic oc fm lv : nat) (gn : bool) (lam : pyfloat) (s : nat)
  (loss_fn : FT -> FT -> pyfloat) (src_loader : DataLoader) (tar : list FT)
  (epoch : nat) (print_stats : Z) (i : nat) (x_src x_tar : FT)
  (r : UNetAE.running) (w : world)
  (Htar : nth_error tar i = Some x_tar)
  (Hprint : print_stats <> 0%Z) :
  let self := UNetAE.init ic oc fm lv gn lam s in
  let x := cat x_src x_tar in
  (exists y_pred w' r',
      decoder_output self (zero_grad (w_net w)) x = Some y_pred
      /\ UNetAE.train_iteration self src_loader (enumerate tar) loss_fn
           epoch print_stats (i, x_src) r w = (w', inr r')
      /\ UNetAE.loss_rec_cum r' = UNetAE.loss_rec_cum r + loss_fn y_pred x
      /\ UNetAE.last r' = Some (x, y_pred))
  /\ (exists y_pred r',
         decoder_output self (w_net w) x = Some y_pred
         /\ UNetAE.test_iteration self (enumerate tar) loss_fn (i, x_src) r w
            = (w, inr r')
         /\ UNetAE.loss_rec_cum r' = UNetAE.loss_rec_cum r + loss_fn y_pred x
         /\ UNetAE.last r' = Some (x, y_pred)).
Proof.
  intros self x. split.
  - eexists; eexists; eexists. split; [apply decoder_output_init|].
    unfold self. rewrite train_iteration_run, Htar, (py_mod_ok _ _ Hprint).
    repeat split.
  - eexists; eexists. split; [apply decoder_output_init|].
    unfold self. rewrite test_iteration_run, Htar. repeat split.
Qed.

Lemma reconstruction_loss_against_input_witness :
  nth_error [Toy.batch2] 0 = Some Toy.batch2
  /\ 1%Z <> 0%Z
  /\ exists y_pred r',
      decoder_output (B := Toy.backend) UNetAE.default
        (w_net Toy.world0) (cat Toy.batch1 Toy.batch2) = Some y_pred
      /\ UNetAE.test_iteration UNetAE.default (enumerate [Toy.batch2])
           Toy.loss_fn (0%nat, Toy.batch1) UNetAE.running0 Toy.world0
         = (Toy.world0, inr r')
      /\ UNetAE.loss_rec_cum r'
         = UNetAE.loss_rec_cum UNetAE.running0
           + Toy.loss_fn y_pred (cat Toy.batch1 Toy.batch2)
      /\ UNetAE.last r' = Some (cat Toy.batch1 Toy.batch2, y_pred).
Proof.
  split; [reflexivity|]. split; [discriminate|].
  apply (reconstruction_loss_against_input Toy.backend 1 1 64 4 false 0 128
           Toy.loss_fn (Toy.loader [Toy.batch1]) [Toy.batch2] 0%nat 1%Z
           0%nat Toy.batch1 Toy.batch2 UNetAE.running0 Toy.world0);
    [reflexivity | discriminate].
Defined.

(** C6: an iteration of [train_epoch] labels the inputs of the source
    batch 0 and those of the target batch 1, in the order in which the
    two batches are concatenated; the cross-entropy of the domain
    prediction against these labels is the domain loss, and the total
    loss is the reconstruction loss plus [lambda_rec] times it. *)
Theorem domain_labels_and_loss
  (B : Backend) (ic oc fm lv : nat) (gn : bool) (lam : pyfloat) (s : nat)
  (loss_fn : FT -> FT -> pyfloat) (src_loader : DataLoader) (tar : list FT)
  (epoch : nat) (print_stats : Z) (i : nat) (x_src x_tar : FT)
  (r : UNetAE.running) (w : world)
  (Htar : nth_error tar i = Some x_tar)
  (Hprint : print_stats <> 0%Z) :
  let self := UNetAE.init ic oc fm lv gn lam s in
  let x := cat x_src x_tar in
  let dom := domain_labels (size0 x_src) (size0 x_tar) in
  (exists y_pred dom_pred w' r',
      UNetAE.forward self (zero_grad (w_net w)) x = inr (y_pred, dom_pred)
      /\ UNetAE.train_iteration self src_loader (enumerate tar) loss_fn
           epoch print_stats (i, x_src) r w = (w', inr r')
      /\ UNetAE.loss_dom_cum r'
         = UNetAE.loss_dom_cum r + CrossEntropyLoss dom_pred dom
      /\ UNetAE.loss_cum r'
         = UNetAE.loss_cum r
           + (loss_fn y_pred x
              + UNetAE.lambda_rec self * CrossEntropyLoss dom_pred dom))
  /\ cat (long (cuda (zeros (size0 (cuda x_src)))))
         (long (cuda (ones (size0 (cuda x_tar))))) = dom
  /\ data x = data x_src ++ data x_tar
  /\ size0 x = (size0 x_src + size0 x_tar)%nat
  /\ size0 dom = size0 x
  /\ (forall j, (j < size0 x_src)%nat -> nth_error (data dom) j = Some 0%Z)
  /\ (forall j, (size0 x_src <= j < size0 x_src + size0 x_tar)%nat ->
                nth_error (data dom) j = Some 1%Z).
Proof.
  intros self x dom. split; [|repeat split].
  - eexists; eexists; eexists; eexists.
    split; [unfold self; apply forward_init|].
    unfold self. rewrite train_iteration_run, Htar, (py_mod_ok _ _ Hprint).
    repeat split.
  - apply cat_labels.
  - intros j Hj. cbn.
    rewrite nth_error_app1 by (now rewrite repeat_length).
    now apply nth_error_repeat.
  - intros j [Hj1 Hj2]. cbn.
    rewrite nth_error_app2 by (now rewrite repeat_length).
    rewrite repeat_length. apply nth_error_repeat. lia.
Qed.

Lemma domain_labels_and_loss_witness :
  nth_error [Toy.batch2] 0 = Some Toy.batch2
  /\ 1%Z <> 0%Z
  /\ (forall j, (j < size0 Toy.batch1)%nat ->
                nth_error
                  (data (domain_labels (size0 Toy.batch1)
                           (size0 Toy.batch2))) j = Some 0%Z).
Proof.
  split; [reflexivity|]. split; [discriminate|].
  apply (domain_labels_and_loss Toy.backend 1 1 64 4 false 0 128
           Toy.loss_fn (Toy.loader [Toy.batch1]) [Toy.batch2] 0%nat 1%Z
           0%nat Toy.batch1 Toy.batch2 UNetAE.running0 Toy.world0);
    [reflexivity | discriminate].
Defined.

(** ** Indexing the target batches *)

Section IndexFacts.
Context {B : Backend}.
Variables (ic oc fm lv : nat) (gn : bool) (lam : pyfloat) (s : nat).
Variable loss_fn : FT -> FT -> pyfloat.
Variables src_loader tar_loader : DataLoader.

Local Abbreviation self := (UNetAE.init ic oc fm lv gn lam s).

Lemma paired_target_iff :
  (forall i, (i < List.length (batches src_loader))%nat ->
             exists b, nth_error (enumerate (batches tar_loader)) i
                       = Some (i, b))
  <-> (List.length (batches src_loader)
       <= List.length (batches tar_loader))%nat.
Proof.
  split.
  - intro H.
    destruct (Nat.le_gt_cases (List.length (batches src_loader))
                (List.length (batches tar_loader))) as [Hle|Hgt];
      [exact Hle|].
    destruct (H _ Hgt) as [b Hb].
    rewrite nth_error_enumerate in Hb.
    destruct (nth_error (batches tar_loader)
                (List.length (batches tar_loader))) eqn:E;
      [|discriminate].
    assert (List.length (batches tar_loader)
            < List.length (batches tar_loader))%nat; [|lia].
    apply nth_error_Some. congruence.
  - intros Hle i Hi. rewrite nth_error_enumerate.
    destruct (nth_error (batches tar_loader) i) as [b|] eqn:E.
    + exists b. reflexivity.
    + apply nth_error_None in E. lia.
Qed.

Lemma train_epoch_in_range (epoch : nat) (print_stats : Z)
  (writer : option SummaryWriter) (write_images : bool) (w : world) :
  (List.length (batches src_loader)
   <= List.length (batches tar_loader))%nat ->
  snd (UNetAE.train_epoch self src_loader tar_loader loss_fn epoch
         print_stats writer write_images w) <> inl IndexError.
Proof.
  intro Hle. unfold UNetAE.train_epoch. run.
  pose proof (train_loop_in_range ic oc fm lv gn lam s loss_fn src_loader
                (batches tar_loader) epoch print_stats (batches src_loader)
                0 UNetAE.running0
                (mkWorld (module_train true (w_net w)) (w_optim w) (w_out w))
                Hle) as H.
  fold (enumerate (batches src_loader)) in H.
  destruct (for_each _ _ _ _) as [w1 [e|r']]; cbn in H;
    [cbn; intro E; apply H; injection E as ->; reflexivity|].
  destruct (UNetAE.cnt r'); cbn; [discriminate|].
  destruct writer; [destruct write_images; [destruct (UNetAE.last r')
                                              as [[x y]|]|]|];
    cbn; discriminate.
Qed.

Lemma train_epoch_index_error (epoch : nat) (print_stats : Z)
  (writer : option SummaryWriter) (write_images : bool) (w : world) :
  print_stats <> 0%Z ->
  (List.length (batches tar_loader)
   < List.length (batches src_loader))%nat ->
  snd (UNetAE.train_epoch self src_loader tar_loader loss_fn epoch
         print_stats writer write_images w) = inl IndexError.
Proof.
  intros Hp Hlt. unfold UNetAE.train_epoch. run.
  pose proof (train_loop_index_error ic oc fm lv gn lam s loss_fn src_loader
                (batches tar_loader) epoch print_stats Hp
                (batches src_loader) 0 UNetAE.running0
                (mkWorld (module_train true (w_net w)) (w_optim w) (w_out w))
                Hlt (Nat.le_0_l _)) as H.
  fold (enumerate (batches src_loader)) in H.
  destruct (for_each _ _ _ _) as [w1 [e|r']]; cbn in H; [|discriminate].
  cbn. injection H as ->. reflexivity.
Qed.

Lemma test_epoch_in_range (epoch : nat) (writer : option SummaryWriter)
  (write_images : bool) (w : world) :
  (List.length (batches src_loader)
   <= List.length (batches tar_loader))%nat ->
  snd (UNetAE.test_epoch self src_loader tar_loader loss_fn epoch writer
         write_images w) <> inl IndexError.
Proof.
  intro Hle. unfold UNetAE.test_epoch. run.
  destruct (test_loop_ok ic oc fm lv gn lam s loss_fn (batches tar_loader)
              (mkWorld (module_train false (w_net w)) (w_optim w) (w_out w))
              (batches src_loader) 0 UNetAE.running0 Hle)
    as (r' & Hrun & _).
  fold (enumerate (batches src_loader)) in Hrun. rewrite Hrun.
  destruct (UNetAE.cnt r'); cbn; [discriminate|].
  destruct writer; [destruct write_images; [destruct (UNetAE.last r')
                                              as [[x y]|]|]|];
    cbn; discriminate.
Qed.

Lemma test_epoch_index_error (epoch : nat) (writer : option SummaryWriter)
  (write_images : bool) (w : world) :
  (List.length (batches tar_loader)
   < List.length (batches src_loader))%nat ->
  snd (UNetAE.test_epoch self src_loader tar_loader loss_fn epoch writer
         write_images w) = inl IndexError.
Proof.
  intro Hlt. unfold UNetAE.test_epoch. run.
  pose proof (test_loop_index_error ic oc fm lv gn lam s loss_fn
                (batches tar_loader)
                (mkWorld (module_train false (w_net w)) (w_optim w) (w_out w))
                (batches src_loader) 0 UNetAE.running0 Hlt (Nat.le_0_l _))
    as H.
  fold (enumerate (batches src_loader)) in H. rewrite H. reflexivity.
Qed.

End IndexFacts.

(** C10: [train_epoch] and [test_epoch] read [tar_data[i]] for every index
    [i] of a source batch.  Every such index has a target batch exactly
    when the target loader yields at least as many batches as the source
    loader, and exactly then no call of either method on the two loaders
    ends by an [IndexError]. *)
Theorem target_index_in_bounds_iff
  (B : Backend) (ic oc fm lv : nat) (gn : bool) (lam : pyfloat) (s : nat)
  (loss_fn : FT -> FT -> pyfloat) (src_loader tar_loader : DataLoader)
  (w : world) :
  let self := UNetAE.init ic oc fm lv gn lam s in
  let enough :=
    (List.length (batches src_loader)
     <= List.length (batches tar_loader))%nat in
  ((forall i, (i < List.length (batches src_loader))%nat ->
              exists b, nth_error (enumerate (batches tar_loader)) i
                        = Some (i, b))
   <-> enough)
  /\ ((forall epoch print_stats writer write_images,
          snd (UNetAE.train_epoch self src_loader tar_loader loss_fn epoch
                 print_stats writer write_images w) <> inl IndexError)
      <-> enough)
  /\ ((forall epoch writer write_images,
          snd (UNetAE.test_epoch self src_loader tar_loader loss_fn epoch
                 writer write_images w) <> inl IndexError)
      <-> enough).
Proof.
  intros self enough. split; [apply paired_target_iff|]. split; split.
  - intro H.
    destruct (Nat.le_gt_cases (List.length (batches src_loader))
                (List.length (batches tar_loader))) as [Hle|Hgt];
      [exact Hle|].
    exfalso. apply (H 0%nat 1%Z None false).
    apply train_epoch_index_error; [discriminate | exact Hgt].
  - intros Hle epoch print_stats writer write_images.
    now apply train_epoch_in_range.
  - intro H.
    destruct (Nat.le_gt_cases (List.length (batches src_loader))
                (List.length (batches tar_loader))) as [Hle|Hgt];
      [exact Hle|].
    exfalso. apply (H 0%nat None false).
    now apply test_epoch_index_error.
  - intros Hle epoch writer write_images.
    now apply test_epoch_in_range.
Qed.

Lemma target_index_in_bounds_iff_witness :
  (List.length (batches (Toy.loader [Toy.batch1]))
   <= List.length (batches (Toy.loader [Toy.batch2])))%nat
  /\ snd (UNetAE.train_epoch UNetAE.default (Toy.loader [Toy.batch1])
            (Toy.loader [Toy.batch2]) Toy.loss_fn 0 1 None false Toy.world0)
     <> inl IndexError.
Proof.
  split; [cbn; lia|].
  apply (proj2 (proj1 (proj2 (target_index_in_bounds_iff Toy.backend 1 1 64
                                4 false 0 128 Toy.loss_fn
                                (Toy.loader [Toy.batch1])
                                (Toy.loader [Toy.batch2]) Toy.world0)))).
  cbn; lia.
Defined.

(** ** Training the network *)

Section TrainNetFacts.
Context {B : Backend}.
Variables (ic oc fm lv : nat) (gn : bool) (lam : pyfloat) (s : nat).
Variable loss_fn : FT -> FT -> pyfloat.

Local Abbreviation self := (UNetAE.init ic oc fm lv gn lam s).

Lemma saved_paths_app (a b : list event) :
  saved_paths (a ++ b) = saved_paths a ++ saved_paths b.
Proof. apply flat_map_app. Qed.

Lemma saved_paths_train_world (src_loader : DataLoader) (epoch : nat)
  (print_stats : Z) (i : nat) (data t : FT) (w : world) :
  saved_paths (w_out (train_world lv lam src_loader loss_fn epoch print_stats
                        i data t w))
  = saved_paths (w_out w).
Proof.
  unfold train_world; cbn [w_out].
  destruct (py_mod (Z.of_nat i) print_stats) as [e|[| |]]; try reflexivity.
  rewrite saved_paths_app. cbn. apply app_nil_r.
Qed.

(** Whether it ends by a return or by an exception, an epoch of training
    saves nothing. *)
Lemma train_loop_saves_nothing (src_loader : DataLoader) (tar : list FT)
  (epoch : nat) (print_stats : Z) :
  forall (bs : list FT) (k : nat) (r : UNetAE.running) (w : world),
    saved_paths
      (w_out (fst (for_each
                     (UNetAE.train_iteration self src_loader (enumerate tar)
                        loss_fn epoch print_stats)
                     (combine (seq k (List.length bs)) bs) r w)))
    = saved_paths (w_out w).
Proof.
  induction bs as [|b bs IH]; intros k r w; cbn [List.length seq combine];
    [reflexivity|].
  rewrite for_each_cons, train_iteration_run.
  destruct (nth_error tar k) as [t|]; [|reflexivity].
  destruct (py_mod (Z.of_nat k) print_stats) as [e|m].
  - cbn [fst]. apply saved_paths_train_world.
  - rewrite IH. apply saved_paths_train_world.
Qed.

Lemma train_epoch_saves_nothing (src_loader tar_loader : DataLoader)
  (epoch : nat) (print_stats : Z) (writer : option SummaryWriter)
  (write_images : bool) (w : world) :
  saved_paths
    (w_out (fst (UNetAE.train_epoch self src_loader tar_loader loss_fn epoch
                   print_stats writer write_images w)))
  = saved_paths (w_out w).
Proof.
  unfold UNetAE.train_epoch. run.
  pose proof (train_loop_saves_nothing src_loader (batches tar_loader) epoch
                print_stats (batches src_loader) 0 UNetAE.running0
                (mkWorld (module_train true (w_net w)) (w_optim w) (w_out w)))
    as H.
  fold (enumerate (batches src_loader)) in H. cbn [w_out] in H.
  destruct (for_each _ _ _ _) as [w1 [e|r']]; cbn [fst] in H; [exact H|].
  destruct (UNetAE.cnt r'); cbn [py_div fst]; [exact H|].
  destruct writer; [destruct write_images; [destruct (UNetAE.last r')
                                              as [[x y]|]|]|];
    cbn [fst w_out w_net w_optim]; rewrite ?saved_paths_app, H; cbn;
    rewrite ?app_nil_r; reflexivity.
Qed.

(** Without a writer, the first epoch of [train_net] ends by an exception
    before anything is saved. *)
Lemma train_net_epoch_without_writer
  (src_train_loader src_test_loader tar_train_loader tar_test_loader
     : DataLoader)
  (epochs : nat) (test_freq print_stats : Z) (log_dir : option string)
  (write_images_freq : Z) (epoch : nat) (test_loss_min : pyfloat)
  (sc : sched) (w : world) :
  exists e,
    snd (UNetAE.train_net_epoch self src_train_loader src_test_loader
           tar_train_loader tar_test_loader loss_fn epochs test_freq
           print_stats log_dir write_images_freq None epoch
           (test_loss_min, Some sc) w) = inl e
    /\ saved_paths
         (w_out (fst (UNetAE.train_net_epoch self src_train_loader
                        src_test_loader tar_train_loader tar_test_loader
                        loss_fn epochs test_freq print_stats log_dir
                        write_images_freq None epoch
                        (test_loss_min, Some sc) w)))
       = saved_paths (w_out w).
Proof.
  unfold UNetAE.train_net_epoch. run.
  destruct (py_mod (Z.of_nat epoch) write_images_freq) as [e|wi].
  - exists e. cbn [fst snd w_out]. rewrite saved_paths_app. cbn.
    split; [reflexivity | apply app_nil_r].
  - pose proof (train_epoch_saves_nothing src_train_loader tar_train_loader
                  epoch print_stats None (wi =? 0)%Z
                  (mkWorld (w_net w) (w_optim w)
                     (w_out w ++ [print (MsgEpoch epoch epochs)]))) as H.
    cbn [w_out] in H. rewrite saved_paths_app in H.
    change (saved_paths [print (MsgEpoch epoch epochs)])
      with (@nil string) in H.
    rewrite app_nil_r in H.
    destruct (UNetAE.train_epoch _ _ _ _ _ _ _ _ _) as [w1 [e|v]];
      cbn [fst] in H.
    + exists e. split; [reflexivity | exact H].
    + destruct (StepLR_step sc epoch (w_optim w1)) as [sc' op'].
      exists AttributeError. split; [reflexivity | exact H].
Qed.

End TrainNetFacts.

(** C7 fails on the code: with [log_dir = None], as by default,
    [train_net] never returns and saves no checkpoint, whatever its other
    arguments are. *)
Theorem train_net_without_log_dir_raises
  (B : Backend) (ic oc fm lv : nat) (gn : bool) (lam : pyfloat) (s : nat)
  (src_train_loader src_test_loader tar_train_loader tar_test_loader
     : DataLoader)
  (loss_fn : FT -> FT -> pyfloat) (lr : Q) (step_size : Z) (gamma : Q)
  (epochs : nat) (test_freq print_stats : Z) (write_images_freq : Z)
  (w : world) :
  let run :=
    UNetAE.train_net (UNetAE.init ic oc fm lv gn lam s) src_train_loader
      src_test_loader tar_train_loader tar_test_loader loss_fn lr step_size
      gamma epochs test_freq print_stats None write_images_freq w in
  (exists e, snd run = inl e)
  /\ saved_paths (w_out (fst run)) = saved_paths (w_out w).
Proof.
  cbv zeta. unfold UNetAE.train_net. run.
  destruct epochs as [|n].
  - cbn. split; [eexists; reflexivity | reflexivity].
  - cbn [seq]. rewrite for_each_cons.
    destruct (train_net_epoch_without_writer ic oc fm lv gn lam s loss_fn
                src_train_loader src_test_loader tar_train_loader
                tar_test_loader (S n) test_freq print_stats None
                write_images_freq 0 np_inf
                (StepLR (Adam (w_net w) lr) step_size gamma)
                (mkWorld (w_net w) (Adam (w_net w) lr) (w_out w)))
      as (e & He & Hs).
    destruct (UNetAE.train_net_epoch _ _ _ _ _ _ _ _ _ _ _ _ _ _ _)
      as [w1 [e'|st]]; cbn in He, Hs; [|discriminate].
    cbn. split; [eexists; reflexivity | exact Hs].
Qed.

(** On the toy backend, with loaders of one batch and the default
    arguments of [train_net], the exception is [AttributeError], raised
    in the first epoch after the epoch of training; nothing is saved. *)
Lemma train_net_default_arguments_run :
  UNetAE.train_net UNetAE.default (Toy.loader [Toy.batch1])
    (Toy.loader [Toy.batch1]) (Toy.loader [Toy.batch2])
    (Toy.loader [Toy.batch2]) Toy.loss_fn (1 # 1000) 1 1 100 1 1 None 1
    Toy.world0
  = (mkWorld (B := Toy.backend) (999 # 1000) (1 # 1000)
       [print (MsgEpoch 0 100); print (MsgIteration 0 0 3 0);
        print (MsgAvgTrain 0 0)],
     inl AttributeError).
Proof. vm_compute. reflexivity. Qed.

(** *** With a log directory *)

(** [test_loss_min] stands for the test losses seen so far: a loss is
    below it exactly when it is below [np.inf] and all of them that are
    numbers. *)
Lemma bound_update (bnd : pyfloat) (previous : list pyfloat) (v : pyfloat) :
  (forall v', (v' <? bnd) = below_all v' previous) ->
  forall v', (v' <? (if v <? bnd then v else bnd))
             = below_all v' (previous ++ [v]).
Proof.
  intros Hinv v'. unfold below_all. rewrite forallb_app.
  cbn [forallb]. rewrite andb_true_r, andb_assoc.
  fold (below_all v' previous). rewrite <- Hinv.
  destruct (v <? bnd) eqn:E.
  - assert (Hn : is_nan v = false) by (destruct v; [reflexivity .. | discriminate]).
    rewrite Hn. cbn [orb].
    destruct (v' <? v) eqn:E2; [|now rewrite andb_false_r].
    rewrite andb_true_r. symmetry. now apply flt_trans with v.
  - destruct (v' <? bnd) eqn:E2; [|reflexivity].
    cbn [andb]. destruct (is_nan v) eqn:Hn; [reflexivity|].
    cbn [orb]. symmetry. now apply flt_le_trans with bnd.
Qed.

Section TrainNetRuns.
Context {B : Backend}.
Variables (ic oc fm lv : nat) (gn : bool) (lam : pyfloat) (s : nat).
Variable loss_fn : FT -> FT -> pyfloat.
Variables src_train_loader src_test_loader : DataLoader.
Variables tar_train_loader tar_test_loader : DataLoader.
Variables (epochs : nat) (test_freq print_stats write_images_freq : Z).
Variable log_dir : string.

Hypothesis test_freq_nonzero : test_freq <> 0%Z.
Hypothesis print_stats_nonzero : print_stats <> 0%Z.
Hypothesis write_images_freq_nonzero : write_images_freq <> 0%Z.
Hypothesis src_train_nonempty : batches src_train_loader <> [].
Hypothesis src_test_nonempty : batches src_test_loader <> [].
Hypothesis tar_train_enough :
  (List.length (batches src_train_loader)
   <= List.length (batches tar_train_loader))%nat.
Hypothesis tar_test_enough :
  (List.length (batches src_test_loader)
   <= List.length (batches tar_test_loader))%nat.

Local Abbreviation self := (UNetAE.init ic oc fm lv gn lam s).
Local Abbreviation body :=
  (UNetAE.train_net_epoch self src_train_loader src_test_loader
     tar_train_loader tar_test_loader loss_fn epochs test_freq print_stats
     (Some log_dir) write_images_freq (Some (mkWriter log_dir))).

Lemma train_net_epoch_ok (epoch : nat) (bnd : pyfloat) (sc : sched)
  (w : world) (previous : list pyfloat) :
  (forall v, (v <? bnd) = below_all v previous) ->
  exists w' bnd' sc' v,
    body epoch (bnd, Some sc) w = (w', inr (bnd', Some sc'))
    /\ marks (w_out w')
       = marks (w_out w) ++ epoch_marks log_dir test_freq epoch previous v
    /\ (forall v',
           (v' <? bnd')
           = below_all v'
               (if tested test_freq epoch then previous ++ [v]
                else previous)).
Proof.
  intro Hinv. unfold UNetAE.train_net_epoch. run.
  rewrite (py_mod_ok _ _ write_images_freq_nonzero).
  destruct (train_epoch_ok ic oc fm lv gn lam s loss_fn src_train_loader
              tar_train_loader epoch print_stats (Some (mkWriter log_dir))
              (Z.of_nat epoch mod write_images_freq =? 0)%Z
              (mkWorld (w_net w) (w_optim w)
                 (w_out w ++ [print (MsgEpoch epoch epochs)]))
              print_stats_nonzero src_train_nonempty tar_train_enough)
    as (w2 & v1 & Hrun & _ & _ & Hm2).
  rewrite Hrun. cbn [w_out] in Hm2.
  rewrite marks_app in Hm2.
  change (marks [print (MsgEpoch epoch epochs)]) with (@nil mark) in Hm2.
  rewrite app_nil_r in Hm2.
  destruct (StepLR_step sc epoch (w_optim w2)) as [sc' op'] eqn:Hstep.
  unfold UNetAE.writer_add_scalar. run.
  rewrite (py_mod_ok _ _ test_freq_nonzero).
  unfold epoch_marks, tested.
  destruct (Z.of_nat epoch mod test_freq =? 0)%Z.
  - destruct (test_epoch_ok ic oc fm lv gn lam s loss_fn src_test_loader
                tar_test_loader epoch (Some (mkWriter log_dir)) true
                (mkWorld (w_net w2) op'
                   (w_out w2
                    ++ [add_scalar "learning_rate" (StepLR_get_lr sc' op')
                          epoch]))
                src_test_nonempty tar_test_enough)
      as (w4 & v & Hrun4 & _ & _ & _ & _ & Hm4).
    rewrite Hrun4. cbn [w_out] in Hm4. rewrite marks_app, Hm2 in Hm4.
    pose proof (bound_update bnd previous v Hinv) as Hupd.
    rewrite (Hinv v) in Hupd. rewrite (Hinv v).
    destruct (below_all v previous) eqn:Hbelow;
      cbn [os_path_join w_out w_net w_optim].
    + eexists; exists v, sc', v.
      split; [reflexivity|]. split; [|exact Hupd].
      rewrite Hbelow. cbn [w_out].
      rewrite !marks_app, Hm4. cbn. rewrite <- !app_assoc. reflexivity.
    + eexists; exists bnd, sc', v.
      split; [reflexivity|]. split; [|exact Hupd].
      rewrite Hbelow. cbn [w_out].
      rewrite !marks_app, Hm4. cbn. rewrite <- !app_assoc. reflexivity.
  - cbn [os_path_join w_out w_net w_optim].
    eexists; exists bnd, sc', 0.
    split; [reflexivity|]. split; [|exact Hinv].
    cbn [w_out].
    rewrite !marks_app, Hm2. cbn. rewrite <- !app_assoc. reflexivity.
Qed.

Lemma train_net_loop_ok :
  forall (n epoch : nat) (bnd : pyfloat) (sc : sched) (w : world)
         (previous : list pyfloat),
    (forall v, (v <? bnd) = below_all v previous) ->
    exists w' st ms,
      for_each body (seq epoch n) (bnd, Some sc) w = (w', inr st)
      /\ marks (w_out w') = marks (w_out w) ++ ms
      /\ epochs_run log_dir test_freq epoch n previous ms.
Proof.
  induction n as [|n IH]; intros epoch bnd sc w previous Hinv.
  - exists w, (bnd, Some sc), []. cbn. rewrite app_nil_r.
    repeat split. constructor.
  - cbn [seq]. rewrite for_each_cons.
    destruct (train_net_epoch_ok epoch bnd sc w previous Hinv)
      as (w1 & bnd1 & sc1 & v & Hrun & Hm & Hinv1).
    rewrite Hrun.
    destruct (IH (S epoch) bnd1 sc1 w1 _ Hinv1)
      as (w' & st & ms & Hrun' & Hm' & Hms).
    exists w', st, (epoch_marks log_dir test_freq epoch previous v ++ ms).
    split; [exact Hrun'|]. split.
    + rewrite Hm', Hm, <- app_assoc. reflexivity.
    + constructor. exact Hms.
Qed.

(** With a log directory, non-zero frequencies, source loaders that yield
    a batch and target loaders that yield as many as them, [train_net]
    returns after [epochs] epochs.  Each epoch trains once, then steps the
    scheduler, tests exactly when [epoch % test_freq == 0], saves the best
    checkpoint exactly when the test loss is strictly below [np.inf] and
    all the test losses before it that are numbers, and saves the regular
    checkpoint; the writer is closed at the end. *)
Lemma train_net_with_log_dir (lr : Q) (step_size : Z) (gamma : Q)
  (w : world) :
  exists w' ms,
    UNetAE.train_net self src_train_loader src_test_loader tar_train_loader
      tar_test_loader loss_fn lr step_size gamma epochs test_freq
      print_stats (Some log_dir) write_images_freq w = (w', inr tt)
    /\ marks (w_out w') = marks (w_out w) ++ ms ++ [Closed]
    /\ epochs_run log_dir test_freq 0 epochs [] ms.
Proof.
  unfold UNetAE.train_net. run.
  destruct (train_net_loop_ok epochs 0 np_inf
              (StepLR (Adam (w_net w) lr) step_size gamma)
              (mkWorld (w_net w) (Adam (w_net w) lr) (w_out w)) [])
    as (w' & st & ms & Hrun & Hm & Hms);
    [intro v; symmetry; apply andb_true_r|].
  rewrite Hrun. unfold UNetAE.writer_do_close. run.
  eexists; exists ms. split; [reflexivity|]. split; [|exact Hms].
  cbn [w_out]. rewrite marks_app, Hm, <- app_assoc. reflexivity.
Qed.

End TrainNetRuns.

(** Two epochs on the toy backend, testing every epoch: the second test
    loss is below the first, so both epochs save the best checkpoint (the
    test losses are left out of the marks compared). *)
Example train_net_two_epochs :
  map (fun m => match m with
                | TestEpoch epoch _ => TestEpoch epoch 0
                | _ => m
                end)
    (marks (w_out (fst (UNetAE.train_net (UNetAE.init 1 1 2 1 false 0 4)
                          (Toy.loader [Toy.batch1]) (Toy.loader [Toy.batch1])
                          (Toy.loader [Toy.batch2]) (Toy.loader [Toy.batch2])
                          Toy.loss_fn (1 # 1000) 1 1 2 1 1
                          (Some "logs"%string) 1 Toy.world0))))
  = [TrainEpoch 0; SchedulerStep 0; TestEpoch 0 0;
     Saved "logs/best_checkpoint.pytorch"; Saved "logs/checkpoint.pytorch";
     TrainEpoch 1; SchedulerStep 1; TestEpoch 1 0;
     Saved "logs/best_checkpoint.pytorch"; Saved "logs/checkpoint.pytorch";
     Closed].
Proof. vm_compute. reflexivity. Qed.

(** * Further properties *)

(** ** The encoder and the decoder, level by level *)

Section LevelFacts.
Context {B : Backend}.

Lemma encoder_loop_closed (nt : net) (x : FT) :
  forall (n k : nat) (acc : list FT),
    UNetEncoder.loop nt (seq k n) (encoder_input nt k x) acc
    = (encoder_input nt (k + n) x,
       acc ++ map (fun i => enc_convblock nt (i + 1) (encoder_input nt i x))
                (seq k n)).
Proof.
  induction n as [|n IH]; intros k acc; cbn [seq UNetEncoder.loop map].
  - now rewrite Nat.add_0_r, app_nil_r.
  - rewrite (Nat.add_1_r k).
    change (enc_pool (S k) (enc_convblock nt (S k) (encoder_input nt k x)))
      with (encoder_input nt (S k) x).
    rewrite IH, <- app_assoc, Nat.add_succ_r. reflexivity.
Qed.

Lemma encoder_outputs_closed (self : UNetEncoder.t) (nt : net) (x : FT) :
  fst (fst (UNetEncoder.forward self nt x))
  = map (fun i => enc_convblock nt (i + 1) (encoder_input nt i x))
      (seq 0 (UNetEncoder.levels self)).
Proof.
  rewrite encoder_forward_eq. cbn [fst snd].
  change x with (encoder_input nt 0 x) at 1.
  now rewrite encoder_loop_closed.
Qed.

Lemma encoder_outputs_nth (self : UNetEncoder.t) (nt : net) (x : FT) :
  List.length (fst (fst (UNetEncoder.forward self nt x)))
  = UNetEncoder.levels self
  /\ (forall i, (i < UNetEncoder.levels self)%nat ->
                nth_error (fst (fst (UNetEncoder.forward self nt x))) i
                = Some (enc_convblock nt (i + 1) (encoder_input nt i x))).
Proof.
  rewrite encoder_outputs_closed. split.
  - now rewrite length_map, length_seq.
  - intros i Hi. rewrite nth_error_map, nth_error_seq.
    apply Nat.ltb_lt in Hi. now rewrite Hi.
Qed.

Lemma center_output_closed (levels : nat) (nt : net) (x : FT) :
  center_output levels nt x = enc_center_conv nt (encoder_input nt levels x).
Proof.
  unfold center_output. change x with (encoder_input nt 0 x) at 1.
  now rewrite encoder_loop_closed.
Qed.

Lemma decoder_with_skips_length (nt : net) (skips : list FT) :
  forall k outputs,
    List.length (decoder_with_skips nt skips k outputs) = List.length skips.
Proof.
  induction skips as [|e skips IH]; intros k outputs; cbn;
    [reflexivity | now rewrite IH].
Qed.

(** The loop of the decoder reads its list only at the indices of its
    range. *)
Lemma decoder_loop_ext (self : UNetDecoder.t) (nt : net)
  (enc enc' : list FT) :
  forall (range : list nat) (outputs : FT) (acc : list FT),
    (forall i, In i range -> nth_error enc i = nth_error enc' i) ->
    UNetDecoder.loop self nt enc range outputs acc
    = UNetDecoder.loop self nt enc' range outputs acc.
Proof.
  induction range as [|i range IH]; intros outputs acc H;
    cbn [UNetDecoder.loop]; [reflexivity|].
  rewrite (H i (or_introl eq_refl)).
  destruct (UNetDecoder.skip_connections self).
  - destruct (nth_error enc' i); [|reflexivity].
    apply IH. intros j Hj. apply H. now right.
  - apply IH. intros j Hj. apply H. now right.
Qed.

(** What the loop of the decoder returns, when it returns. *)
Lemma decoder_loop_returns (self : UNetDecoder.t) (nt : net)
  (enc : list FT) :
  forall (range : list nat) (outputs : FT) (acc : list FT) o acc',
    UNetDecoder.loop self nt enc range outputs acc = inr (o, acc') ->
    exists new,
      acc' = acc ++ new
      /\ List.length new = List.length range
      /\ o = last new outputs.
Proof.
  induction range as [|i range IH]; intros outputs acc o acc' H;
    cbn [UNetDecoder.loop] in H.
  - injection H as <- <-. exists []. now rewrite app_nil_r.
  - match type of H with
    | match ?u with _ => _ end = _ => destruct u as [e|up] eqn:Hu
    end; [discriminate|].
    apply IH in H. destruct H as (new & -> & Hlen & ->).
    exists (dec_convblock nt (i + 1) up :: new).
    rewrite <- app_assoc. cbn [List.length app]. rewrite Hlen, last_cons.
    repeat split.
Qed.

End LevelFacts.

(** X1: the encoder returns one skip tensor per level: that of level [i]
    is the convolutional block [i + 1] applied to what the levels before
    it, each a block followed by its pooling, make of the input; the
    latent is the center block applied to what all the levels make of
    it. *)
Theorem encoder_outputs_by_level
  (B : Backend) (self : UNetEncoder.t) (nt : net) (x : FT) :
  let encoder_outputs := fst (fst (UNetEncoder.forward self nt x)) in
  List.length encoder_outputs = UNetEncoder.levels self
  /\ (forall i, (i < UNetEncoder.levels self)%nat ->
                nth_error encoder_outputs i
                = Some (enc_convblock nt (i + 1) (encoder_input nt i x)))
  /\ snd (fst (UNetEncoder.forward self nt x))
     = enc_center_conv nt (encoder_input nt (UNetEncoder.levels self) x).
Proof.
  cbv zeta. split; [|split].
  - apply encoder_outputs_nth.
  - apply encoder_outputs_nth.
  - rewrite encoder_forward_eq. cbn [fst snd]. apply center_output_closed.
Qed.

Lemma encoder_outputs_by_level_witness :
  (0 < UNetEncoder.levels (UNetEncoder.init 1 64 2 false))%nat
  /\ nth_error
       (fst (fst (UNetEncoder.forward (B := Toy.backend)
                    (UNetEncoder.init 1 64 2 false) 2%Q Toy.batch1))) 0
     = Some (enc_convblock (Backend := Toy.backend) 2%Q 1
               (encoder_input (B := Toy.backend) 2%Q 0 Toy.batch1)).
Proof.
  split; [cbn; lia|].
  apply (encoder_outputs_by_level Toy.backend (UNetEncoder.init 1 64 2 false)
           2%Q Toy.batch1).
  cbn; lia.
Defined.

(** X2: a decoder with skip connections, run on the result of an encoder
    of as many levels, returns: it makes one feature map per level, and
    its level [i] (from 0) receives the skip tensor of the encoder's level
    [levels - 1 - i]. *)
Theorem encoder_decoder_compose_with_skips
  (B : Backend) (enc : UNetEncoder.t) (dec : UNetDecoder.t) (nt : net)
  (x : FT)
  (Hskip : UNetDecoder.skip_connections dec = true)
  (Hlevels : UNetDecoder.levels dec = UNetEncoder.levels enc) :
  let encoder_outputs := fst (fst (UNetEncoder.forward enc nt x)) in
  let final := snd (fst (UNetEncoder.forward enc nt x)) in
  let maps := decoder_with_skips nt (rev encoder_outputs) 1 final in
  UNetDecoder.forward dec nt final encoder_outputs
  = (rev encoder_outputs, inr (maps, dec_output nt (last maps final)))
  /\ List.length maps = UNetDecoder.levels dec
  /\ (forall i, (i < UNetDecoder.levels dec)%nat ->
                nth_error (rev encoder_outputs) i
                = Some (enc_convblock nt (UNetDecoder.levels dec - i)
                          (encoder_input nt (UNetDecoder.levels dec - 1 - i)
                             x))).
Proof.
  cbv zeta.
  pose proof (encoder_outputs_nth enc nt x) as (Hlen & Hnth).
  set (eo := fst (fst (UNetEncoder.forward enc nt x))) in *.
  split; [|split].
  - unfold UNetDecoder.forward.
    rewrite Hlevels, <- Hlen, <- length_rev.
    rewrite (decoder_loop_with_skips dec nt (rev eo) Hskip (rev eo))
      by reflexivity.
    reflexivity.
  - rewrite decoder_with_skips_length, length_rev, Hlen. now symmetry.
  - intros i Hi. rewrite nth_error_rev, Hlen, <- Hlevels.
    destruct (Nat.ltb_spec i (UNetDecoder.levels dec)) as [_|Hge]; [|lia].
    rewrite Hnth by lia.
    replace (UNetDecoder.levels dec - S i + 1)%nat
      with (UNetDecoder.levels dec - i)%nat by lia.
    replace (UNetDecoder.levels dec - S i)%nat
      with (UNetDecoder.levels dec - 1 - i)%nat by lia.
    reflexivity.
Qed.

Lemma encoder_decoder_compose_with_skips_witness :
  let enc := UNetEncoder.init 1 64 2 false in
  let dec := UNetDecoder.init 1 1 64 2 true false in
  UNetDecoder.skip_connections dec = true
  /\ UNetDecoder.levels dec = UNetEncoder.levels enc
  /\ List.length
       (decoder_with_skips (B := Toy.backend) 2%Q
          (rev (fst (fst (UNetEncoder.forward (B := Toy.backend) enc 2%Q
                            Toy.batch1)))) 1
          (snd (fst (UNetEncoder.forward (B := Toy.backend) enc 2%Q
                       Toy.batch1))))
     = UNetDecoder.levels dec.
Proof.
  intros enc dec. split; [reflexivity|]. split; [reflexivity|].
  apply (encoder_decoder_compose_with_skips Toy.backend enc dec 2%Q
           Toy.batch1); reflexivity.
Defined.

(** X3: a decoder with skip connections that is given fewer encoder
    outputs than it has levels raises [IndexError]; the caller's list has
    been reversed all the same. *)
Theorem decoder_short_list_raises
  (B : Backend) (self : UNetDecoder.t) (nt : net) (inputs : FT)
  (encoder_outputs : list FT)
  (Hskip : UNetDecoder.skip_connections self = true)
  (Hshort : (List.length encoder_outputs < UNetDecoder.levels self)%nat) :
  UNetDecoder.forward self nt inputs encoder_outputs
  = (rev encoder_outputs, inl IndexError).
Proof.
  unfold UNetDecoder.forward.
  rewrite (decoder_loop_short self nt (rev encoder_outputs) Hskip)
    by (rewrite length_rev; lia).
  reflexivity.
Qed.

Lemma decoder_short_list_raises_witness :
  let self := UNetDecoder.init 1 1 64 2 true false in
  UNetDecoder.skip_connections self = true
  /\ (List.length [Toy.batch1] < UNetDecoder.levels self)%nat
  /\ UNetDecoder.forward (B := Toy.backend) self 1%Q Toy.batch2 [Toy.batch1]
     = (rev [Toy.batch1], inl IndexError).
Proof.
  intro self. split; [reflexivity|]. split; [cbn; lia|].
  apply (decoder_short_list_raises Toy.backend self 1%Q Toy.batch2
           [Toy.batch1]); [reflexivity | cbn; lia].
Defined.

(** X4: a decoder reads at most the last [levels] entries of the list it
    is given: the entries before them have no effect on what it returns
    or raises. *)
Theorem decoder_reads_last_levels
  (B : Backend) (self : UNetDecoder.t) (nt : net) (inputs : FT)
  (encoder_outputs : list FT) :
  snd (UNetDecoder.forward self nt inputs encoder_outputs)
  = snd (UNetDecoder.forward self nt inputs
           (skipn (List.length encoder_outputs - UNetDecoder.levels self)
              encoder_outputs)).
Proof.
  unfold UNetDecoder.forward.
  rewrite <- firstn_rev.
  rewrite (decoder_loop_ext self nt (rev encoder_outputs)
             (firstn (UNetDecoder.levels self) (rev encoder_outputs))).
  - destruct (UNetDecoder.loop _ _ _ _ _ _) as [e|[o d]]; reflexivity.
  - intros i Hi. apply in_seq in Hi. rewrite nth_error_firstn.
    destruct (Nat.ltb_spec i (UNetDecoder.levels self)); [reflexivity|lia].
Qed.

(** X5: whenever the decoder returns, it returns one feature map per
    level, and its output is the output layer applied to the last of them
    (to the input itself when there is no level). *)
Theorem decoder_returns_one_map_per_level
  (B : Backend) (self : UNetDecoder.t) (nt : net) (inputs : FT)
  (encoder_outputs : list FT) (decoder_outputs : list FT) (outputs : FT)
  (Hret : snd (UNetDecoder.forward self nt inputs encoder_outputs)
          = inr (decoder_outputs, outputs)) :
  List.length decoder_outputs = UNetDecoder.levels self
  /\ outputs = dec_output nt (last decoder_outputs inputs).
Proof.
  unfold UNetDecoder.forward in Hret.
  destruct (UNetDecoder.loop _ _ _ _ _ _) as [e|[o d]] eqn:Hloop;
    [discriminate|].
  cbn in Hret. injection Hret as <- <-.
  apply decoder_loop_returns in Hloop.
  destruct Hloop as (new & -> & Hlen & ->).
  cbn [app]. now rewrite Hlen, length_seq.
Qed.

Lemma decoder_returns_one_map_per_level_witness :
  let self := UNetDecoder.init 1 1 64 2 false false in
  exists decoder_outputs outputs,
    snd (UNetDecoder.forward (B := Toy.backend) self 2%Q Toy.batch1 [])
    = inr (decoder_outputs, outputs)
    /\ List.length decoder_outputs = UNetDecoder.levels self.
Proof.
  intro self. eexists; eexists. split; [reflexivity|].
  eapply (decoder_returns_one_map_per_level Toy.backend self 2%Q Toy.batch1
            []).
  reflexivity.
Defined.

(** ** The modules the constructors register *)

Lemma string_app_inv_head (p a b : string) :
  (p ++ a)%string = (p ++ b)%string -> a = b.
Proof.
  induction p as [|c p IH]; cbn; intro H; [exact H|].
  injection H as H. now apply IH.
Qed.

Lemma numbered_inj (prefix : string) (i j : nat) :
  numbered prefix i = numbered prefix j -> i = j.
Proof.
  unfold numbered. intro H. apply string_app_inv_head in H.
  apply (f_equal NilEmpty.uint_of_string) in H.
  rewrite !NilEmpty.usu in H. injection H as H.
  apply (f_equal Nat.of_uint) in H. now rewrite !Unsigned.of_to in H.
Qed.

(** Two numbered names differ: by their numbers, or by their prefixes. *)
Ltac names_differ :=
  let E := fresh "E" in
  intro E;
  first [ apply numbered_inj in E; lia
        | symmetry in E; apply numbered_inj in E; lia
        | unfold numbered in E; cbn in E; discriminate E ].

Lemma getattr_add_same (name : string) (m : module_spec)
  (features : Sequential) :
  getattr (add_module name m features) name = inr m.
Proof.
  induction features as [|[n' m'] features IH]; cbn.
  - now rewrite String.eqb_refl.
  - destruct (String.eqb n' name) eqn:E; cbn.
    + now rewrite String.eqb_refl.
    + now rewrite E.
Qed.

Lemma getattr_add_other (name name' : string) (m : module_spec)
  (features : Sequential) :
  name <> name' ->
  getattr (add_module name m features) name' = getattr features name'.
Proof.
  intro Hne. induction features as [|[n' m'] features IH]; cbn.
  - destruct (String.eqb_spec name name'); [contradiction|reflexivity].
  - destruct (String.eqb_spec n' name) as [->|Hn]; cbn.
    + destruct (String.eqb_spec name name'); [contradiction|reflexivity].
    + now rewrite IH.
Qed.

Lemma length_add_fresh (name : string) (m : module_spec)
  (features : Sequential) :
  getattr features name = inl AttributeError ->
  List.length (add_module name m features) = S (List.length features).
Proof.
  induction features as [|[n' m'] features IH]; cbn; [reflexivity|].
  destruct (String.eqb n' name); [discriminate|].
  intro H. cbn. now rewrite IH.
Qed.

Lemma py_pow2_nat (n : nat) : py_pow2 (Z.of_nat n) = PyInt (2 ^ Z.of_nat n).
Proof.
  unfold py_pow2. destruct (Z.ltb_spec (Z.of_nat n) 0); [lia|reflexivity].
Qed.

Lemma py_pow2_nonneg (e : Z) : (0 <= e)%Z -> py_pow2 e = PyInt (2 ^ e).
Proof.
  intro H. unfold py_pow2. destruct (Z.ltb_spec e 0); [lia|reflexivity].
Qed.

(** *** The encoder *)

(** The number of output features of the convolutional block of level
    [i]. *)
Local Abbreviation enc_out fm i := (PyInt (2 ^ Z.of_nat i * Z.of_nat fm)).

Lemma encoder_init_other (fm : nat) (gn : bool) (name : string) :
  forall (n k : nat) (R : Sequential) (in0 : pynum),
    (forall i, (k <= i < k + n)%nat ->
               name <> numbered "convblock" (i + 1)
               /\ name <> numbered "pool" (i + 1)) ->
    getattr (fst (UNetEncoder_init.loop fm gn (seq k n) R in0)) name
    = getattr R name.
Proof.
  induction n as [|n IH]; intros k R in0 H; cbn [seq UNetEncoder_init.loop];
    [reflexivity|].
  rewrite IH by (intros i Hi; apply H; lia).
  destruct (H k ltac:(lia)) as [Hc Hp].
  rewrite !getattr_add_other by (intro E; symmetry in E; contradiction).
  reflexivity.
Qed.

Lemma encoder_init_lookup (fm : nat) (gn : bool) :
  forall (n k : nat) (R : Sequential) (in0 : pynum) (j : nat),
    (k <= j < k + n)%nat ->
    getattr (fst (UNetEncoder_init.loop fm gn (seq k n) R in0))
      (numbered "convblock" (j + 1))
    = inr (UNetConvBlock2D (if (j =? k)%nat then in0 else enc_out fm (j - 1))
             (enc_out fm j) gn)
    /\ getattr (fst (UNetEncoder_init.loop fm gn (seq k n) R in0))
         (numbered "pool" (j + 1))
       = inr (MaxPool2d 2 2).
Proof.
  induction n as [|n IH]; intros k R in0 j Hj; [lia|].
  cbn [seq UNetEncoder_init.loop]. rewrite py_pow2_nat. cbn [py_mul].
  destruct (Nat.eq_dec j k) as [->|Hne].
  - rewrite Nat.eqb_refl.
    rewrite !encoder_init_other by (intros i Hi; split; names_differ).
    rewrite getattr_add_same.
    rewrite getattr_add_other by names_differ.
    rewrite getattr_add_same. split; reflexivity.
  - destruct (IH (S k) (add_module (numbered "pool" (k + 1)) (MaxPool2d 2 2)
                          (add_module (numbered "convblock" (k + 1))
                             (UNetConvBlock2D in0 (enc_out fm k) gn) R))
                (enc_out fm k) j ltac:(lia)) as [Hc Hp].
    rewrite Hc, Hp.
    destruct (Nat.eqb_spec j k); [contradiction|].
    destruct (Nat.eqb_spec j (S k)) as [->|_]; [|split; reflexivity].
    replace (S k - 1)%nat with k by lia. split; reflexivity.
Qed.

Lemma encoder_init_length (fm : nat) (gn : bool) :
  forall (n k : nat) (R : Sequential) (in0 : pynum),
    (forall i, (k <= i)%nat ->
               getattr R (numbered "convblock" (i + 1)) = inl AttributeError
               /\ getattr R (numbered "pool" (i + 1)) = inl AttributeError) ->
    List.length (fst (UNetEncoder_init.loop fm gn (seq k n) R in0))
    = (List.length R + 2 * n)%nat.
Proof.
  induction n as [|n IH]; intros k R in0 H; cbn [seq UNetEncoder_init.loop];
    [cbn; lia|].
  destruct (H k (Nat.le_refl k)) as [Hc Hp].
  rewrite IH.
  - rewrite length_add_fresh
      by (rewrite getattr_add_other by names_differ; exact Hp).
    rewrite length_add_fresh by exact Hc. lia.
  - intros i Hi. destruct (H i ltac:(lia)) as [Hci Hpi].
    rewrite !getattr_add_other by names_differ.
    split; assumption.
Qed.

(** X6: [UNetEncoder.__init__] registers two modules per level, under
    the names [forward] looks up.  The convolutional block of level [i]
    takes the features the block before it gives ([in_channels] for the
    first) and gives [2^i * feature_maps]; past [levels] no name is
    registered.  With at least one level the center block takes what the
    last block gives and doubles it. *)
Theorem encoder_init_registers_levels
  (self : UNetEncoder.t) (Hlevels : (1 <= UNetEncoder.levels self)%nat) :
  let fm := UNetEncoder.feature_maps self in
  let gn := UNetEncoder.group_norm self in
  let levels := UNetEncoder.levels self in
  List.length (UNetEncoder_init.features self) = (2 * levels)%nat
  /\ (forall i, (i < levels)%nat ->
        getattr (UNetEncoder_init.features self)
          (numbered "convblock" (i + 1))
        = inr (UNetConvBlock2D
                 (if (i =? 0)%nat
                  then PyInt (Z.of_nat (UNetEncoder.in_channels self))
                  else enc_out fm (i - 1))
                 (enc_out fm i) gn)
        /\ getattr (UNetEncoder_init.features self) (numbered "pool" (i + 1))
           = inr (MaxPool2d 2 2))
  /\ (forall i, (levels <= i)%nat ->
        getattr (UNetEncoder_init.features self)
          (numbered "convblock" (i + 1)) = inl AttributeError
        /\ getattr (UNetEncoder_init.features self)
             (numbered "pool" (i + 1)) = inl AttributeError)
  /\ UNetEncoder_init.center_conv self
     = UNetConvBlock2D (enc_out fm (levels - 1)) (enc_out fm levels) gn.
Proof.
  cbv zeta. unfold UNetEncoder_init.features. split; [|split; [|split]].
  - rewrite encoder_init_length; [reflexivity|].
    intros i _. split; reflexivity.
  - intros i Hi. apply (encoder_init_lookup _ _ _ 0). lia.
  - intros i Hi.
    rewrite !encoder_init_other by (intros j Hj; split; names_differ).
    split; reflexivity.
  - unfold UNetEncoder_init.center_conv.
    rewrite py_pow2_nat.
    replace (Z.of_nat (UNetEncoder.levels self) - 1)%Z
      with (Z.of_nat (UNetEncoder.levels self - 1)) by lia.
    rewrite py_pow2_nat. reflexivity.
Qed.

Lemma encoder_init_registers_levels_witness :
  (1 <= UNetEncoder.levels (UNetEncoder.init 1 64 4 false))%nat
  /\ UNetEncoder_init.center_conv (UNetEncoder.init 1 64 4 false)
     = UNetConvBlock2D (PyInt 512) (PyInt 1024) false.
Proof.
  split; [cbn; lia|].
  apply (encoder_init_registers_levels (UNetEncoder.init 1 64 4 false)).
  cbn; lia.
Defined.

(** X7: without any level, the center block is constructed with a
    [float] number of input features, half of [feature_maps], whatever
    [in_channels] is: [2**(levels-1)] is [0.5]. *)
Theorem encoder_init_without_levels (ic fm : nat) (gn : bool) :
  UNetEncoder_init.features (UNetEncoder.init ic fm 0 gn) = []
  /\ UNetEncoder_init.center_conv (UNetEncoder.init ic fm 0 gn)
     = UNetConvBlock2D (PyFloat ((1 # 2) * inject_Z (Z.of_nat fm)))
         (PyInt (1 * Z.of_nat fm)) gn.
Proof. split; reflexivity. Qed.

(** *** The decoder *)

(** [2^(levels - i) * feature_maps], for [i <= levels]. *)
Local Abbreviation dec_feat levels fm i :=
  (PyInt (2 ^ (Z.of_nat levels - Z.of_nat i) * Z.of_nat fm)).

Lemma decoder_init_other (levels fm : Z) (skip gn : bool) (name : string) :
  forall (n k : nat) (R : Sequential),
    (forall i, (k <= i < k + n)%nat ->
               name <> numbered "upconv" (i + 1)
               /\ name <> numbered "convblock" (i + 1)) ->
    getattr (UNetDecoder_init.loop levels fm skip gn (seq k n) R) name
    = getattr R name.
Proof.
  induction n as [|n IH]; intros k R H; cbn [seq UNetDecoder_init.loop];
    [reflexivity|].
  rewrite IH by (intros i Hi; apply H; lia).
  destruct (H k ltac:(lia)) as [Hu Hc].
  rewrite !getattr_add_other by (intro E; symmetry in E; contradiction).
  reflexivity.
Qed.

Lemma decoder_init_lookup (levels fm : nat) (skip gn : bool) :
  forall (n k : nat) (R : Sequential) (j : nat),
    (k <= j < k + n)%nat -> (k + n <= levels)%nat ->
    getattr (UNetDecoder_init.loop (Z.of_nat levels) (Z.of_nat fm) skip gn
               (seq k n) R)
      (numbered "upconv" (j + 1))
    = inr (UNetUpSamplingBlock2D (dec_feat levels fm j)
             (dec_feat levels fm (S j)) true)
    /\ getattr (UNetDecoder_init.loop (Z.of_nat levels) (Z.of_nat fm) skip gn
                  (seq k n) R)
         (numbered "convblock" (j + 1))
       = inr (UNetConvBlock2D
                (if skip then dec_feat levels fm j
                 else dec_feat levels fm (S j))
                (dec_feat levels fm (S j)) gn).
Proof.
  induction n as [|n IH]; intros k R j Hj Hn; [lia|].
  cbn [seq UNetDecoder_init.loop].
  destruct (Nat.eq_dec j k) as [->|Hne].
  - rewrite !decoder_init_other by (intros i Hi; split; names_differ).
    rewrite getattr_add_same.
    rewrite getattr_add_other by names_differ.
    rewrite getattr_add_same.
    rewrite !py_pow2_nonneg by lia. cbn [py_mul].
    replace (Z.of_nat levels - Z.of_nat (S k))%Z
      with (Z.of_nat levels - Z.of_nat k - 1)%Z by lia.
    split; [reflexivity | destruct skip; reflexivity].
  - apply IH; lia.
Qed.

Lemma decoder_init_length (levels fm : Z) (skip gn : bool) :
  forall (n k : nat) (R : Sequential),
    (forall i, (k <= i)%nat ->
               getattr R (numbered "upconv" (i + 1)) = inl AttributeError
               /\ getattr R (numbered "convblock" (i + 1))
                  = inl AttributeError) ->
    List.length (UNetDecoder_init.loop levels fm skip gn (seq k n) R)
    = (List.length R + 2 * n)%nat.
Proof.
  induction n as [|n IH]; intros k R H; cbn [seq UNetDecoder_init.loop];
    [cbn; lia|].
  destruct (H k (Nat.le_refl k)) as [Hu Hc].
  rewrite IH.
  - rewrite length_add_fresh
      by (rewrite getattr_add_other by names_differ; exact Hc).
    rewrite length_add_fresh by exact Hu. lia.
  - intros i Hi. destruct (H i ltac:(lia)) as [Hui Hci].
    rewrite !getattr_add_other by names_differ.
    split; assumption.
Qed.

(** X8: [UNetDecoder.__init__] registers two modules per level, under
    the names [forward] looks up.  The up-sampling block of level [i]
    halves [2^(levels-i) * feature_maps] features; the convolutional block
    gives as many as the up-sampling block, from twice as many with skip
    connections (the up-sampled map and a skip tensor of that size) and
    from as many without.  The output layer takes [feature_maps]
    features, what the last convolutional block gives. *)
Theorem decoder_init_registers_levels (self : UNetDecoder.t) :
  let fm := UNetDecoder.feature_maps self in
  let gn := UNetDecoder.group_norm self in
  let levels := UNetDecoder.levels self in
  List.length (UNetDecoder_init.features self) = (2 * levels)%nat
  /\ (forall i, (i < levels)%nat ->
        getattr (UNetDecoder_init.features self) (numbered "upconv" (i + 1))
        = inr (UNetUpSamplingBlock2D (dec_feat levels fm i)
                 (dec_feat levels fm (S i)) true)
        /\ getattr (UNetDecoder_init.features self)
             (numbered "convblock" (i + 1))
           = inr (UNetConvBlock2D
                    (if UNetDecoder.skip_connections self
                     then dec_feat levels fm i
                     else dec_feat levels fm (S i))
                    (dec_feat levels fm (S i)) gn)
        /\ (2 ^ (Z.of_nat levels - Z.of_nat i) * Z.of_nat fm
            = 2 ^ (Z.of_nat levels - Z.of_nat (S i)) * Z.of_nat fm
              + 2 ^ (Z.of_nat levels - Z.of_nat (S i)) * Z.of_nat fm)%Z)
  /\ (forall i, (levels <= i)%nat ->
        getattr (UNetDecoder_init.features self) (numbered "upconv" (i + 1))
        = inl AttributeError
        /\ getattr (UNetDecoder_init.features self)
             (numbered "convblock" (i + 1)) = inl AttributeError)
  /\ UNetDecoder_init.output self
     = Conv2d (dec_feat levels fm levels)
         (PyInt (Z.of_nat (UNetDecoder.out_channels self))) 1.
Proof.
  cbv zeta. unfold UNetDecoder_init.features. split; [|split; [|split]].
  - rewrite decoder_init_length; [reflexivity|].
    intros i _. split; reflexivity.
  - intros i Hi.
    destruct (decoder_init_lookup (UNetDecoder.levels self)
                (UNetDecoder.feature_maps self)
                (UNetDecoder.skip_connections self)
                (UNetDecoder.group_norm self) (UNetDecoder.levels self) 0 []
                i ltac:(lia) ltac:(lia)) as [Hu Hc].
    split; [exact Hu|]. split; [exact Hc|].
    replace (Z.of_nat (UNetDecoder.levels self) - Z.of_nat i)%Z
      with (Z.succ (Z.of_nat (UNetDecoder.levels self) - Z.of_nat (S i)))
      by lia.
    rewrite Z.pow_succ_r by lia. lia.
  - intros i Hi.
    rewrite !decoder_init_other by (intros j Hj; split; names_differ).
    split; reflexivity.
  - unfold UNetDecoder_init.output. rewrite Z.sub_diag.
    now rewrite Z.pow_0_r, Z.mul_1_l.
Qed.

Lemma decoder_init_registers_levels_witness :
  (0 < UNetDecoder.levels (UNetDecoder.init 1 1 64 4 true false))%nat
  /\ getattr (UNetDecoder_init.features
                (UNetDecoder.init 1 1 64 4 true false))
       (numbered "upconv" 1)
     = inr (UNetUpSamplingBlock2D (PyInt 1024) (PyInt 512) true).
Proof.
  split; [cbn; lia|].
  apply (proj1 (proj2 (decoder_init_registers_levels
                         (UNetDecoder.init 1 1 64 4 true false))) 0%nat).
  cbn; lia.
Defined.

(** *** The model *)

Lemma halvings (levels s : nat) :
  Nat.iter levels (fun n => n / 2)%nat s = (s / 2 ^ levels)%nat.
Proof.
  induction levels as [|levels IH].
  - now rewrite Nat.pow_0_r, Nat.div_1_r.
  - rewrite Nat.iter_succ, IH, Nat.Div0.div_div, Nat.pow_succ_r',
      Nat.mul_comm.
    reflexivity.
Qed.

(** X9: in a model built by [UNetAE.__init__] with at least one level,
    the parts fit: the encoder and the decoder have the levels of the
    model, the first up-sampling block of the decoder and the domain
    classifier take the [2^levels * feature_maps] features the center
    block gives, the output layer gives [out_channels] features, and the
    classifier expects maps of the size [levels] halvings leave of [s]. *)
Theorem model_init_parts_fit
  (ic oc fm lv : nat) (gn : bool) (lam : pyfloat) (s : nat)
  (Hlevels : (1 <= lv)%nat) :
  let self := UNetAE.init ic oc fm lv gn lam s in
  let latent := (2 ^ Z.of_nat lv * Z.of_nat fm)%Z in
  UNetEncoder.levels (UNetAE.encoder self) = lv
  /\ UNetDecoder.levels (UNetAE.decoder self) = lv
  /\ (exists c, UNetEncoder_init.center_conv (UNetAE.encoder self)
                = UNetConvBlock2D c (PyInt latent) gn)
  /\ (exists c, getattr (UNetDecoder_init.features (UNetAE.decoder self))
                  (numbered "upconv" 1)
                = inr (UNetUpSamplingBlock2D (PyInt latent) c true))
  /\ Z.of_nat (fst (fst (CNN.input_size (UNetAE.domain_classifier self))))
     = latent
  /\ (exists c k, UNetDecoder_init.output (UNetAE.decoder self)
                  = Conv2d c (PyInt (Z.of_nat oc)) k)
  /\ snd (CNN.input_size (UNetAE.domain_classifier self))
     = Nat.iter lv (fun n => n / 2)%nat s
  /\ snd (fst (CNN.input_size (UNetAE.domain_classifier self)))
     = Nat.iter lv (fun n => n / 2)%nat s.
Proof.
  cbv zeta. split; [reflexivity|]. split; [reflexivity|].
  split; [|split; [|split; [|split; [|split]]]].
  - eexists. unfold UNetEncoder_init.center_conv. cbn [UNetAE.init
      UNetAE.encoder UNetEncoder.levels UNetEncoder.feature_maps
      UNetEncoder.group_norm].
    rewrite py_pow2_nat. reflexivity.
  - eexists.
    destruct (decoder_init_lookup lv fm false gn lv 0 [] 0 ltac:(lia)
                ltac:(lia)) as [Hu _].
    unfold UNetDecoder_init.features. cbn [UNetAE.init UNetAE.decoder
      UNetDecoder.levels UNetDecoder.feature_maps UNetDecoder.group_norm
      UNetDecoder.skip_connections].
    change (numbered "upconv" 1) with (numbered "upconv" (0 + 1)).
    rewrite Hu. rewrite Z.sub_0_r. reflexivity.
  - cbn [UNetAE.init UNetAE.domain_classifier CNN.input_size fst].
    rewrite Nat2Z.inj_mul, Nat2Z.inj_pow. cbn. lia.
  - eexists; eexists. reflexivity.
  - cbn [UNetAE.init UNetAE.domain_classifier CNN.input_size snd].
    now rewrite halvings.
  - cbn [UNetAE.init UNetAE.domain_classifier CNN.input_size fst snd].
    now rewrite halvings.
Qed.

Lemma model_init_parts_fit_witness :
  (1 <= 4)%nat
  /\ Z.of_nat (fst (fst (CNN.input_size
                           (UNetAE.domain_classifier UNetAE.default))))
     = (2 ^ Z.of_nat 4 * Z.of_nat 64)%Z.
Proof.
  split; [lia|].
  apply (model_init_parts_fit 1 1 64 4 false 0 128). lia.
Defined.

(** ** More on the epochs *)

Section EpochFacts.
Context {B : Backend}.

Lemma for_each_ext {A S} (body body' : A -> S -> M S) (l : list A) :
  (forall a, In a l -> forall st w, body a st w = body' a st w) ->
  forall st w, for_each body l st w = for_each body' l st w.
Proof.
  induction l as [|a l IH]; intros H st w; [reflexivity|].
  rewrite !for_each_cons, <- (H a (or_introl eq_refl)).
  destruct (body a st w) as [w' [e|st']]; [reflexivity|].
  apply IH. intros a' Ha'. apply H. now right.
Qed.

Lemma in_enumerate {A} (l : list A) (i : nat) (a : A) :
  In (i, a) (enumerate l) -> (i < List.length l)%nat.
Proof.
  intro H. apply in_combine_l in H. apply in_seq in H. lia.
Qed.

Lemma nth_error_enumerate_firstn {A} (l : list A) (n i : nat) :
  (i < n)%nat ->
  nth_error (enumerate (firstn n l)) i = nth_error (enumerate l) i.
Proof.
  intro Hi. rewrite !nth_error_enumerate, nth_error_firstn.
  apply Nat.ltb_lt in Hi. now rewrite Hi.
Qed.

Lemma nth_error_skipn_cons {A} (l : list A) :
  forall k a, nth_error l k = Some a -> skipn k l = a :: skipn (S k) l.
Proof.
  induction l as [|b l IH]; intros [|k] a H; cbn in *; try discriminate.
  - now injection H as ->.
  - now apply IH.
Qed.

(** An iteration of [test_epoch] changes nothing in the world. *)
Lemma test_iteration_frame (self : UNetAE.t) (tar_data : list (nat * FT))
  (loss_fn : FT -> FT -> pyfloat) (i_data : nat * FT) (r : UNetAE.running)
  (w : world) :
  fst (UNetAE.test_iteration self tar_data loss_fn i_data r w) = w.
Proof.
  destruct i_data as [i data]. unfold UNetAE.test_iteration. run.
  destruct (nth_error tar_data i) as [[j t]|]; cbn; [|reflexivity].
  destruct (UNetAE.forward self (w_net w) _) as [e|[y d]]; reflexivity.
Qed.

Lemma test_loop_frame (self : UNetAE.t) (tar_data : list (nat * FT))
  (loss_fn : FT -> FT -> pyfloat) (w : world) :
  forall (l : list (nat * FT)) (r : UNetAE.running),
    fst (for_each (UNetAE.test_iteration self tar_data loss_fn) l r w) = w.
Proof.
  induction l as [|a l IH]; intro r; [reflexivity|].
  rewrite for_each_cons.
  pose proof (test_iteration_frame self tar_data loss_fn a r w) as H.
  destruct (UNetAE.test_iteration self tar_data loss_fn a r w)
    as [w' [e|r']]; cbn in H; subst w'; [reflexivity | apply IH].
Qed.

End EpochFacts.

(** X10: on a source loader that yields no batch, [train_epoch] and
    [test_epoch] raise [ZeroDivisionError], whatever the target loader
    is; they have switched the mode of the network and done nothing
    else. *)
Theorem epoch_on_empty_source_raises
  (B : Backend) (self : UNetAE.t) (src_loader tar_loader : DataLoader)
  (loss_fn : FT -> FT -> pyfloat) (epoch : nat) (print_stats : Z)
  (writer : option SummaryWriter) (write_images : bool) (w : world)
  (Hempty : batches src_loader = []) :
  UNetAE.train_epoch self src_loader tar_loader loss_fn epoch print_stats
    writer write_images w
  = (mkWorld (module_train true (w_net w)) (w_optim w) (w_out w),
     inl ZeroDivisionError)
  /\ UNetAE.test_epoch self src_loader tar_loader loss_fn epoch writer
       write_images w
     = (mkWorld (module_train false (w_net w)) (w_optim w) (w_out w),
        inl ZeroDivisionError).
Proof.
  unfold UNetAE.train_epoch, UNetAE.test_epoch. rewrite Hempty.
  split; reflexivity.
Qed.

Lemma epoch_on_empty_source_raises_witness :
  batches (Toy.loader []) = []
  /\ UNetAE.test_epoch UNetAE.default (Toy.loader [])
       (Toy.loader [Toy.batch1]) Toy.loss_fn 0 None false Toy.world0
     = (mkWorld (module_train false (w_net Toy.world0))
          (w_optim Toy.world0) (w_out Toy.world0),
        inl ZeroDivisionError).
Proof.
  split; [reflexivity|].
  apply (epoch_on_empty_source_raises Toy.backend UNetAE.default
           (Toy.loader []) (Toy.loader [Toy.batch1]) Toy.loss_fn 0%nat 1%Z
           None false Toy.world0).
  reflexivity.
Defined.

(** X11: [test_epoch] never updates the model: however it ends, the
    optimiser is as it was and the network has only been switched to
    evaluation mode. *)
Theorem test_epoch_leaves_model
  (B : Backend) (self : UNetAE.t) (src_loader tar_loader : DataLoader)
  (loss_fn : FT -> FT -> pyfloat) (epoch : nat) (writer : option SummaryWriter)
  (write_images : bool) (w : world) :
  let w' := fst (UNetAE.test_epoch self src_loader tar_loader loss_fn epoch
                   writer write_images w) in
  w_net w' = module_train false (w_net w) /\ w_optim w' = w_optim w.
Proof.
  cbv zeta. unfold UNetAE.test_epoch. run.
  pose proof (test_loop_frame self (enumerate (batches tar_loader)) loss_fn
                (mkWorld (module_train false (w_net w)) (w_optim w)
                   (w_out w))
                (enumerate (batches src_loader)) UNetAE.running0) as H.
  destruct (for_each _ _ _ _) as [w1 [e|r']]; cbn [fst] in H; subst w1;
    [split; reflexivity|].
  destruct (UNetAE.cnt r'); cbn [py_div]; [split; reflexivity|].
  destruct writer; [destruct write_images; [destruct (UNetAE.last r')
                                              as [[x y]|]|]|];
    split; reflexivity.
Qed.

(** X12: the batches of the target loader past the number of source
    batches play no part: [train_epoch] and [test_epoch] do the same on a
    target loader cut to that number. *)
Theorem epoch_ignores_extra_target_batches
  (B : Backend) (self : UNetAE.t) (src_loader tar_loader : DataLoader)
  (loss_fn : FT -> FT -> pyfloat) (epoch : nat) (print_stats : Z)
  (writer : option SummaryWriter) (write_images : bool) (w : world)
  (n : nat) (size : positive) :
  let cut :=
    mkLoader (firstn (List.length (batches src_loader)) (batches tar_loader))
      n size in
  UNetAE.train_epoch self src_loader tar_loader loss_fn epoch print_stats
    writer write_images w
  = UNetAE.train_epoch self src_loader cut loss_fn epoch print_stats writer
      write_images w
  /\ UNetAE.test_epoch self src_loader tar_loader loss_fn epoch writer
       write_images w
     = UNetAE.test_epoch self src_loader cut loss_fn epoch writer
         write_images w.
Proof.
  cbv zeta. unfold UNetAE.train_epoch, UNetAE.test_epoch. run.
  cbn [batches].
  split.
  - rewrite (for_each_ext
               (UNetAE.train_iteration self src_loader
                  (enumerate (batches tar_loader)) loss_fn epoch print_stats)
               (UNetAE.train_iteration self src_loader
                  (enumerate (firstn (List.length (batches src_loader))
                                (batches tar_loader)))
                  loss_fn epoch print_stats)); [reflexivity|].
    intros [i data] Hin st w0. apply in_enumerate in Hin.
    unfold UNetAE.train_iteration, index. run.
    now rewrite nth_error_enumerate_firstn.
  - rewrite (for_each_ext
               (UNetAE.test_iteration self (enumerate (batches tar_loader))
                  loss_fn)
               (UNetAE.test_iteration self
                  (enumerate (firstn (List.length (batches src_loader))
                                (batches tar_loader)))
                  loss_fn)); [reflexivity|].
    intros [i data] Hin st w0. apply in_enumerate in Hin.
    unfold UNetAE.test_iteration, index. run.
    now rewrite nth_error_enumerate_firstn.
Qed.

Section EpochRuns.
Context {B : Backend}.
Variables (ic oc fm lv : nat) (gn : bool) (lam : pyfloat) (s : nat).
Variable loss_fn : FT -> FT -> pyfloat.

Local Abbreviation self := (UNetAE.init ic oc fm lv gn lam s).

Lemma train_loop_state (src_loader : DataLoader) (tar : list FT)
  (epoch : nat) (print_stats : Z) :
  print_stats <> 0%Z ->
  forall (bs : list FT) (k : nat) (r : UNetAE.running) (w : world),
    (k + List.length bs <= List.length tar)%nat ->
    let w' :=
      fst (for_each (UNetAE.train_iteration self src_loader (enumerate tar)
                       loss_fn epoch print_stats)
             (combine (seq k (List.length bs)) bs) r w) in
    (w_net w', w_optim w')
    = trained lam loss_fn (combine bs (skipn k tar)) (w_net w, w_optim w).
Proof.
  intro Hp.
  induction bs as [|b bs IH]; intros k r w Hk; cbn [List.length seq combine].
  - reflexivity.
  - cbn [List.length] in Hk.
    destruct (nth_error tar k) as [t|] eqn:Ht;
      [|apply nth_error_None in Ht; lia].
    cbv zeta. rewrite for_each_cons, train_iteration_run, Ht.
    rewrite (py_mod_ok _ _ Hp).
    rewrite (nth_error_skipn_cons _ _ _ Ht). cbn [combine trained].
    rewrite (IH (S k)) by lia. reflexivity.
Qed.

(** The iterations of [train_epoch] start every backward pass with the
    gradient 1 at the reconstruction loss and [lambda_rec * 1] at the
    domain loss. *)
Lemma trained_stepped (l : list (FT * FT)) :
  forall st : net * optim,
    trained lam loss_fn l st = stepped 1 (lam * 1) loss_fn l st.
Proof.
  induction l as [|[x_src x_tar] l IH]; intro st; cbn [trained stepped];
    [reflexivity | apply IH].
Qed.

(** The network and the optimiser after [train_epoch]. *)
Lemma train_epoch_state (src_loader tar_loader : DataLoader) (epoch : nat)
  (print_stats : Z) (writer : option SummaryWriter) (write_images : bool)
  (w : world) :
  print_stats <> 0%Z ->
  (List.length (batches src_loader) <= List.length (batches tar_loader))%nat ->
  let w' :=
    fst (UNetAE.train_epoch self src_loader tar_loader loss_fn epoch
           print_stats writer write_images w) in
  (w_net w', w_optim w')
  = stepped 1 (lam * 1) loss_fn
      (combine (batches src_loader) (batches tar_loader))
      (module_train true (w_net w), w_optim w).
Proof.
  intros Hprint Htar. cbv zeta. rewrite <- trained_stepped.
  unfold UNetAE.train_epoch. run.
  pose proof (train_loop_state src_loader (batches tar_loader) epoch
                print_stats Hprint (batches src_loader) 0 UNetAE.running0
                (mkWorld (module_train true (w_net w)) (w_optim w) (w_out w))
                Htar) as H.
  cbv zeta in H. fold (enumerate (batches src_loader)) in H.
  cbn [skipn w_net w_optim] in H. rewrite <- H.
  destruct (for_each _ _ _ _) as [w1 [e|r']]; [reflexivity|].
  destruct (UNetAE.cnt r'); cbn [py_div]; [reflexivity|].
  destruct writer; [destruct write_images; [destruct (UNetAE.last r')
                                              as [[x y]|]|]|];
    reflexivity.
Qed.

(** The last batch of the loop of [test_epoch] stays in [x] and
    [y_pred]. *)
Lemma test_loop_last (tar : list FT) (w : world) :
  forall (bs : list FT) (k : nat) (r r' : UNetAE.running),
    bs <> [] ->
    for_each (UNetAE.test_iteration self (enumerate tar) loss_fn)
      (combine (seq k (List.length bs)) bs) r w = (w, inr r') ->
    exists b t,
      nth_error bs (List.length bs - 1) = Some b
      /\ nth_error tar (k + List.length bs - 1) = Some t
      /\ UNetAE.last r'
         = Some (cat b t, y_pred_of lv (w_net w) (cat b t)).
Proof.
  induction bs as [|b bs IH]; intros k r r' Hne Hrun; [contradiction|].
  cbn [List.length seq combine] in Hrun.
  rewrite for_each_cons, test_iteration_run in Hrun.
  destruct (nth_error tar k) as [t|] eqn:Ht; [|discriminate].
  destruct bs as [|b2 bs].
  - cbn in Hrun. injection Hrun as <-.
    exists b, t. cbn [List.length].
    replace (k + 1 - 1)%nat with k by lia.
    repeat split. exact Ht.
  - apply IH in Hrun; [|discriminate].
    destruct Hrun as (b' & t' & Hb & Htar & Hlast).
    exists b', t'. split; [|split; [|exact Hlast]].
    + replace (List.length (b :: b2 :: bs) - 1)%nat
        with (S (List.length (b2 :: bs) - 1)) by (cbn [List.length]; lia).
      exact Hb.
    + rewrite <- Htar. f_equal. cbn [List.length]. lia.
Qed.

(** The last batch of the loop of [train_epoch] stays in [x], and in
    [y_pred] its reconstruction by the network as the iterations before
    the last one left it, its gradients zeroed. *)
Lemma train_loop_last (src_loader : DataLoader) (tar : list FT)
  (epoch : nat) (print_stats : Z) :
  print_stats <> 0%Z ->
  forall (bs : list FT) (k : nat) (r r' : UNetAE.running) (w w' : world),
    bs <> [] ->
    for_each (UNetAE.train_iteration self src_loader (enumerate tar) loss_fn
                epoch print_stats)
      (combine (seq k (List.length bs)) bs) r w = (w', inr r') ->
    exists b t,
      nth_error bs (List.length bs - 1) = Some b
      /\ nth_error tar (k + List.length bs - 1) = Some t
      /\ UNetAE.last r'
         = Some (cat b t,
                 y_pred_of lv
                   (zero_grad
                      (fst (trained lam loss_fn
                              (combine (removelast bs) (skipn k tar))
                              (w_net w, w_optim w))))
                   (cat b t)).
Proof.
  intro Hp.
  induction bs as [|b bs IH]; intros k r r' w w' Hne Hrun; [contradiction|].
  cbn [List.length seq combine] in Hrun.
  rewrite for_each_cons, train_iteration_run in Hrun.
  destruct (nth_error tar k) as [t|] eqn:Ht; [|discriminate].
  rewrite (py_mod_ok _ _ Hp) in Hrun.
  destruct bs as [|b2 bs].
  - cbn in Hrun. injection Hrun as <- <-.
    exists b, t. cbn [List.length removelast combine trained fst].
    replace (k + 1 - 1)%nat with k by lia.
    repeat split. exact Ht.
  - apply IH in Hrun; [|discriminate].
    destruct Hrun as (b' & t' & Hb & Htar & Hlast).
    exists b', t'. split; [|split].
    + replace (List.length (b :: b2 :: bs) - 1)%nat
        with (S (List.length (b2 :: bs) - 1)) by (cbn [List.length]; lia).
      exact Hb.
    + rewrite <- Htar. f_equal. cbn [List.length]. lia.
    + rewrite Hlast, (nth_error_skipn_cons _ _ _ Ht).
      change (removelast (b :: b2 :: bs)) with (b :: removelast (b2 :: bs)).
      cbn [combine trained]. reflexivity.
Qed.

(** What an iteration of [train_epoch] prints. *)
Lemma w_out_train_world (src_loader : DataLoader) (epoch : nat)
  (print_stats : Z) (i : nat) (data t : FT) (w : world) :
  print_stats <> 0%Z ->
  w_out (train_world lv lam src_loader loss_fn epoch print_stats i data t w)
  = w_out w
    ++ progress_lines lam src_loader epoch print_stats i
         [(loss_fn (y_pred_of lv (zero_grad (w_net w)) (cat data t))
             (cat data t),
           CrossEntropyLoss (dom_pred_of lv (zero_grad (w_net w)) (cat data t))
             (domain_labels (size0 data) (size0 t)))].
Proof.
  intro Hp. unfold train_world, progress_lines.
  cbn [w_out List.length seq combine flat_map fst snd].
  rewrite (py_mod_ok _ _ Hp), app_nil_r.
  destruct (Z.of_nat i mod print_stats)%Z; cbn [Z.eqb];
    rewrite ?app_nil_r; reflexivity.
Qed.

Lemma progress_lines_cons (src_loader : DataLoader) (epoch : nat)
  (print_stats : Z) (k : nat) (p : pyfloat * pyfloat)
  (L : list (pyfloat * pyfloat)) :
  progress_lines lam src_loader epoch print_stats k (p :: L)
  = progress_lines lam src_loader epoch print_stats k [p]
    ++ progress_lines lam src_loader epoch print_stats (S k) L.
Proof.
  unfold progress_lines.
  cbn [List.length seq combine flat_map]. now rewrite app_nil_r.
Qed.

(** The progress lines of the loop of [train_epoch]: one for each index
    [i] of its range with [i % print_stats == 0], in their order, each
    with the total loss of batch [i]. *)
Lemma train_loop_out (src_loader : DataLoader) (tar : list FT)
  (epoch : nat) (print_stats : Z) :
  print_stats <> 0%Z ->
  forall (bs : list FT) (k : nat) (r : UNetAE.running) (w : world),
    (k + List.length bs <= List.length tar)%nat ->
    w_out (fst (for_each
                  (UNetAE.train_iteration self src_loader (enumerate tar)
                     loss_fn epoch print_stats)
                  (combine (seq k (List.length bs)) bs) r w))
    = w_out w
      ++ progress_lines lam src_loader epoch print_stats k
           (train_losses self src_loader (enumerate tar) loss_fn epoch
              print_stats (combine (seq k (List.length bs)) bs) w).
Proof.
  intro Hp.
  induction bs as [|b bs IH]; intros k r w Hk; cbn [List.length seq combine].
  - cbn. now rewrite app_nil_r.
  - cbn [List.length] in Hk.
    destruct (nth_error tar k) as [t|] eqn:Ht;
      [|apply nth_error_None in Ht; lia].
    rewrite for_each_cons, train_iteration_run, Ht, (py_mod_ok _ _ Hp).
    cbn [train_losses]. rewrite nth_error_enumerate, Ht. cbn [option_map].
    rewrite batch_losses_init, train_iteration_run, Ht. cbn [fst].
    rewrite IH by lia.
    rewrite progress_lines_cons, (w_out_train_world _ _ _ _ _ _ _ Hp).
    now rewrite app_assoc.
Qed.

End EpochRuns.

(** X13: when the target loader yields at least as many batches as the
    source loader and [print_stats] is not zero, [train_epoch] leaves the
    network and the optimiser as one zeroing of the gradients, one
    backward pass and one optimiser step per source batch leave them,
    batch [i] of the source with batch [i] of the target, starting from
    the network in training mode. *)
Theorem train_epoch_steps_once_per_batch
  (B : Backend) (ic oc fm lv : nat) (gn : bool) (lam : pyfloat) (s : nat)
  (loss_fn : FT -> FT -> pyfloat) (src_loader tar_loader : DataLoader)
  (epoch : nat) (print_stats : Z) (writer : option SummaryWriter)
  (write_images : bool) (w : world)
  (Htar : (List.length (batches src_loader)
           <= List.length (batches tar_loader))%nat)
  (Hprint : print_stats <> 0%Z) :
  let w' :=
    fst (UNetAE.train_epoch (UNetAE.init ic oc fm lv gn lam s) src_loader
           tar_loader loss_fn epoch print_stats writer write_images w) in
  let pairs := combine (batches src_loader) (batches tar_loader) in
  (w_net w', w_optim w')
  = trained lam loss_fn pairs (module_train true (w_net w), w_optim w)
  /\ List.length pairs = List.length (batches src_loader).
Proof.
  cbv zeta. split; [|rewrite length_combine; lia].
  unfold UNetAE.train_epoch. run.
  pose proof (train_loop_state ic oc fm lv gn lam s loss_fn src_loader
                (batches tar_loader) epoch print_stats Hprint
                (batches src_loader) 0 UNetAE.running0
                (mkWorld (module_train true (w_net w)) (w_optim w) (w_out w))
                Htar) as H.
  cbv zeta in H. fold (enumerate (batches src_loader)) in H.
  cbn [skipn w_net w_optim] in H. rewrite <- H.
  destruct (for_each _ _ _ _) as [w1 [e|r']]; [reflexivity|].
  destruct (UNetAE.cnt r'); cbn [py_div]; [reflexivity|].
  destruct writer; [destruct write_images; [destruct (UNetAE.last r')
                                              as [[x y]|]|]|];
    reflexivity.
Qed.

Lemma train_epoch_steps_once_per_batch_witness :
  (List.length (batches (Toy.loader [Toy.batch1]))
   <= List.length (batches (Toy.loader [Toy.batch2])))%nat
  /\ 1%Z <> 0%Z
  /\ List.length (combine (batches (Toy.loader [Toy.batch1]))
                    (batches (Toy.loader [Toy.batch2])))
     = List.length (batches (Toy.loader [Toy.batch1])).
Proof.
  split; [cbn; lia|]. split; [discriminate|].
  apply (train_epoch_steps_once_per_batch Toy.backend 1 1 64 4 false 0 128
           Toy.loss_fn (Toy.loader [Toy.batch1]) (Toy.loader [Toy.batch2])
           0%nat 1%Z None false Toy.world0);
    [cbn; lia | discriminate].
Defined.

(** ** The result of an epoch *)

(** With [lambda_rec = 0] a batch whose domain loss is finite has its
    reconstruction loss for total loss. *)
Lemma total_loss_zero (p : pyfloat * pyfloat) :
  is_finite (snd p) = true -> total_loss 0 p == fst p.
Proof.
  destruct p as [a b]. unfold total_loss. cbn [fst snd].
  destruct b as [q| | |]; try discriminate. intros _.
  rewrite fmul_0_l. apply fadd_0_r.
Qed.

(** A domain loss that is not finite makes the total loss NaN, even with
    [lambda_rec = 0]. *)
Lemma total_loss_zero_nan (p : pyfloat * pyfloat) :
  is_finite (snd p) = false -> total_loss 0 p = nan.
Proof.
  destruct p as [a b]. unfold total_loss. cbn [fst snd].
  destruct b as [q| | |]; try discriminate; intros _; now destruct a.
Qed.

Lemma sum_total_loss_zero (L : list (pyfloat * pyfloat)) :
  forallb (fun p => is_finite (snd p)) L = true ->
  fsum (map (total_loss 0) L) == fsum (map fst L).
Proof.
  induction L as [|p L IH]; cbn [forallb map fsum fold_right];
    [reflexivity|].
  intro H. apply andb_prop in H as [Hp HL].
  fold (fsum (map (total_loss 0) L)). fold (fsum (map fst L)).
  now rewrite (IH HL), (total_loss_zero p Hp).
Qed.

Lemma mean_total_loss_zero (L : list (pyfloat * pyfloat)) :
  forallb (fun p => is_finite (snd p)) L = true ->
  arith_mean (map (total_loss 0) L) == arith_mean (map fst L).
Proof.
  intro H. unfold arith_mean.
  now rewrite (sum_total_loss_zero L H), !length_map.
Qed.

(** C8, as amended: when the source loader yields at least one batch, the
    target loader at least as many as the source loader, the batches
    paired by the loop are such as [torch.cat] accepts, and [print_stats]
    is not zero, [train_epoch] and [test_epoch] return the arithmetic mean
    of the total losses of the batches, each the reconstruction loss plus
    [lambda_rec] times the domain loss.  With [lambda_rec = 0] and the
    domain loss of every batch finite, this is the mean reconstruction
    loss; a domain loss that is infinite or NaN makes the total loss of
    its batch NaN.  With [lambda_rec = 0], [train_epoch] leaves the
    network and the optimiser as the iterations leave them whose backward
    passes start with the gradient 1 at the reconstruction loss and 0 at
    the domain loss. *)
Theorem epoch_returns_mean_total_loss
  (B : Backend) (ic oc fm lv : nat) (gn : bool) (lam : pyfloat) (s : nat)
  (loss_fn : FT -> FT -> pyfloat) (src_loader tar_loader : DataLoader)
  (epoch : nat) (print_stats : Z) (writer : option SummaryWriter)
  (write_images : bool) (w : world)
  (Hsrc : batches src_loader <> [])
  (Htar : (List.length (batches src_loader)
           <= List.length (batches tar_loader))%nat)
  (Hcat : forall (i : nat) (x_src x_tar : FT),
      nth_error (batches src_loader) i = Some x_src ->
      nth_error (batches tar_loader) i = Some x_tar ->
      cat_accepts x_src x_tar)
  (Hprint : print_stats <> 0%Z) :
  let model := fun lambda_rec => UNetAE.init ic oc fm lv gn lambda_rec s in
  let src_data := enumerate (batches src_loader) in
  let tar_data := enumerate (batches tar_loader) in
  let train_L := fun lambda_rec =>
    train_losses (model lambda_rec) src_loader tar_data loss_fn epoch
      print_stats src_data
      (mkWorld (module_train true (w_net w)) (w_optim w) (w_out w)) in
  let test_L := fun lambda_rec =>
    test_losses (model lambda_rec) tar_data loss_fn
      (module_train false (w_net w)) src_data in
  let finite_dom :=
    forallb (fun p : pyfloat * pyfloat => is_finite (snd p)) in
  (exists w' v,
      UNetAE.train_epoch (model lam) src_loader tar_loader loss_fn epoch
        print_stats writer write_images w = (w', inr v)
      /\ v == arith_mean (map (total_loss lam) (train_L lam))
      /\ List.length (train_L lam) = List.length (batches src_loader))
  /\ (exists w' v,
         UNetAE.test_epoch (model lam) src_loader tar_loader loss_fn epoch
           writer write_images w = (w', inr v)
         /\ v == arith_mean (map (total_loss lam) (test_L lam))
         /\ List.length (test_L lam) = List.length (batches src_loader))
  /\ (forall p, total_loss lam p = fst p + lam * snd p)
  /\ (finite_dom (train_L 0) = true ->
      exists w' v,
        UNetAE.train_epoch (model 0) src_loader tar_loader loss_fn epoch
          print_stats writer write_images w = (w', inr v)
        /\ v == arith_mean (map fst (train_L 0)))
  /\ (finite_dom (test_L 0) = true ->
      exists w' v,
        UNetAE.test_epoch (model 0) src_loader tar_loader loss_fn epoch
          writer write_images w = (w', inr v)
        /\ v == arith_mean (map fst (test_L 0)))
  /\ (forall p, is_finite (snd p) = true -> total_loss 0 p == fst p)
  /\ (forall p, is_finite (snd p) = false -> total_loss 0 p = nan)
  /\ (let w' :=
        fst (UNetAE.train_epoch (model 0) src_loader tar_loader loss_fn
               epoch print_stats writer write_images w) in
      (w_net w', w_optim w')
      = stepped 1 0 loss_fn
          (combine (batches src_loader) (batches tar_loader))
          (module_train true (w_net w), w_optim w)).
Proof.
  intros model src_data tar_data train_L test_L finite_dom.
  split; [|split; [|split; [|split; [|split; [|split; [|split]]]]]].
  - destruct (train_epoch_ok ic oc fm lv gn lam s loss_fn src_loader
                tar_loader epoch print_stats writer write_images w Hprint
                Hsrc Htar)
      as (w' & v & Hrun & Hv & HL & _).
    exists w', v. repeat split; assumption.
  - destruct (test_epoch_ok ic oc fm lv gn lam s loss_fn src_loader
                tar_loader epoch writer write_images w Hsrc Htar)
      as (w' & v & Hrun & Hv & HL & _).
    exists w', v. repeat split; assumption.
  - reflexivity.
  - intro Hfin.
    destruct (train_epoch_ok ic oc fm lv gn 0 s loss_fn src_loader
                tar_loader epoch print_stats writer write_images w Hprint
                Hsrc Htar)
      as (w' & v & Hrun & Hv & _).
    exists w', v. split; [exact Hrun|].
    rewrite Hv. apply mean_total_loss_zero. exact Hfin.
  - intro Hfin.
    destruct (test_epoch_ok ic oc fm lv gn 0 s loss_fn src_loader
                tar_loader epoch writer write_images w Hsrc Htar)
      as (w' & v & Hrun & Hv & _).
    exists w', v. split; [exact Hrun|].
    rewrite Hv. apply mean_total_loss_zero. exact Hfin.
  - exact total_loss_zero.
  - exact total_loss_zero_nan.
  - exact (train_epoch_state ic oc fm lv gn 0 s loss_fn src_loader
             tar_loader epoch print_stats writer write_images w Hprint Htar).
Qed.

Lemma epoch_returns_mean_total_loss_witness :
  batches (Toy.loader [Toy.batch1; Toy.batch2]) <> []
  /\ (List.length (batches (Toy.loader [Toy.batch1; Toy.batch2]))
      <= List.length (batches (Toy.loader [Toy.batch2; Toy.batch1])))%nat
  /\ (forall (i : nat) (x_src x_tar : FT),
         nth_error (batches (Toy.loader [Toy.batch1; Toy.batch2])) i
         = Some x_src ->
         nth_error (batches (Toy.loader [Toy.batch2; Toy.batch1])) i
         = Some x_tar ->
         cat_accepts x_src x_tar)
  /\ 1%Z <> 0%Z
  /\ forallb (fun p : pyfloat * pyfloat => is_finite (snd p))
       (train_losses UNetAE.default (Toy.loader [Toy.batch1; Toy.batch2])
          (enumerate [Toy.batch2; Toy.batch1]) Toy.loss_fn 0 1
          (enumerate [Toy.batch1; Toy.batch2])
          (mkWorld (module_train true (w_net Toy.world0))
             (w_optim Toy.world0) (w_out Toy.world0)))
     = true
  /\ exists w' v,
      UNetAE.train_epoch UNetAE.default
        (Toy.loader [Toy.batch1; Toy.batch2])
        (Toy.loader [Toy.batch2; Toy.batch1]) Toy.loss_fn 0 1 None false
        Toy.world0 = (w', inr v)
      /\ v == arith_mean
                (map fst
                   (train_losses UNetAE.default
                      (Toy.loader [Toy.batch1; Toy.batch2])
                      (enumerate [Toy.batch2; Toy.batch1]) Toy.loss_fn 0 1
                      (enumerate [Toy.batch1; Toy.batch2])
                      (mkWorld (module_train true (w_net Toy.world0))
                         (w_optim Toy.world0) (w_out Toy.world0)))).
Proof.
  assert (Hcat : forall (i : nat) (x_src x_tar : FT),
             nth_error (batches (Toy.loader [Toy.batch1; Toy.batch2])) i
             = Some x_src ->
             nth_error (batches (Toy.loader [Toy.batch2; Toy.batch1])) i
             = Some x_tar ->
             cat_accepts x_src x_tar).
  { intros [|[|[|i]]] x_src x_tar Hs Ht; cbn in Hs, Ht;
      try discriminate; injection Hs as <-; injection Ht as <-;
      (split; [discriminate|split; [discriminate|reflexivity]]). }
  split; [discriminate|]. split; [cbn; lia|]. split; [exact Hcat|].
  split; [discriminate|]. split; [vm_compute; reflexivity|].
  destruct (epoch_returns_mean_total_loss Toy.backend 1 1 64 4 false 0 128
              Toy.loss_fn (Toy.loader [Toy.batch1; Toy.batch2])
              (Toy.loader [Toy.batch2; Toy.batch1]) 0%nat 1%Z None false
              Toy.world0 ltac:(discriminate) ltac:(cbn; lia) Hcat
              ltac:(discriminate))
    as (_ & _ & _ & Htrain & _).
  apply Htrain. vm_compute. reflexivity.
Defined.

(** C8, as stated, fails: with a source loader of one batch and an empty
    target loader, [train_epoch] and [test_epoch] raise [IndexError] and
    return no mean; with [print_stats = 0], [train_epoch] raises
    [ZeroDivisionError] in its first iteration, whatever the loaders; and
    with the default [lambda_rec = 0] and a domain loss that is infinite,
    [test_epoch] returns NaN, which the mean reconstruction loss, here 0,
    is not. *)
Lemma epoch_raises_on_short_target :
  batches (Toy.loader [Toy.batch1]) <> []
  /\ snd (UNetAE.train_epoch UNetAE.default (Toy.loader [Toy.batch1])
            (Toy.loader []) Toy.loss_fn 0 1 None false Toy.world0)
     = inl IndexError
  /\ snd (UNetAE.test_epoch UNetAE.default (Toy.loader [Toy.batch1])
            (Toy.loader []) Toy.loss_fn 0 None false Toy.world0)
     = inl IndexError
  /\ snd (UNetAE.train_epoch UNetAE.default (Toy.loader [Toy.batch1])
            (Toy.loader [Toy.batch2]) Toy.loss_fn 0 0 None false Toy.world0)
     = inl ZeroDivisionError
  /\ UNetAE.lambda_rec UNetAE.default = 0
  /\ snd (UNetAE.test_epoch (B := ToyDiverged.backend) UNetAE.default
            (Toy.loader [Toy.batch1]) (Toy.loader [Toy.batch2]) Toy.loss_fn
            0 None false ToyDiverged.world0)
     = inr nan
  /\ arith_mean
       (map fst
          (test_losses (B := ToyDiverged.backend) UNetAE.default
             (enumerate [Toy.batch2]) Toy.loss_fn
             (module_train (Backend := ToyDiverged.backend) false
                (w_net ToyDiverged.world0))
             (enumerate [Toy.batch1])))
     == 0.
Proof.
  split; [discriminate|]. repeat split.
Qed.

(** ** What an epoch prints and logs *)

(** X14: an epoch of testing that returns prints its average loss and,
    given a writer, logs three scalars in this order: the means over the
    batches of the reconstruction loss, of the domain loss and of the
    total loss; with [write_images] it then logs two images, the last
    batch (the last source batch followed by the target batch of the same
    index) and the sigmoid of its reconstruction.  Without a writer it
    logs nothing. *)
Theorem test_epoch_output
  (B : Backend) (ic oc fm lv : nat) (gn : bool) (lam : pyfloat) (s : nat)
  (loss_fn : FT -> FT -> pyfloat) (src_loader tar_loader : DataLoader)
  (epoch : nat) (writer : option SummaryWriter) (write_images : bool)
  (w : world)
  (Hsrc : batches src_loader <> [])
  (Htar : (List.length (batches src_loader)
           <= List.length (batches tar_loader))%nat) :
  let self := UNetAE.init ic oc fm lv gn lam s in
  let nt := module_train false (w_net w) in
  let last_index := (List.length (batches src_loader) - 1)%nat in
  let L := test_losses self (enumerate (batches tar_loader)) loss_fn nt
             (enumerate (batches src_loader)) in
  exists v rec_avg dom_avg b t,
    UNetAE.test_epoch self src_loader tar_loader loss_fn epoch writer
      write_images w
    = (mkWorld nt (w_optim w)
         (w_out w
          ++ [print (MsgAvgTest epoch v)]
          ++ match writer with
             | Some _ =>
                 [add_scalar "test/loss-rec" rec_avg epoch;
                  add_scalar "test/loss-dom" dom_avg epoch;
                  add_scalar "test/loss" v epoch]
                 ++ (if write_images then
                       [add_image "test/x-rec-input" (make_grid (cat b t))
                          epoch;
                        add_image "test/x-rec-output"
                          (make_grid (sigmoid (y_pred_of lv nt (cat b t))))
                          epoch]
                     else [])
             | None => []
             end),
       inr v)
    /\ rec_avg == arith_mean (map fst L)
    /\ dom_avg == arith_mean (map snd L)
    /\ v == arith_mean (map (total_loss lam) L)
    /\ List.length L = List.length (batches src_loader)
    /\ nth_error (batches src_loader) last_index = Some b
    /\ nth_error (batches tar_loader) last_index = Some t.
Proof.
  cbv zeta. unfold UNetAE.test_epoch. run.
  set (w0 := mkWorld (module_train false (w_net w)) (w_optim w) (w_out w)).
  destruct (test_loop_ok ic oc fm lv gn lam s loss_fn (batches tar_loader)
              w0 (batches src_loader) 0 UNetAE.running0 Htar)
    as (r' & Hrun & Hcnt & HL & Hsum & Hrec & Hdom & _).
  destruct (test_loop_last ic oc fm lv gn lam s loss_fn
              (batches tar_loader) w0 (batches src_loader) 0 UNetAE.running0
              r' Hsrc Hrun)
    as (b & t & Hb & Ht & Hlast).
  fold (enumerate (batches src_loader)) in Hrun, HL, Hsum, Hrec, Hdom.
  rewrite Hrun.
  assert (Hc : UNetAE.cnt r' <> 0%nat).
  { rewrite Hcnt. destruct (batches src_loader); [contradiction|cbn; lia]. }
  rewrite !(py_div_ok _ _ Hc). cbn [w_net w_optim w_out w0].
  cbn [w_net w0] in HL, Hsum, Hrec, Hdom.
  cbn [UNetAE.cnt UNetAE.running0 Nat.add] in Hcnt. rewrite <- HL in Hcnt.
  exists (fdiv_count (UNetAE.loss_cum r') (UNetAE.cnt r')),
    (fdiv_count (UNetAE.loss_rec_cum r') (UNetAE.cnt r')),
    (fdiv_count (UNetAE.loss_dom_cum r') (UNetAE.cnt r')), b, t.
  split; [|split; [|split; [|split; [|split; [exact HL|split]]]]].
  - destruct writer as [wr|]; [destruct write_images; [rewrite Hlast|]|];
      cbn [w_net w_optim w_out]; rewrite <- ?app_assoc; reflexivity.
  - apply mean_of_sum; [exact Hrec | now rewrite length_map].
  - apply mean_of_sum; [exact Hdom | now rewrite length_map].
  - apply mean_of_sum; [exact Hsum | now rewrite length_map].
  - exact Hb.
  - exact Ht.
Qed.

Lemma test_epoch_output_witness :
  batches (Toy.loader [Toy.batch1]) <> []
  /\ (List.length (batches (Toy.loader [Toy.batch1]))
      <= List.length (batches (Toy.loader [Toy.batch2])))%nat
  /\ let L := test_losses UNetAE.default (enumerate [Toy.batch2])
                Toy.loss_fn (module_train false (w_net Toy.world0))
                (enumerate [Toy.batch1]) in
     exists v rec_avg dom_avg b t,
       UNetAE.test_epoch UNetAE.default (Toy.loader [Toy.batch1])
         (Toy.loader [Toy.batch2]) Toy.loss_fn 0
         (Some (mkWriter "logs")) false Toy.world0
       = (mkWorld (module_train false (w_net Toy.world0))
            (w_optim Toy.world0)
            (w_out Toy.world0
             ++ [print (MsgAvgTest 0 v)]
             ++ [add_scalar "test/loss-rec" rec_avg 0;
                 add_scalar "test/loss-dom" dom_avg 0;
                 add_scalar "test/loss" v 0] ++ []),
          inr v)
       /\ rec_avg == arith_mean (map fst L)
       /\ dom_avg == arith_mean (map snd L)
       /\ v == arith_mean (map (total_loss 0) L)
       /\ List.length L = 1%nat
       /\ nth_error (batches (Toy.loader [Toy.batch1])) 0 = Some b
       /\ nth_error (batches (Toy.loader [Toy.batch2])) 0 = Some t.
Proof.
  split; [discriminate|]. split; [cbn; lia|].
  apply (test_epoch_output Toy.backend 1 1 64 4 false 0 128 Toy.loss_fn
           (Toy.loader [Toy.batch1]) (Toy.loader [Toy.batch2]) 0%nat
           (Some (mkWriter "logs")) false Toy.world0);
    [discriminate | cbn; lia].
Defined.

(** X15: an epoch of training that returns prints a progress line for
    exactly the iterations [i] with [i % print_stats == 0], in their
    order, each with the number [i] and the total loss of batch [i], then
    its average loss; given a writer it then logs the means over the
    batches of the reconstruction loss, of the domain loss and of the
    total loss, and with [write_images] two images, the last batch and
    the sigmoid of its reconstruction (by the network as it was when the
    last iteration began, its gradients zeroed); without a writer it logs
    nothing. *)
Theorem train_epoch_output
  (B : Backend) (ic oc fm lv : nat) (gn : bool) (lam : pyfloat) (s : nat)
  (loss_fn : FT -> FT -> pyfloat) (src_loader tar_loader : DataLoader)
  (epoch : nat) (print_stats : Z) (writer : option SummaryWriter)
  (write_images : bool) (w : world)
  (Hsrc : batches src_loader <> [])
  (Htar : (List.length (batches src_loader)
           <= List.length (batches tar_loader))%nat)
  (Hprint : print_stats <> 0%Z) :
  let self := UNetAE.init ic oc fm lv gn lam s in
  let last_index := (List.length (batches src_loader) - 1)%nat in
  let L := train_losses self src_loader (enumerate (batches tar_loader))
             loss_fn epoch print_stats (enumerate (batches src_loader))
             (mkWorld (module_train true (w_net w)) (w_optim w) (w_out w)) in
  let nt :=
    zero_grad
      (fst (trained lam loss_fn
              (combine (removelast (batches src_loader))
                 (batches tar_loader))
              (module_train true (w_net w), w_optim w))) in
  exists w' v rec_avg dom_avg b t,
    UNetAE.train_epoch self src_loader tar_loader loss_fn epoch print_stats
      writer write_images w
    = (w', inr v)
    /\ w_out w'
       = w_out w
         ++ progress_lines lam src_loader epoch print_stats 0 L
         ++ [print (MsgAvgTrain epoch v)]
         ++ match writer with
            | Some _ =>
                [add_scalar "train/loss-rec" rec_avg epoch;
                 add_scalar "train/loss-dom" dom_avg epoch;
                 add_scalar "train/loss" v epoch]
                ++ (if write_images then
                      [add_image "train/x-rec-input" (make_grid (cat b t))
                         epoch;
                       add_image "train/x-rec-output"
                         (make_grid (sigmoid (y_pred_of lv nt (cat b t))))
                         epoch]
                    else [])
            | None => []
            end
    /\ rec_avg == arith_mean (map fst L)
    /\ dom_avg == arith_mean (map snd L)
    /\ v == arith_mean (map (total_loss lam) L)
    /\ List.length L = List.length (batches src_loader)
    /\ nth_error (batches src_loader) last_index = Some b
    /\ nth_error (batches tar_loader) last_index = Some t.
Proof.
  cbv zeta. unfold UNetAE.train_epoch. run.
  set (w0 := mkWorld (module_train true (w_net w)) (w_optim w) (w_out w)).
  destruct (train_loop_ok ic oc fm lv gn lam s loss_fn src_loader
              (batches tar_loader) epoch print_stats Hprint
              (batches src_loader) 0 UNetAE.running0 w0 Htar)
    as (w1 & r' & Hrun & Hcnt & HL & Hsum & Hrec & Hdom & _ & _).
  pose proof (train_loop_out ic oc fm lv gn lam s loss_fn src_loader
                (batches tar_loader) epoch print_stats Hprint
                (batches src_loader) 0 UNetAE.running0 w0 Htar) as Hout.
  destruct (train_loop_last ic oc fm lv gn lam s loss_fn src_loader
              (batches tar_loader) epoch print_stats Hprint
              (batches src_loader) 0 UNetAE.running0 r' w0 w1 Hsrc Hrun)
    as (b & t & Hb & Ht & Hlast).
  rewrite Hrun in Hout. cbn [fst w0 w_out] in Hout.
  cbn [skipn w0 w_net w_optim] in Hlast.
  fold (enumerate (batches src_loader)) in Hrun, HL, Hsum, Hrec, Hdom, Hout.
  rewrite Hrun.
  assert (Hc : UNetAE.cnt r' <> 0%nat).
  { rewrite Hcnt. destruct (batches src_loader); [contradiction|cbn; lia]. }
  rewrite !(py_div_ok _ _ Hc).
  cbn [UNetAE.cnt UNetAE.running0 Nat.add] in Hcnt. rewrite <- HL in Hcnt.
  destruct writer as [wr|]; [destruct write_images; [rewrite Hlast|]|];
    eexists;
    exists (fdiv_count (UNetAE.loss_cum r') (UNetAE.cnt r')),
      (fdiv_count (UNetAE.loss_rec_cum r') (UNetAE.cnt r')),
      (fdiv_count (UNetAE.loss_dom_cum r') (UNetAE.cnt r')), b, t;
    (split; [reflexivity|]);
    (split; [cbn [fst w_out]; rewrite Hout, <- ?app_assoc; reflexivity|]);
    (split; [apply mean_of_sum; [exact Hrec | now rewrite length_map]|]);
    (split; [apply mean_of_sum; [exact Hdom | now rewrite length_map]|]);
    (split; [apply mean_of_sum; [exact Hsum | now rewrite length_map]|]);
    (split; [exact HL|]);
    (split; [exact Hb | exact Ht]).
Qed.

Lemma train_epoch_output_witness :
  batches (Toy.loader [Toy.batch1; Toy.batch2]) <> []
  /\ (List.length (batches (Toy.loader [Toy.batch1; Toy.batch2]))
      <= List.length (batches (Toy.loader [Toy.batch2; Toy.batch1])))%nat
  /\ 2%Z <> 0%Z
  /\ let self := UNetAE.init 1 1 64 4 false (1 # 2)%Q 128 in
     let L := train_losses self (Toy.loader [Toy.batch1; Toy.batch2])
                (enumerate [Toy.batch2; Toy.batch1]) Toy.loss_fn 0 2
                (enumerate [Toy.batch1; Toy.batch2])
                (mkWorld (module_train true (w_net Toy.world0))
                   (w_optim Toy.world0) (w_out Toy.world0)) in
     exists w' v rec_avg dom_avg b t,
       UNetAE.train_epoch self (Toy.loader [Toy.batch1; Toy.batch2])
         (Toy.loader [Toy.batch2; Toy.batch1]) Toy.loss_fn 0 2
         (Some (mkWriter "logs")) false Toy.world0
       = (w', inr v)
       /\ w_out w'
          = w_out Toy.world0
            ++ progress_lines (1 # 2)%Q (Toy.loader [Toy.batch1; Toy.batch2])
                 0 2 0 L
            ++ [print (MsgAvgTrain 0 v)]
            ++ [add_scalar "train/loss-rec" rec_avg 0;
                add_scalar "train/loss-dom" dom_avg 0;
                add_scalar "train/loss" v 0] ++ []
       /\ rec_avg == arith_mean (map fst L)
       /\ dom_avg == arith_mean (map snd L)
       /\ v == arith_mean (map (total_loss (1 # 2)%Q) L)
       /\ List.length L = 2%nat
       /\ nth_error (batches (Toy.loader [Toy.batch1; Toy.batch2])) 1 = Some b
       /\ nth_error (batches (Toy.loader [Toy.batch2; Toy.batch1])) 1
          = Some t.
Proof.
  split; [discriminate|]. split; [cbn; lia|]. split; [discriminate|].
  apply (train_epoch_output Toy.backend 1 1 64 4 false (1 # 2)%Q 128
           Toy.loss_fn (Toy.loader [Toy.batch1; Toy.batch2])
           (Toy.loader [Toy.batch2; Toy.batch1]) 0%nat 2%Z
           (Some (mkWriter "logs")) false Toy.world0);
    [discriminate | cbn; lia | discriminate].
Defined.

(** Four batches with [print_stats = 2]: the progress lines are those of
    the iterations 0 and 2, in this order. *)
Example progress_lines_every_second :
  map (fun ev => match ev with
                 | print (MsgIteration _ i _ _) => Some i
                 | _ => None
                 end)
    (w_out (fst (UNetAE.train_epoch UNetAE.default
                   (Toy.loader [Toy.batch1; Toy.batch2; Toy.batch1;
                                Toy.batch2])
                   (Toy.loader [Toy.batch2; Toy.batch1; Toy.batch2;
                                Toy.batch1])
                   Toy.loss_fn 0 2 None false Toy.world0)))
  = [Some 0%nat; Some 2%nat; None].
Proof. vm_compute. reflexivity. Qed.

(** ** More on training the network *)



(** A loss is below [np.inf] exactly when it is a finite number or minus
    infinity: neither infinity nor NaN is. *)
Lemma flt_np_inf (v : pyfloat) :
  (v <? np_inf) = match v with
                  | finite _ | neg_inf => true
                  | pos_inf | nan => false
                  end.
Proof. now destruct v. Qed.



(** A run whose domain loss is infinite, with [lambda_rec = 1]: the test
    loss of each of the two epochs is infinite, none is below [np.inf],
    and only the regular checkpoint is saved. *)
Example train_net_diverged_saves_no_best :
  marks (w_out (fst (UNetAE.train_net (B := ToyDiverged.backend)
                       (UNetAE.init 1 1 2 1 false 1 4)
                       (Toy.loader [Toy.batch1]) (Toy.loader [Toy.batch1])
                       (Toy.loader [Toy.batch2]) (Toy.loader [Toy.batch2])
                       Toy.loss_fn (1 # 1000) 1 1 2 1 1
                       (Some "logs"%string) 1 ToyDiverged.world0)))
  = [TrainEpoch 0; SchedulerStep 0; TestEpoch 0 pos_inf;
     Saved "logs/checkpoint.pytorch";
     TrainEpoch 1; SchedulerStep 1; TestEpoch 1 pos_inf;
     Saved "logs/checkpoint.pytorch";
     Closed].
Proof. vm_compute. reflexivity. Qed.

(** ** More on the gradient-reversal layer *)

(** X18: reversing a gradient twice gives it back: the backward pass of
    the layer is its own inverse. *)
Theorem reverse_layer_backward_involutive
  (c c' : ReverseLayerF.ctx) (g : FT) :
  ReverseLayerF.backward c' (fst (ReverseLayerF.backward c g)) = (g, None).
Proof.
  unfold ReverseLayerF.backward, neg. cbn [fst shape data].
  destruct g as [sh d]. cbn [shape data]. do 2 f_equal.
  rewrite map_map. rewrite <- (map_id d) at 2.
  apply map_ext. intros [qn qd]. unfold Qopp. cbn.
  now rewrite Z.opp_involutive.
Qed.
